(** * PortWatch: the per-target monitor, the rotating log writer and startup

    A shallow embedding of [main.go] of portwatch-go.  The Go functions of the
    program are Rocq functions of the same name; the operating system, the
    network, the clock and the Discord endpoint are inputs ([Env], [Faults],
    [Boot]) and every call the program makes to them is recorded as an
    [Event] or a [Syscall], in program order. *)

From Stdlib Require Import ZArith Lia List Bool Ascii String.
From Stdlib.Strings Require Import Byte.
From stdpp Require Import base tactics option list strings pretty gmap.

Open Scope Z_scope.

(** ** The parts of the Go runtime and standard library the program uses *)

Module Go.

(** [int64] arithmetic wraps around. *)
Definition wrap64 (z : Z) : Z := (z + 2 ^ 63) mod 2 ^ 64 - 2 ^ 63.
Definition wrapU64 (z : Z) : Z := z mod 2 ^ 64.
Definition minInt64 : Z := - 2 ^ 63.
Definition maxInt64 : Z := 2 ^ 63 - 1.

(** An [error] value: its [Error()] text and, when the dynamic type
    implements [net.Error], the answer of its [Timeout()] method. *)
Record error := mkError {
  Error : string;
  netTimeout : option bool
}.

Definition errorString (s : string) : error := mkError s None.

(** [strconv.Itoa]. *)
Definition Itoa (i : Z) : string := pretty i.

Definition newline : string := String (ascii_of_nat 10) EmptyString.

(** The double quote, for [%q]. *)
Definition dquote : string := String (ascii_of_nat 34) EmptyString.

(** [time.Duration]: a count of nanoseconds held in an [int64]. *)
Definition Duration := Z.
Definition Nanosecond : Duration := 1.
Definition Microsecond : Duration := 1000.
Definition Millisecond : Duration := 1000000.
Definition Second : Duration := 1000000000.
Definition minDuration : Duration := minInt64.
Definition maxDuration : Duration := maxInt64.

(** [time.Location]: a zone name, the offset (seconds east of UTC) in force
    before the first transition, and the transitions (Unix second, new
    offset) in increasing order. *)
Record Location := mkLocation {
  locName : string;
  locBase : Z;
  locTx : list (Z * Z)
}.

Fixpoint lookupOffset (tx : list (Z * Z)) (cur sec : Z) : Z :=
  match tx with
  | [] => cur
  | (w, off) :: rest => if w <=? sec then lookupOffset rest off sec else cur
  end.

(** [time.Time] without a monotonic reading (the program only handles times
    that went through [In], which strips it): nanoseconds since
    January 1, year 1, 00:00:00 UTC, and the location used for display. *)
Record Time := mkTime {
  absNano : Z;
  tloc : Location
}.

Definition unixToInternal : Z := 62135596800.

Definition IsZero (t : Time) : bool := absNano t =? 0.

Definition In (t : Time) (l : Location) : Time := mkTime (absNano t) l.

(** [Time.Sub]: the difference, saturated to the range of [Duration]. *)
Definition Sub (t u : Time) : Duration :=
  let d := absNano t - absNano u in
  if d <? minDuration then minDuration
  else if maxDuration <? d then maxDuration
  else d.

Definition lessThanHalf (x y : Duration) : bool :=
  wrapU64 (wrapU64 x + wrapU64 x) <? wrapU64 y.

(** [Duration.Round]: to the nearest multiple of [m], halves away from zero. *)
Definition Round (d m : Duration) : Duration :=
  if m <=? 0 then d
  else
    let r := Z.rem d m in
    if d <? 0 then
      let r := - r in
      if lessThanHalf r m then wrap64 (d + r)
      else
        let d1 := wrap64 (d - m + r) in
        if d1 <? d then d1 else minDuration
    else
      if lessThanHalf r m then wrap64 (d - r)
      else
        let d1 := wrap64 (d + m - r) in
        if d <? d1 then d1 else maxDuration.

Definition digit (d : Z) : ascii := ascii_of_nat (48 + Z.to_nat (d mod 10)).

(** [fmtFrac]: the fraction of [v / 10^prec] in front of [acc], without
    trailing zeros, and without the point when the fraction is zero. *)
Fixpoint fmtFrac (prec : nat) (v : Z) (print : bool) (acc : string)
  : string * Z :=
  match prec with
  | O => (if print then String "." acc else acc, v)
  | S k =>
      let dg := v mod 10 in
      let print := print || negb (dg =? 0) in
      fmtFrac k (v / 10) print (if print then String (digit dg) acc else acc)
  end.

Definition fmtInt (v : Z) (acc : string) : string := pretty v +:+ acc.

(** The two bytes of the micro sign in UTF-8. *)
Definition micro : string :=
  String (ascii_of_nat 194) (String (ascii_of_nat 181) EmptyString).

(** [Duration.String], e.g. [72h3m0.5s]. *)
Definition DurationString (d : Duration) : string :=
  let u := Z.abs d in
  let body :=
    if u <? Second then
      if u =? 0 then "0s"
      else if u <? Microsecond then
        let '(s, v) := fmtFrac 0 u false "ns" in fmtInt v s
      else if u <? Millisecond then
        let '(s, v) := fmtFrac 3 u false (micro +:+ "s") in fmtInt v s
      else
        let '(s, v) := fmtFrac 6 u false "ms" in fmtInt v s
    else
      let '(s, v) := fmtFrac 9 u false "s" in
      let s := fmtInt (v mod 60) s in
      let v := v / 60 in
      if 0 <? v then
        let s := fmtInt (v mod 60) (String "m" s) in
        let v := v / 60 in
        if 0 <? v then fmtInt v (String "h" s) else s
      else s
  in
  if d <? 0 then String "-" body else body.

(** Civil date of a day count since January 1, year 1 (proleptic
    Gregorian calendar): year, month, day. *)
Definition civil (days : Z) : Z * Z * Z :=
  let z := days + 306 in
  let era := z / 146097 in
  let doe := z mod 146097 in
  let yoe := (doe - doe / 1460 + doe / 36524 - doe / 146096) / 365 in
  let doy := doe - (365 * yoe + yoe / 4 - yoe / 100) in
  let mp := (5 * doy + 2) / 153 in
  let d := doy - (153 * mp + 2) / 5 + 1 in
  let m := if mp <? 10 then mp + 3 else mp - 9 in
  let y := yoe + era * 400 + (if m <=? 2 then 1 else 0) in
  (y, m, d).

(** [appendInt]: decimal, zero-padded to [width] digits, with a sign. *)
Fixpoint zeros (n : nat) : string :=
  match n with O => EmptyString | S k => String "0" (zeros k) end.

Definition appendInt (x : Z) (width : nat) : string :=
  let s := pretty (Z.abs x) in
  let padded := zeros (width - String.length s) +:+ s in
  if x <? 0 then String "-" padded else padded.

(** Seconds of local wall-clock time since year 1 shown for [t]. *)
Definition zoneOffset (t : Time) : Z :=
  lookupOffset (locTx (tloc t)) (locBase (tloc t))
               (absNano t / Second - unixToInternal).

Definition localSec (t : Time) : Z := absNano t / Second + zoneOffset t.

Definition dateTime (t : Time) (dsep between tsep : string) : string :=
  let s := localSec t in
  let '(y, m, d) := civil (s / 86400) in
  let sod := s mod 86400 in
  appendInt y 4 +:+ dsep +:+ appendInt m 2 +:+ dsep +:+ appendInt d 2
  +:+ between
  +:+ appendInt (sod / 3600) 2 +:+ tsep +:+ appendInt (sod mod 3600 / 60) 2
  +:+ tsep +:+ appendInt (sod mod 60) 2.

(** [t.Format("2006-01-02_15-04-05")]. *)
Definition FormatStamp (t : Time) : string := dateTime t "-" "_" "-".

(** [t.Format(time.RFC3339)]. *)
Definition FormatRFC3339 (t : Time) : string :=
  let off := zoneOffset t in
  let zone :=
    if off =? 0 then "Z"
    else
      let zone := Z.quot off 60 in
      (if zone <? 0 then "-" else "+")
      +:+ appendInt (Z.abs zone / 60) 2 +:+ ":"
      +:+ appendInt (Z.abs zone mod 60) 2 in
  dateTime t "-" "T" ":" +:+ zone.

Fixpoint hasSlash (s : string) : bool :=
  match s with
  | EmptyString => false
  | String c r => if Ascii.eqb c "/" then true else hasSlash r
  end.

(** [net.JoinHostPort]. *)
Fixpoint hasColon (s : string) : bool :=
  match s with
  | EmptyString => false
  | String c r => if Ascii.eqb c ":" then true else hasColon r
  end.

Definition JoinHostPort (host port : string) : string :=
  if hasColon host then "[" +:+ host +:+ "]:" +:+ port
  else host +:+ ":" +:+ port.

(** The elements of a slash-separated path, empty ones included. *)
Fixpoint splitSlash (s cur : string) : list string :=
  match s with
  | EmptyString => [cur]
  | String c r =>
      if Ascii.eqb c "/" then cur :: splitSlash r EmptyString
      else splitSlash r (cur +:+ String c EmptyString)
  end.

Fixpoint joinSlash (els : list string) : string :=
  match els with
  | [] => EmptyString
  | [e] => e
  | e :: rest => e +:+ "/" +:+ joinSlash rest
  end.

(** The element loop of [filepath.Clean]; [stack] holds the elements
    kept so far, the last one first.  Empty and [.] elements are dropped;
    [..] removes the element before it, is dropped at the root, and is
    kept at the start of a relative path. *)
Fixpoint cleanElems (rooted : bool) (els stack : list string) : list string :=
  match els with
  | [] => stack
  | e :: rest =>
      if String.eqb e "" || String.eqb e "." then cleanElems rooted rest stack
      else if String.eqb e ".." then
        match stack with
        | top :: below =>
            if String.eqb top ".." then cleanElems rooted rest (e :: stack)
            else cleanElems rooted rest below
        | [] =>
            if rooted then cleanElems rooted rest []
            else cleanElems rooted rest [e]
        end
      else cleanElems rooted rest (e :: stack)
  end.

(** [filepath.Clean] on slash-separated paths. *)
Definition Clean (path : string) : string :=
  match path with
  | EmptyString => "."
  | String c _ =>
      let rooted := Ascii.eqb c "/" in
      let kept := rev (cleanElems rooted (splitSlash path EmptyString) []) in
      if rooted then "/" +:+ joinSlash kept
      else
        match kept with
        | [] => "."
        | _ :: _ => joinSlash kept
        end
  end.

(** The part of a path up to and including its last slash. *)
Fixpoint dirPart (s seen last : string) : string :=
  match s with
  | EmptyString => last
  | String c r =>
      if Ascii.eqb c "/" then dirPart r (seen +:+ "/") (seen +:+ "/")
      else dirPart r (seen +:+ String c EmptyString) last
  end.

(** [filepath.Dir]. *)
Definition Dir (path : string) : string :=
  Clean (dirPart path EmptyString EmptyString).

(** [filepath.Join] of two elements. *)
Definition Join (dir name : string) : string :=
  if negb (String.eqb dir "") then Clean (dir +:+ "/" +:+ name)
  else if negb (String.eqb name "") then Clean name
  else "".

End Go.

Import Go.


(** ** Data model ([main.go], lines 18-68) *)

Record TargetConfig := mkTargetConfig {
  tcName : string;
  tcIPv4 : string;
  tcIPv6 : string;
  tcDPort : Z
}.

Record Config := mkConfig {
  Targets : list TargetConfig;
  IPv4 : string;
  IPv6 : string;
  DPort : Z;
  Webhook : string;
  Host : string;
  Delay : Z;
  Timeout : Z;
  Timezone : string
}.

Record discordEmbedField := mkField {
  fieldName : string;
  fieldValue : string;
  fieldInline : bool
}.

Record discordEmbed := mkEmbed {
  Title : string;
  Description : string;
  Color : Z;
  Fields : list discordEmbedField;
  Timestamp : string
}.

Record discordWebhookPayload := mkPayload {
  Content : string;
  Embeds : list discordEmbed
}.

Record TargetState := mkTargetState {
  Name : string;
  IP : string;
  IPVersion : string;
  Network : string;
  Port : Z;
  Down : bool;
  DownSince : Time
}.

(** Go's zero [time.Time], the value of a [DownSince] never assigned. *)
Definition zeroTime : Time := mkTime 0 (mkLocation "UTC" 0 []).

(** Field assignments through the [*TargetState] pointer. *)
Definition setDown (b : bool) (t : TargetState) : TargetState :=
  mkTargetState (Name t) (IP t) (IPVersion t) (Network t) (Port t) b (DownSince t).

Definition setDownSince (ts : Time) (t : TargetState) : TargetState :=
  mkTargetState (Name t) (IP t) (IPVersion t) (Network t) (Port t) (Down t) ts.

(** ** Effects of one monitoring cycle *)

(** What the program asks of the outside world, in program order. *)
Inductive Event :=
| EvLog (line : string)
| EvDial (network addr : string) (timeout : Duration)
| EvExec (name : string) (args : list string)
| EvMkdirAll (dir : string)
| EvWriteFile (path data : string)
| EvSendToDiscord (webhook : string) (payload : discordWebhookPayload)
| EvSleep (d : Duration).

(** How the webhook delivery of one cycle ends: the request could not be
    built, [client.Do] failed, or [client.Do] handed back a response (the
    last one, if it followed redirects) with this status. *)
Inductive Delivery :=
| NewRequestError (e : error)
| DoError (e : error)
| Response (status : Z).

Inductive result (A : Type) :=
| Ok (a : A)
| Err (e : error).
Arguments Ok {A} a.
Arguments Err {A} e.

(** What the outside world answers during one cycle. *)
Record Env := mkEnv {
  clock : Time;
  dialResult : option error;
  mtrResult : string * option error;
  hostnameResult : result string;
  executableResult : result string;
  mkdirResult : option error;
  writeFileResult : option error;
  delivery : Delivery
}.

(** Computations that record their events. *)
Definition IO (A : Type) : Type := A * list Event.

#[global] Instance IO_ret : MRet IO := fun A a => (a, []).

#[global] Instance IO_bind : MBind IO := fun A B f m =>
  let '(a, e1) := m in
  let '(b, e2) := f a in
  (b, e1 ++ e2).

Definition emit (e : Event) : IO unit := (tt, [e]).

Definition logPrintf (line : string) : IO unit := emit (EvLog line).

Definition value {A} (m : IO A) : A := fst m.
Definition events {A} (m : IO A) : list Event := snd m.

(** ** Probe, trace and alerts ([main.go], lines 151-319) *)

(** [net.DialTimeout]; a connection that was opened is closed at once. *)
Definition tcpPing (env : Env) (ip : string) (port timeoutSec : Z)
    (network : string) : IO (option error) :=
  let addr := JoinHostPort ip (Itoa port) in
  let timeout := wrap64 (timeoutSec * Second) in
  emit (EvDial network addr timeout) ;;
  mret (dialResult env).

(** [exec.Command(...).CombinedOutput()]. *)
Definition runMTR (env : Env) (ip : string) : IO (string * option error) :=
  emit (EvExec "mtr" ["-rwbzc"; "10"; ip]) ;;
  mret (mtrResult env).

(** The file name of a persisted trace (lines 184-193). *)
Definition mtrFilename (ts : Time) (t : TargetState) : string :=
  let name := if String.eqb (Name t) "" then "target" else Name t in
  FormatStamp ts +:+ "_" +:+ name +:+ "_" +:+ IPVersion t +:+ "_"
  +:+ Itoa (Port t) +:+ ".txt".

Definition saveMTRToFile (env : Env) (mtrOut : string) (ts : Time)
    (t : TargetState) : IO unit :=
  match executableResult env with
  | Err err =>
      logPrintf ("cannot determine executable path for mtr dir: " +:+ Error err)
  | Ok exePath =>
      let baseDir := Dir exePath in
      let dir := Join baseDir "mtr" in
      emit (EvMkdirAll dir) ;;
      match mkdirResult env with
      | Some err =>
          logPrintf ("cannot create mtr dir " +:+ dir +:+ ": " +:+ Error err)
      | None =>
          let path := Join dir (mtrFilename ts t) in
          emit (EvWriteFile path mtrOut) ;;
          match writeFileResult env with
          | Some err =>
              logPrintf ("cannot write mtr file " +:+ path +:+ ": " +:+ Error err)
          | None => mret tt
          end
      end
  end.

(** The event records the call; [delivery] tells how the request ended.
    [json.Marshal] cannot fail on a payload of strings and numbers. *)
Definition sendToDiscord (env : Env) (webhook : string)
    (payload : discordWebhookPayload) : IO (option error) :=
  emit (EvSendToDiscord webhook payload) ;;
  match delivery env with
  | NewRequestError e => mret (Some e)
  | DoError e => mret (Some e)
  | Response status =>
      if (status <? 200) || (300 <=? status)
      then mret (Some (errorString ("discord webhook status " +:+ Itoa status)))
      else mret None
  end.

Definition getHostname (env : Env) (cfg : Config) : string :=
  if negb (String.eqb (Host cfg) "") then Host cfg
  else
    match hostnameResult env with
    | Err _ => "unknown"
    | Ok hn => hn
    end.

Definition sendDownAlert (env : Env) (cfg : Config) (t : TargetState)
    (err : error) (mtrOut : string) (ts : Time) : IO unit :=
  let host := getHostname env cfg in
  let targetName := if String.eqb (Name t) "" then "-" else Name t in
  let fields := [
    mkField "Target" targetName true;
    mkField "Hostname" host true;
    mkField "IP" (IP t) true;
    mkField "IP Version" (IPVersion t) true;
    mkField "Port" (Itoa (Port t)) true;
    mkField "Delay (s)" (Itoa (Delay cfg)) true;
    mkField "Timeout (s)" (Itoa (Timeout cfg)) true;
    mkField "Status" "DOWN" true;
    mkField "Error" (Error err) false
  ] in
  let desc :=
    if negb (String.eqb mtrOut "")
    then "```text" +:+ newline +:+ mtrOut +:+ newline +:+ "```"
    else "" in
  let embed := mkEmbed "Port monitor alert (DOWN)" desc 16711680 fields
                       (FormatRFC3339 ts) in
  let payload := mkPayload "" [embed] in
  derr ← sendToDiscord env (Webhook cfg) payload ;
  match derr with
  | Some derr => logPrintf ("error sending DOWN alert to discord: " +:+ Error derr)
  | None => mret tt
  end.

Definition sendUpAlert (env : Env) (cfg : Config) (t : TargetState)
    (downSince ts : Time) : IO unit :=
  let host := getHostname env cfg in
  let dur := Round (Sub ts downSince) Second in
  let targetName := if String.eqb (Name t) "" then "-" else Name t in
  let fields := [
    mkField "Target" targetName true;
    mkField "Hostname" host true;
    mkField "IP" (IP t) true;
    mkField "IP Version" (IPVersion t) true;
    mkField "Port" (Itoa (Port t)) true;
    mkField "Delay (s)" (Itoa (Delay cfg)) true;
    mkField "Timeout (s)" (Itoa (Timeout cfg)) true;
    mkField "Status" "UP" true;
    mkField "Downtime" (DurationString dur) false
  ] in
  let embed := mkEmbed "Port monitor recovery (UP)" "" 65280 fields
                       (FormatRFC3339 ts) in
  let payload := mkPayload "" [embed] in
  derr ← sendToDiscord env (Webhook cfg) payload ;
  match derr with
  | Some derr => logPrintf ("error sending UP alert to discord: " +:+ Error derr)
  | None => mret tt
  end.

(** ** The per-target step ([checkTarget], lines 323-366) *)

(** [err.(net.Error)] succeeds and [Timeout()] answers true. *)
Definition isTimeout (err : error) : bool :=
  match netTimeout err with
  | Some b => b
  | None => false
  end.

Definition noMTR : string := "no mtr (non-timeout error)".

(** The state is passed by value, so the [t == nil] half of the guard of
    line 324 has no counterpart; [main] never builds a nil state. *)
Definition checkTarget (env : Env) (cfg : Config) (t : TargetState)
    (loc : Location) : IO TargetState :=
  if String.eqb (IP t) "" then mret t
  else
    let now := In (clock env) loc in
    err ← tcpPing env (IP t) (Port t) (Timeout cfg) (Network t) ;
    match err with
    | None =>
        if Down t then
          logPrintf ("UP " +:+ IPVersion t +:+ " " +:+ Name t +:+ " " +:+ IP t
                     +:+ ":" +:+ Itoa (Port t) +:+ " after "
                     +:+ DurationString (Round (Sub now (DownSince t)) Second)) ;;
          sendUpAlert env cfg t (DownSince t) now ;;
          mret (setDown false t)
        else mret t
    | Some err =>
        if negb (Down t) then
          let t := setDownSince now (setDown true t) in
          logPrintf ("DOWN " +:+ IPVersion t +:+ " " +:+ Name t +:+ " " +:+ IP t
                     +:+ ":" +:+ Itoa (Port t) +:+ " error=" +:+ Error err) ;;
          mtrOut ←
            (if isTimeout err then
               '(mtrText, mtrErr) ← runMTR env (IP t) ;
               mtrOut ←
                 match mtrErr with
                 | Some mtrErr =>
                     logPrintf ("mtr error for " +:+ IP t +:+ ": " +:+ Error mtrErr) ;;
                     mret ("mtr error: " +:+ Error mtrErr +:+ newline +:+ newline
                           +:+ mtrText)
                 | None => mret mtrText
                 end ;
               (if negb (String.eqb mtrOut "")
                then saveMTRToFile env mtrOut now t
                else mret tt) ;;
               mret mtrOut
             else mret noMTR) ;
          sendDownAlert env cfg t err mtrOut now ;;
          mret t
        else mret t
    end.

(** [monitorTarget] (lines 370-375) never returns; this is the loop run for
    as many cycles as there are environments in [envs]. *)
Fixpoint monitorTarget (envs : list Env) (cfg : Config) (t : TargetState)
    (loc : Location) : IO TargetState :=
  match envs with
  | [] => mret t
  | env :: rest =>
      t ← checkTarget env cfg t loc ;
      emit (EvSleep (wrap64 (Delay cfg * Second))) ;;
      monitorTarget rest cfg t loc
  end.

(** ** The rotating log writer ([main.go], lines 72-131) *)

(** The calls the writer makes to the operating system. *)
Inductive Syscall :=
| SysOpenAppend (name : string)
| SysOpenTrunc (name : string)
| SysClose (name : string)
| SysRename (oldname newname : string)
| SysStat (name : string)
| SysWrite (name : string) (p : list byte).

(** The directory the log lives in: file contents by name, and the calls
    made so far, oldest first. *)
Record Disk := mkDisk {
  files : gmap string (list byte);
  calls : list Syscall
}.

Definition called (c : Syscall) (d : Disk) : Disk :=
  mkDisk (files d) (calls d ++ [c]).

Definition setFiles (m : gmap string (list byte)) (d : Disk) : Disk :=
  mkDisk m (calls d).

(** Failures the operating system may answer with during one [Write] (or
    one [newRotatingWriter]); [writeFault] carries the count of bytes that
    were still written. *)
Record Faults := mkFaults {
  openFault : option error;
  statFault : option error;
  renameFault : option error;
  truncFault : option error;
  writeFault : option (nat * error)
}.

Definition noFaults : Faults := mkFaults None None None None None.

(** An [*os.File]: the name it was opened under, and whether [Close] was
    called on it. *)
Record File := mkFile {
  fileName : string;
  fileClosed : bool
}.

Definition ErrClosed : error := errorString "file already closed".
Definition ErrNotExist : error := errorString "no such file or directory".

(** [os.OpenFile] with [O_CREATE|O_WRONLY] and either [O_APPEND] or
    [O_TRUNC]. *)
Definition OpenFile (trunc : bool) (fault : option error) (name : string)
    (d : Disk) : Disk * result File :=
  let d := called (if trunc then SysOpenTrunc name else SysOpenAppend name) d in
  match fault with
  | Some e => (d, Err e)
  | None =>
      let content := if trunc then [] else default [] (files d !! name) in
      (setFiles (<[name := content]> (files d)) d, Ok (mkFile name false))
  end.

Definition Close (f : File) (d : Disk) : Disk * File :=
  (called (SysClose (fileName f)) d, mkFile (fileName f) true).

(** [os.Rename]: the target is replaced. *)
Definition Rename (fault : option error) (oldname newname : string)
    (d : Disk) : Disk * option error :=
  let d := called (SysRename oldname newname) d in
  match fault with
  | Some e => (d, Some e)
  | None =>
      match files d !! oldname with
      | None => (d, Some ErrNotExist)
      | Some content =>
          (setFiles (<[newname := content]> (delete oldname (files d))) d, None)
      end
  end.

(** [File.Stat], of which only [Size()] is used. *)
Definition Stat (fault : option error) (f : File) (d : Disk)
    : Disk * result Z :=
  let d := called (SysStat (fileName f)) d in
  if fileClosed f then (d, Err ErrClosed)
  else
    match fault with
    | Some e => (d, Err e)
    | None => (d, Ok (Z.of_nat (length (default [] (files d !! fileName f)))))
    end.

(** [File.Write]: the writer is the only one to write to its file, so a
    write through either kind of handle lands at the end. *)
Definition FileWrite (fault : option (nat * error)) (f : File) (p : list byte)
    (d : Disk) : Disk * (Z * option error) :=
  let d := called (SysWrite (fileName f) p) d in
  if fileClosed f then (d, (0, Some ErrClosed))
  else
    let old := default [] (files d !! fileName f) in
    match fault with
    | Some (n, e) =>
        let q := take n p in
        (setFiles (<[fileName f := old ++ q]> (files d)) d,
         (Z.of_nat (length q), Some e))
    | None =>
        (setFiles (<[fileName f := old ++ p]> (files d)) d,
         (Z.of_nat (length p), None))
    end.

Record rotatingWriter := mkWriter {
  path : string;
  maxSize : Z;
  file : option File
}.

Definition setFile (f : option File) (w : rotatingWriter) : rotatingWriter :=
  mkWriter (path w) (maxSize w) f.

(** [w.file.Close()] when [w.file != nil]: the handle stays in place, closed. *)
Definition closeCurrent (w : rotatingWriter) (d : Disk)
    : rotatingWriter * Disk :=
  match file w with
  | Some f => let '(d, f) := Close f d in (setFile (Some f) w, d)
  | None => (w, d)
  end.

Definition open (flt : Faults) (w : rotatingWriter) (d : Disk)
    : rotatingWriter * Disk * option error :=
  let '(w, d) := closeCurrent w d in
  match OpenFile false (openFault flt) (path w) d with
  | (d, Err err) => (w, d, Some err)
  | (d, Ok f) => (setFile (Some f) w, d, None)
  end.

Definition newRotatingWriter (flt : Faults) (name : string) (maxSize : Z)
    (d : Disk) : Disk * result rotatingWriter :=
  let w := mkWriter name maxSize None in
  match open flt w d with
  | (_, d, Some err) => (d, Err err)
  | (w, d, None) => (d, Ok w)
  end.

Definition rotate (flt : Faults) (w : rotatingWriter) (d : Disk)
    : rotatingWriter * Disk * option error :=
  let '(w, d) := closeCurrent w d in
  let '(d, _) := Rename (renameFault flt) (path w) (path w +:+ ".1") d in
  match OpenFile true (truncFault flt) (path w) d with
  | (d, Err err) => (w, d, Some err)
  | (d, Ok f) => (setFile (Some f) w, d, None)
  end.

(** The nil dereference of line 117 cannot happen: [open] returned no error. *)
Definition nilFile : error := errorString "invalid memory address or nil pointer dereference".

Definition Write (flt : Faults) (w : rotatingWriter) (d : Disk) (p : list byte)
    : rotatingWriter * Disk * (Z * option error) :=
  let '(w, d, oerr) :=
    match file w with
    | None => open flt w d
    | Some _ => (w, d, None)
    end in
  match oerr with
  | Some err => (w, d, (0, Some err))
  | None =>
      match file w with
      | None => (w, d, (0, Some nilFile))
      | Some f =>
          let '(d, fi) := Stat (statFault flt) f d in
          let over :=
            match fi with
            | Ok size => maxSize w <? wrap64 (size + Z.of_nat (length p))
            | Err _ => false
            end in
          if over then
            match rotate flt w d with
            | (w, d, Some err) => (w, d, (0, Some err))
            | (w, d, None) =>
                match file w with
                | None => (w, d, (0, Some nilFile))
                | Some f => let '(d, r) := FileWrite (writeFault flt) f p d in (w, d, r)
                end
            end
          else
            let '(d, r) := FileWrite (writeFault flt) f p d in (w, d, r)
      end
  end.

(** A run of writes, each under its own faults. *)
Fixpoint Writes (w : rotatingWriter) (d : Disk)
    (ps : list (Faults * list byte)) : rotatingWriter * Disk :=
  match ps with
  | [] => (w, d)
  | (flt, p) :: rest => let '(w, d, _) := Write flt w d p in Writes w d rest
  end.

(** [File.Close] with its result: closing a closed file is an error. *)
Definition FileClose (fault : option error) (f : File) (d : Disk)
    : Disk * File * option error :=
  let '(d, f') := Close f d in
  (d, f', if fileClosed f then Some ErrClosed else fault).

(** [rotatingWriter.Close] (lines 126-131). *)
Definition rotatingWriter_Close (fault : option error) (w : rotatingWriter)
    (d : Disk) : rotatingWriter * Disk * option error :=
  match file w with
  | Some f =>
      let '(d, f', err) := FileClose fault f d in
      (setFile (Some f') w, d, err)
  | None => (w, d, None)
  end.

(** ** Startup ([main], lines 379-474) *)

Definition maxLogSize : Z := 50 * 1024 * 1024.

(** What the process finds when it starts. *)
Record Boot := mkBoot {
  osArgs : list string;
  bootDisk : Disk;
  bootFaults : Faults;
  loadConfig : string -> result Config;
  LoadLocation : string -> result Location
}.

(** How [main] ends: [log.Fatal] prints its message and exits with status
    1; otherwise one [monitorTarget] goroutine runs per state, for ever. *)
Inductive Exit :=
| Fatal (msg : string)
| Monitoring (cfg : Config) (loc : Location) (states : list TargetState)
             (rw : rotatingWriter).

Definition exitStatus (e : Exit) : option Z :=
  match e with
  | Fatal _ => Some 1
  | Monitoring _ _ _ _ => None
  end.

Definition started (e : Exit) : list TargetState :=
  match e with
  | Fatal _ => []
  | Monitoring _ _ states _ => states
  end.

(** The legacy fallback of lines 400-410. *)
Definition legacyFallback (cfg : Config) : Config :=
  if (Nat.eqb (length (Targets cfg)) 0)
     && (negb (String.eqb (IPv4 cfg) "") || negb (String.eqb (IPv6 cfg) "")
         || negb (DPort cfg =? 0))
  then mkConfig [mkTargetConfig "default" (IPv4 cfg) (IPv6 cfg) (DPort cfg)]
                (IPv4 cfg) (IPv6 cfg) (DPort cfg) (Webhook cfg) (Host cfg)
                (Delay cfg) (Timeout cfg) (Timezone cfg)
  else cfg.

(** The defaults of lines 415-423. *)
Definition applyDefaults (cfg : Config) : Config :=
  let delay := if Delay cfg <=? 0 then 30 else Delay cfg in
  let timeout := if Timeout cfg <=? 0 then 5 else Timeout cfg in
  let timezone :=
    if String.eqb (Timezone cfg) "" then "Europe/Berlin" else Timezone cfg in
  mkConfig (Targets cfg) (IPv4 cfg) (IPv6 cfg) (DPort cfg) (Webhook cfg)
           (Host cfg) delay timeout timezone.

(** The loop of lines 435-460. *)
Fixpoint targetStates (tcs : list TargetConfig) : list TargetState :=
  match tcs with
  | [] => []
  | tc :: rest =>
      if tcDPort tc <=? 0 then targetStates rest
      else
        (if negb (String.eqb (tcIPv4 tc) "")
         then [mkTargetState (tcName tc) (tcIPv4 tc) "IPv4" "tcp4" (tcDPort tc)
                             false zeroTime]
         else [])
        ++ (if negb (String.eqb (tcIPv6 tc) "")
            then [mkTargetState (tcName tc) (tcIPv6 tc) "IPv6" "tcp6" (tcDPort tc)
                                false zeroTime]
            else [])
        ++ targetStates rest
  end.

(** The configuration file named on the command line (lines 380-383). *)
Definition configPath (b : Boot) : string :=
  match osArgs b with
  | _ :: a :: _ => a
  | _ => "config.json"
  end.

(** [%q] is rendered without escapes, as for the zone names in use. *)
Definition main (b : Boot) : IO Exit :=
  let cfgPath := configPath b in
  match newRotatingWriter (bootFaults b) "portwatch.log" maxLogSize (bootDisk b) with
  | (_, Err err) => mret (Fatal ("cannot set up log file: " +:+ Error err))
  | (_, Ok rw) =>
      match loadConfig b cfgPath with
      | Err err => mret (Fatal ("cannot load config: " +:+ Error err))
      | Ok cfg =>
          let cfg := legacyFallback cfg in
          if String.eqb (Webhook cfg) "" then mret (Fatal "webhook missing in config")
          else
            let cfg := applyDefaults cfg in
            match LoadLocation b (Timezone cfg) with
            | Err err =>
                mret (Fatal ("cannot load timezone " +:+ dquote +:+ Timezone cfg
                             +:+ dquote +:+ ": " +:+ Error err))
            | Ok loc =>
                if Nat.eqb (length (Targets cfg)) 0
                then mret (Fatal "no targets configured")
                else
                  let states := targetStates (Targets cfg) in
                  if Nat.eqb (length states) 0
                  then mret (Fatal "no valid targets (missing IPs or ports)")
                  else
                    logPrintf ("starting port monitor: targets="
                               +:+ Itoa (Z.of_nat (length states))
                               +:+ " delay=" +:+ Itoa (Delay cfg)
                               +:+ "s timeout=" +:+ Itoa (Timeout cfg)
                               +:+ "s timezone=" +:+ Timezone cfg) ;;
                    mret (Monitoring cfg loc states rw)
            end
      end
  end.

(** ** Vocabulary of the statements *)

(** The probe of a cycle. *)
Definition probe (cfg : Config) (t : TargetState) : Event :=
  EvDial (Network t) (JoinHostPort (IP t) (Itoa (Port t)))
         (wrap64 (Timeout cfg * Second)).

(** The two transition lines of the log. *)
Definition upLine (t : TargetState) (now : Time) : string :=
  "UP " +:+ IPVersion t +:+ " " +:+ Name t +:+ " " +:+ IP t +:+ ":"
  +:+ Itoa (Port t) +:+ " after "
  +:+ DurationString (Round (Sub now (DownSince t)) Second).

Definition downLine (t : TargetState) (err : error) : string :=
  "DOWN " +:+ IPVersion t +:+ " " +:+ Name t +:+ " " +:+ IP t +:+ ":"
  +:+ Itoa (Port t) +:+ " error=" +:+ Error err.

(** What the trace of a cycle is turned into (lines 350-356). *)
Definition traceText (env : Env) : string :=
  match mtrResult env with
  | (mtrText, Some mtrErr) =>
      "mtr error: " +:+ Error mtrErr +:+ newline +:+ newline +:+ mtrText
  | (mtrText, None) => mtrText
  end.

Definition traceLog (env : Env) (t : TargetState) : list Event :=
  match mtrResult env with
  | (_, Some mtrErr) => [EvLog ("mtr error for " +:+ IP t +:+ ": " +:+ Error mtrErr)]
  | (_, None) => []
  end.

(** The state after an Up-to-Down transition. *)
Definition wentDown (env : Env) (loc : Location) (t : TargetState) : TargetState :=
  setDownSince (In (clock env) loc) (setDown true t).

(** The error [sendToDiscord] returns, and the line logged for it. *)
Definition deliveryError (env : Env) : option error :=
  match delivery env with
  | NewRequestError e => Some e
  | DoError e => Some e
  | Response status =>
      if (status <? 200) || (300 <=? status)
      then Some (errorString ("discord webhook status " +:+ Itoa status))
      else None
  end.

Definition deliveryLog (env : Env) (direction : string) : list Event :=
  match deliveryError env with
  | Some derr =>
      [EvLog ("error sending " +:+ direction +:+ " alert to discord: " +:+ Error derr)]
  | None => []
  end.

(** Notifications and trace captures among the events of a run. *)
Definition isNotification (e : Event) : bool :=
  match e with EvSendToDiscord _ _ => true | _ => false end.

Definition isTrace (e : Event) : bool :=
  match e with EvExec _ _ => true | _ => false end.

Definition notifications (ev : list Event) : nat :=
  length (List.filter isNotification ev).

Definition traces (ev : list Event) : nat :=
  length (List.filter isTrace ev).

Definition failed (env : Env) : bool :=
  match dialResult env with Some _ => true | None => false end.

(** ** A sample deployment, for the concrete runs below *)

Definition berlin : Location := mkLocation "Europe/Berlin" 3600 [].

Definition sampleConfig : Config :=
  mkConfig [mkTargetConfig "Cloudflare-v4" "1.1.1.1" "" 443]
           "" "" 0 "https://discord.com/api/webhooks/1" "" 1 5 "Europe/Berlin".

Definition sampleTarget : TargetState :=
  mkTargetState "Cloudflare-v4" "1.1.1.1" "IPv4" "tcp4" 443 false zeroTime.

Definition errTimeout : error :=
  mkError "dial tcp4 1.1.1.1:443: i/o timeout" (Some true).

Definition errRefused : error :=
  mkError "dial tcp4 1.1.1.1:443: connect: connection refused" (Some false).

(** A cycle at Unix second [sec], the probe ending as [dial]; the tracer
    prints a report, the trace is saved and the webhook answers 204. *)
Definition cycle (sec : Z) (dial : option error) : Env :=
  mkEnv (mkTime ((unixToInternal + sec) * Second) (mkLocation "Local" 0 []))
        dial ("HOST: probe Loss%", None) (Ok "probe01")
        (Ok "/opt/portwatch/portwatch") None None (Response 204).

(** The writer's handle, if any, was opened under the writer's path. *)
Definition handleOk (w : rotatingWriter) : Prop :=
  forall f, file w = Some f -> fileName f = path w.

(** ** A sample log directory *)

Definition logName : string := "portwatch.log".

Definition bytesOf (s : string) : list byte := list_byte_of_string s.

(** A writer with an eight-byte threshold whose active file holds six
    bytes, next to an older backup. *)
Definition smallWriter : rotatingWriter :=
  mkWriter logName 8 (Some (mkFile logName false)).

Definition smallDisk : Disk :=
  mkDisk (<[logName := bytesOf "line1;"]>
            (<[logName +:+ ".1" := bytesOf "older;"]> ∅)) [].

Definition renameFails : Faults :=
  mkFaults None None (Some (errorString "rename: permission denied")) None None.

(** ** A sample start *)

(** A process started without arguments in an empty directory, whose
    configuration file decodes to [cfg]; only the zone Europe/Berlin is
    installed. *)
Definition bootWith (cfg : Config) : Boot :=
  mkBoot ["portwatch"] (mkDisk ∅ []) noFaults
         (fun _ => Ok cfg)
         (fun name =>
            if String.eqb name "Europe/Berlin" then Ok berlin
            else Err (errorString ("unknown time zone " +:+ name))).

(** A legacy single-target configuration with no interval, a negative
    timeout and no timezone. *)
Definition bareConfig : Config :=
  mkConfig [] "1.1.1.1" "" 443 "https://discord.com/api/webhooks/1" "" 0 (-3) "".

(** A configuration with a webhook and nothing to watch. *)
Definition emptyConfig : Config :=
  mkConfig [] "" "" 0 "https://discord.com/api/webhooks/1" "" 1 5 "Europe/Berlin".

(** ** Trace file names *)

(** The name a trace file is written under for [t] (lines 184-187). *)
Definition fileTargetName (t : TargetState) : string :=
  if String.eqb (Name t) "" then "target" else Name t.

Fixpoint noUnderscore (s : string) : bool :=
  match s with
  | EmptyString => true
  | String c r => negb (Ascii.eqb c "_") && noUnderscore r
  end.

(** The year printed in the stamp of [t]. *)
Definition stampYear (t : Time) : Z := fst (fst (civil (localSec t / 86400))).

(** Two targets of one configuration that differ only in their address. *)
Definition twinTargets : list TargetConfig :=
  [mkTargetConfig "web" "192.0.2.1" "" 443;
   mkTargetConfig "web" "192.0.2.2" "" 443].

Definition twinA : TargetState :=
  mkTargetState "web" "192.0.2.1" "IPv4" "tcp4" 443 false zeroTime.

Definition twinB : TargetState :=
  mkTargetState "web" "192.0.2.2" "IPv4" "tcp4" 443 false zeroTime.

(** 2006-01-02 15:04:05 UTC, shown in Berlin time. *)
Definition incidentTime : Time :=
  mkTime ((unixToInternal + 1136214245) * Second) berlin.

(** ** Runs of the monitor and of the writer *)

(** Status changes along a run of probe outcomes ([true] is a failed
    probe), from the status [down]. *)
Fixpoint flips (down : bool) (outcomes : list bool) : nat :=
  match outcomes with
  | [] => 0
  | o :: rest => (if xorb down o then 1 else 0) + flips o rest
  end.

Definition isProbe (e : Event) : bool :=
  match e with EvDial _ _ _ => true | _ => false end.

Definition isSleep (e : Event) : bool :=
  match e with EvSleep _ => true | _ => false end.

Definition isPersist (e : Event) : bool :=
  match e with EvWriteFile _ _ => true | EvMkdirAll _ => true | _ => false end.

(** The same cycle with other answers of the file system to the saving
    of a trace. *)
Definition withFS (exe : result string) (mkdir write : option error)
    (env : Env) : Env :=
  mkEnv (clock env) (dialResult env) (mtrResult env) (hostnameResult env)
        exe mkdir write (delivery env).

(** The same cycle with another end of the webhook request. *)
Definition withDelivery (dl : Delivery) (env : Env) : Env :=
  mkEnv (clock env) (dialResult env) (mtrResult env) (hostnameResult env)
        (executableResult env) (mkdirResult env) (writeFileResult env) dl.

(** Writes that meet no failure. *)
Definition plain (ps : list (list byte)) : list (Faults * list byte) :=
  map (fun p => (noFaults, p)) ps.

(** The target a configuration entry stands for in a family. *)
Definition stateV4 (tc : TargetConfig) : TargetState :=
  mkTargetState (tcName tc) (tcIPv4 tc) "IPv4" "tcp4" (tcDPort tc) false zeroTime.

Definition stateV6 (tc : TargetConfig) : TargetState :=
  mkTargetState (tcName tc) (tcIPv6 tc) "IPv6" "tcp6" (tcDPort tc) false zeroTime.

(** A state [main] hands to a monitor: an address, a port, Up. *)
Definition monitorable (t : TargetState) : Prop :=
  IP t <> "" /\ 0 < Port t /\ Down t = false /\ DownSince t = zeroTime
  /\ ((IPVersion t = "IPv4" /\ Network t = "tcp4")
      \/ (IPVersion t = "IPv6" /\ Network t = "tcp6")).

Definition probes (ev : list Event) : nat := length (List.filter isProbe ev).

Definition sleeps (ev : list Event) : nat := length (List.filter isSleep ev).

(** An event of the loop's own pacing: a probe bounded by the configured
    timeout, or a sleep of the configured interval. *)
Definition paced (cfg : Config) (e : Event) : Prop :=
  match e with
  | EvDial _ _ timeout => timeout = Timeout cfg * Second
  | EvSleep d => d = Delay cfg * Second
  | _ => True
  end.

(** The fenced block an alert shows a trace in (line 264). *)
Definition fenced (text : string) : string :=
  "```text" +:+ newline +:+ text +:+ newline +:+ "```".

(** The events of a cycle after its probe are logs, commands, files and
    notifications. *)
Definition afterProbe (e : Event) : Prop :=
  isProbe e = false /\ isSleep e = false.

(** The titles of the alerts sent during a run, in order. *)
Definition alertTitles (ev : list Event) : list string :=
  flat_map (fun e =>
              match e with
              | EvSendToDiscord _ p => map Title (Embeds p)
              | _ => []
              end) ev.

(** The alerts a run of probe outcomes calls for ([true] is a failed
    probe), from the status [down]. *)
Fixpoint expectedTitles (down : bool) (outcomes : list bool) : list string :=
  match outcomes with
  | [] => []
  | o :: rest =>
      (if xorb down o
       then [if o then "Port monitor alert (DOWN)" else "Port monitor recovery (UP)"]
       else [])
      ++ expectedTitles o rest
  end.



(** The states one configuration entry gives (lines 437-459). *)
Definition entryStates (tc : TargetConfig) : list TargetState :=
  if 0 <? tcDPort tc
  then (if String.eqb (tcIPv4 tc) "" then [] else [stateV4 tc])
       ++ (if String.eqb (tcIPv6 tc) "" then [] else [stateV6 tc])
  else [].

(** The state of a log sink once [newRotatingWriter] has made it: it holds
    a handle under its own path, and while that handle is open the log
    file is there. *)
Definition logInPlace (w : rotatingWriter) (d : Disk) : Prop :=
  exists f,
    file w = Some f /\ fileName f = path w
    /\ (fileClosed f = false -> is_Some (files d !! path w)).
(** * Properties *)

(** ** The library functions on sample values *)

Example stamp_unix_epoch :
  FormatStamp (mkTime (unixToInternal * Second) (mkLocation "UTC" 0 []))
  = "1970-01-01_00-00-00".
Proof. vm_compute. reflexivity. Qed.

Example rfc3339_berlin :
  FormatRFC3339 (mkTime ((unixToInternal + 1136214245) * Second)
                        (mkLocation "Europe/Berlin" 3600 []))
  = "2006-01-02T16:04:05+01:00".
Proof. vm_compute. reflexivity. Qed.

Example duration_strings :
  map DurationString [0; 1500000000; 90 * Second; 3600 * Second; -5 * Second; 1500]
  = ["0s"; "1.5s"; "1m30s"; "1h0m0s"; "-5s"; "1.5" +:+ micro +:+ "s"].
Proof. vm_compute. reflexivity. Qed.

Example round_seconds :
  map (fun d => Round d Second) [1499999999; 1500000000; -1500000000; -1499999999; 0]
  = [1 * Second; 2 * Second; -2 * Second; -1 * Second; 0].
Proof. vm_compute. reflexivity. Qed.

Example civil_dates :
  map civil [0; 730178; 693653; 693654; 738578; 738944; 730118]
  = [(1, 1, 1); (2000, 2, 29); (1900, 2, 28); (1900, 3, 1); (2023, 2, 28);
     (2024, 2, 29); (1999, 12, 31)].
Proof. vm_compute. reflexivity. Qed.

Example rfc3339_zones :
  map (fun off => FormatRFC3339 (mkTime ((unixToInternal + 86400) * Second)
                                        (mkLocation "x" off [])))
      [0; -18000; 19800; -30]
  = ["1970-01-02T00:00:00Z"; "1970-01-01T19:00:00-05:00";
     "1970-01-02T05:30:00+05:30"; "1970-01-01T23:59:30+00:00"].
Proof. vm_compute. reflexivity. Qed.

Example clean_paths :
  map Clean ["a/c"; "a//c"; "a/c/."; "a/c/b/.."; "/../a/c"; "/../a/b/../././/c";
             ""; "../a"; "a/../.."; "/"; "abc/"; "a/.."; "../../a/../b"; "/.."; "."]
  = ["a/c"; "a/c"; "a/c"; "a/c"; "/a/c"; "/a/c";
     "."; "../a"; ".."; "/"; "abc"; "."; "../../b"; "/"; "."].
Proof. vm_compute. reflexivity. Qed.

Example dir_and_join :
  map Dir ["/opt/portwatch/portwatch"; "/portwatch"; "portwatch"; "a/b/"]
  = ["/opt/portwatch"; "/"; "."; "a/b"]
  /\ Join "/opt/portwatch" "mtr" = "/opt/portwatch/mtr"
  /\ Join "/" "mtr" = "/mtr"
  /\ Join "" "mtr" = "mtr"
  /\ Join "/opt/portwatch/mtr" "s_x/../y_IPv4_443.txt"
     = "/opt/portwatch/mtr/y_IPv4_443.txt".
Proof. vm_compute. repeat split; reflexivity. Qed.

(** ** Durations *)

Lemma wrap64_small z : minInt64 <= z <= maxInt64 -> wrap64 z = z.
Proof.
  unfold wrap64, minInt64, maxInt64. intros H.
  rewrite Z.mod_small by lia. lia.
Qed.

Lemma wrap64_above z :
  maxInt64 < z <= maxInt64 + 2 ^ 63 -> wrap64 z = z - 2 ^ 64.
Proof.
  unfold wrap64, maxInt64. intros H.
  replace (z + 2 ^ 63) with ((z - 2 ^ 63) + 1 * 2 ^ 64) by lia.
  rewrite Z.mod_add by lia. rewrite Z.mod_small by lia. lia.
Qed.

Lemma wrap64_below z :
  minInt64 - 2 ^ 63 <= z < minInt64 -> wrap64 z = z + 2 ^ 64.
Proof.
  unfold wrap64, minInt64. intros H.
  replace (z + 2 ^ 63) with ((z + 2 ^ 63 + 2 ^ 64) + (-1) * 2 ^ 64) by lia.
  rewrite Z.mod_add by lia. rewrite Z.mod_small by lia. lia.
Qed.

Lemma Sub_range t u : minDuration <= Sub t u <= maxDuration.
Proof.
  unfold Sub, minDuration, maxDuration, minInt64, maxInt64.
  repeat case_match; lia.
Qed.

Lemma lessThanHalf_small x y :
  0 <= x < 2 ^ 62 -> 0 <= y < 2 ^ 62 ->
  lessThanHalf x y = (x + x <? y).
Proof.
  intros Hx Hy. unfold lessThanHalf, wrapU64.
  rewrite (Z.mod_small x), (Z.mod_small y), (Z.mod_small (x + x)) by lia.
  reflexivity.
Qed.

(** A rounded duration is a whole number of seconds, at most half a second
    away, unless rounding left the range of [Duration]. *)
Lemma Round_Second_whole d :
  minDuration <= d <= maxDuration ->
  (Round d Second mod Second = 0 /\ 2 * Z.abs (Round d Second - d) <= Second)
  \/ Round d Second = minDuration \/ Round d Second = maxDuration.
Proof.
  unfold minDuration, maxDuration. intros Hd.
  pose proof (Z.quot_rem' d Second) as Hqr.
  unfold Round. change (Second <=? 0) with false. cbv iota.
  assert (HS : Second = 1000000000) by reflexivity.
  assert (H62 : 2 ^ 62 = 4611686018427387904) by reflexivity.
  assert (H63 : 2 ^ 63 = 9223372036854775808) by reflexivity.
  assert (H64 : 2 ^ 64 = 18446744073709551616) by reflexivity.
  unfold minInt64, maxInt64 in *.
  destruct (d <? 0) eqn:Hneg.
  - apply Z.ltb_lt in Hneg.
    pose proof (Z.rem_bound_pos_neg d Second ltac:(lia) ltac:(lia)) as Hr.
    rewrite lessThanHalf_small by lia.
    destruct (- Z.rem d Second + - Z.rem d Second <? Second) eqn:Hh.
    + apply Z.ltb_lt in Hh. left.
      rewrite wrap64_small by (unfold minInt64, maxInt64; lia).
      replace (d + - Z.rem d Second) with (Z.quot d Second * Second) by lia.
      split; [apply Z.mod_mul; lia | lia].
    + apply Z.ltb_ge in Hh.
      destruct (Z_lt_le_dec (d - Second + - Z.rem d Second) (- 2 ^ 63)) as [Hlo|Hlo].
      * rewrite wrap64_below by (unfold minInt64; lia).
        case_match eqn:Hc; [apply Z.ltb_lt in Hc; lia|]. right. left. reflexivity.
      * rewrite wrap64_small by (unfold minInt64, maxInt64; lia).
        case_match eqn:Hc; [|apply Z.ltb_ge in Hc; lia]. left.
        replace (d - Second + - Z.rem d Second)
          with ((Z.quot d Second - 1) * Second) by lia.
        split; [apply Z.mod_mul; lia | lia].
  - apply Z.ltb_ge in Hneg.
    pose proof (Z.rem_bound_pos_pos d Second ltac:(lia) ltac:(lia)) as Hr.
    rewrite lessThanHalf_small by lia.
    destruct (Z.rem d Second + Z.rem d Second <? Second) eqn:Hh.
    + apply Z.ltb_lt in Hh. left.
      rewrite wrap64_small by (unfold minInt64, maxInt64; lia).
      replace (d - Z.rem d Second) with (Z.quot d Second * Second) by lia.
      split; [apply Z.mod_mul; lia | lia].
    + apply Z.ltb_ge in Hh.
      destruct (Z_lt_le_dec (2 ^ 63 - 1) (d + Second - Z.rem d Second)) as [Hhi|Hhi].
      * rewrite wrap64_above by (unfold maxInt64; lia).
        case_match eqn:Hc; [apply Z.ltb_lt in Hc; lia|]. right. right. reflexivity.
      * rewrite wrap64_small by (unfold minInt64, maxInt64; lia).
        case_match eqn:Hc; [|apply Z.ltb_ge in Hc; lia]. left.
        replace (d + Second - Z.rem d Second)
          with ((Z.quot d Second + 1) * Second) by lia.
        split; [apply Z.mod_mul; lia | lia].
Qed.

(** ** Strings *)

Lemma append_cons c s t : String c s +:+ t = String c (s +:+ t).
Proof. reflexivity. Qed.

Lemma append_nil_l t : "" +:+ t = t.
Proof. reflexivity. Qed.

Lemma append_nil_r s : s +:+ "" = s.
Proof.
  induction s as [|c s IH]; [reflexivity|]. now rewrite append_cons, IH.
Qed.

Lemma append_assoc s1 s2 s3 : (s1 +:+ s2) +:+ s3 = s1 +:+ (s2 +:+ s3).
Proof.
  induction s1 as [|c s1 IH]; [reflexivity|]. now rewrite !append_cons, IH.
Qed.

Lemma length_append s1 s2 :
  String.length (s1 +:+ s2) = (String.length s1 + String.length s2)%nat.
Proof.
  induction s1 as [|c s1 IH]; [reflexivity|].
  rewrite append_cons. cbn [String.length]. now rewrite IH.
Qed.

Lemma append_ne_self s suffix : suffix <> "" -> s <> s +:+ suffix.
Proof.
  intros Hs Heq. apply Hs.
  assert (H : s +:+ "" = s +:+ suffix) by (rewrite append_nil_r; exact Heq).
  apply String.app_inj in H. congruence.
Qed.

Lemma append_inj_length s1 s2 t1 t2 :
  s1 +:+ t1 = s2 +:+ t2 -> String.length s1 = String.length s2 ->
  s1 = s2 /\ t1 = t2.
Proof.
  revert s2. induction s1 as [|c s1 IH]; intros [|c2 s2] Heq Hlen;
    try discriminate.
  - split; [reflexivity|exact Heq].
  - rewrite !append_cons in Heq. injection Heq as -> Heq.
    cbn in Hlen. destruct (IH s2 Heq ltac:(lia)) as [-> ->]. split; reflexivity.
Qed.

Lemma append_inj_tail s1 s2 t1 t2 :
  s1 +:+ t1 = s2 +:+ t2 -> String.length t1 = String.length t2 ->
  s1 = s2 /\ t1 = t2.
Proof.
  intros Heq Hlen. apply append_inj_length; [exact Heq|].
  apply (f_equal String.length) in Heq. rewrite !length_append in Heq. lia.
Qed.

Lemma noUnderscore_append s t :
  noUnderscore (s +:+ t) = noUnderscore s && noUnderscore t.
Proof.
  induction s as [|c s IH]; [reflexivity|].
  rewrite append_cons. cbn [noUnderscore]. rewrite IH.
  now rewrite andb_assoc.
Qed.

Lemma noUnderscore_separated a p : noUnderscore (a +:+ "_" +:+ p) = false.
Proof.
  rewrite noUnderscore_append. cbn. apply andb_false_r.
Qed.

(** Two strings cut at their last underscore. *)
Lemma append_inj_last_underscore a1 a2 p1 p2 :
  noUnderscore p1 = true -> noUnderscore p2 = true ->
  a1 +:+ "_" +:+ p1 = a2 +:+ "_" +:+ p2 -> a1 = a2 /\ p1 = p2.
Proof.
  intros H1 H2. revert a2.
  induction a1 as [|c a1 IH]; intros [|c2 a2] Heq.
  - change (String "_" p1 = String "_" p2) in Heq.
    injection Heq as ->. split; reflexivity.
  - change (String "_" p1 = String c2 (a2 +:+ "_" +:+ p2)) in Heq.
    injection Heq as _ Heq. subst p1.
    rewrite noUnderscore_separated in H1. discriminate.
  - change (String c (a1 +:+ "_" +:+ p1) = String "_" p2) in Heq.
    injection Heq as _ Heq. subst p2.
    rewrite noUnderscore_separated in H2. discriminate.
  - rewrite !append_cons in Heq. injection Heq as -> Heq.
    destruct (IH a2 Heq) as [-> ->]. split; reflexivity.
Qed.

Lemma noUnderscore_pretty_N_go x : forall s,
  noUnderscore s = true -> noUnderscore (pretty_N_go x s) = true.
Proof.
  induction (N.lt_wf_0 x) as [x _ IH]. intros s Hs.
  destruct (decide (x = 0)%N) as [->|Hx].
  - now rewrite pretty_N_go_0.
  - rewrite pretty_N_go_step by lia. apply IH.
    + apply N.div_lt; lia.
    + cbn [noUnderscore]. rewrite Hs.
      unfold pretty_N_char. repeat case_match; reflexivity.
Qed.

Lemma noUnderscore_Itoa z : noUnderscore (Itoa z) = true.
Proof.
  unfold Itoa, pretty, pretty_Z.
  destruct z as [|q|q]; [reflexivity| |].
  - unfold pretty, pretty_positive, pretty, pretty_N. case_decide; [reflexivity|].
    now apply noUnderscore_pretty_N_go.
  - rewrite noUnderscore_append.
    unfold pretty, pretty_positive, pretty, pretty_N. case_decide; [reflexivity|].
    now rewrite noUnderscore_pretty_N_go.
Qed.

Lemma Itoa_inj a b : Itoa a = Itoa b -> a = b.
Proof. apply pretty_Z_inj. Qed.

(** ** The width of a timestamp *)

Lemma pretty_N_go_length k : forall x s,
  (x < 10 ^ N.of_nat k)%N ->
  (String.length (pretty_N_go x s) <= String.length s + k)%nat.
Proof.
  induction k as [|k IH]; intros x s Hx.
  - assert (x = 0%N) as -> by (cbn in Hx; lia). rewrite pretty_N_go_0. lia.
  - destruct (decide (x = 0)%N) as [->|Hne].
    { rewrite pretty_N_go_0. lia. }
    rewrite pretty_N_go_step by lia.
    etransitivity; [apply IH|cbn [String.length]; lia].
    rewrite Nat2N.inj_succ, N.pow_succ_r' in Hx.
    apply N.Div0.div_lt_upper_bound. exact Hx.
Qed.

Lemma length_zeros n : String.length (zeros n) = n.
Proof. induction n as [|n IH]; cbn; [reflexivity|now rewrite IH]. Qed.

Lemma appendInt_length x w :
  (1 <= w)%nat -> 0 <= x < 10 ^ Z.of_nat w ->
  String.length (appendInt x w) = w.
Proof.
  intros Hw Hx. unfold appendInt.
  destruct (x <? 0) eqn:Hneg; [apply Z.ltb_lt in Hneg; lia|].
  rewrite Z.abs_eq by lia. rewrite length_append, length_zeros.
  assert (String.length (pretty x) <= w)%nat; [|lia].
  destruct x as [|q|q]; [cbn; lia| |lia].
  unfold pretty, pretty_Z, pretty, pretty_positive, pretty, pretty_N.
  case_decide; [cbn; lia|].
  change w with (String.length "" + w)%nat.
  apply pretty_N_go_length.
  apply N2Z.inj_lt. rewrite N2Z.inj_pow, nat_N_Z. exact (proj2 Hx).
Qed.

Lemma civil_bounds days :
  let '(y, m, d) := civil days in 1 <= m <= 12 /\ 1 <= d <= 31.
Proof.
  unfold civil.
  set (z := days + 306).
  set (doe := z mod 146097).
  assert (Hdoe : 0 <= doe < 146097) by (apply Z.mod_pos_bound; lia).
  clearbody doe. clear z.
  set (yoe := (doe - doe / 1460 + doe / 36524 - doe / 146096) / 365).
  set (doy := doe - (365 * yoe + yoe / 4 - yoe / 100)).
  assert (Hdoy : 0 <= doy <= 365).
  { subst doy yoe. Z.div_mod_to_equations. lia. }
  clearbody doy.
  set (mp := (5 * doy + 2) / 153).
  assert (Hmp : 0 <= mp <= 11) by (subst mp; Z.div_mod_to_equations; lia).
  assert (Hd : 1 <= doy - (153 * mp + 2) / 5 + 1 <= 31).
  { subst mp. Z.div_mod_to_equations. lia. }
  clearbody mp.
  destruct (mp <? 10) eqn:E; [apply Z.ltb_lt in E|apply Z.ltb_ge in E]; lia.
Qed.

(** Stamps of the years 0000 to 9999 have nineteen characters. *)
Lemma FormatStamp_length t :
  0 <= stampYear t <= 9999 -> String.length (FormatStamp t) = 19%nat.
Proof.
  unfold stampYear, FormatStamp, dateTime.
  pose proof (civil_bounds (localSec t / 86400)) as Hc.
  destruct (civil (localSec t / 86400)) as [[y m] d]. cbn [fst].
  intros Hy. destruct Hc as [Hm Hd].
  set (sod := localSec t mod 86400).
  assert (Hsod : 0 <= sod < 86400) by (apply Z.mod_pos_bound; lia).
  clearbody sod.
  rewrite !length_append.
  rewrite (appendInt_length y 4) by (cbn; lia).
  rewrite (appendInt_length m 2) by (cbn; lia).
  rewrite (appendInt_length d 2) by (cbn; lia).
  rewrite (appendInt_length (sod / 3600) 2)
    by (cbn; try lia; Z.div_mod_to_equations; lia).
  rewrite (appendInt_length (sod mod 3600 / 60) 2)
    by (cbn; try lia; Z.div_mod_to_equations; lia).
  rewrite (appendInt_length (sod mod 60) 2)
    by (cbn; try lia; Z.div_mod_to_equations; lia).
  reflexivity.
Qed.

(** ** The step function, case by case *)

Ltac run_io :=
  unfold mbind, mret, IO_bind, IO_ret, emit, logPrintf, events, value.

Lemma sendToDiscord_run env webhook payload :
  sendToDiscord env webhook payload
  = (deliveryError env, [EvSendToDiscord webhook payload]).
Proof.
  unfold sendToDiscord, deliveryError. run_io.
  destruct (delivery env) as [e|e|status]; cbn; try reflexivity.
  destruct ((status <? 200) || (300 <=? status)); reflexivity.
Qed.

Lemma sendUpAlert_events env cfg t downSince ts :
  exists payload embed,
    events (sendUpAlert env cfg t downSince ts)
    = EvSendToDiscord (Webhook cfg) payload :: deliveryLog env "UP"
    /\ Embeds payload = [embed]
    /\ Title embed = "Port monitor recovery (UP)"
    /\ last (Fields embed)
       = Some (mkField "Downtime"
                 (DurationString (Round (Sub ts downSince) Second)) false).
Proof.
  unfold sendUpAlert. rewrite sendToDiscord_run.
  eexists _, _. split.
  { unfold deliveryLog. run_io. cbn.
    destruct (deliveryError env); reflexivity. }
  cbn. repeat split; reflexivity.
Qed.

Lemma sendDownAlert_events env cfg t err mtrOut ts :
  exists payload embed,
    events (sendDownAlert env cfg t err mtrOut ts)
    = EvSendToDiscord (Webhook cfg) payload :: deliveryLog env "DOWN"
    /\ Embeds payload = [embed]
    /\ Title embed = "Port monitor alert (DOWN)"
    /\ Description embed
       = (if String.eqb mtrOut "" then ""
          else "```text" +:+ newline +:+ mtrOut +:+ newline +:+ "```")
    /\ last (Fields embed) = Some (mkField "Error" (Error err) false).
Proof.
  unfold sendDownAlert. rewrite sendToDiscord_run.
  eexists _, _. split.
  { unfold deliveryLog. run_io. cbn.
    destruct (deliveryError env); reflexivity. }
  cbn. repeat split; try reflexivity.
  destruct (String.eqb mtrOut ""); reflexivity.
Qed.

Lemma checkTarget_no_address env cfg loc t :
  String.eqb (IP t) "" = true -> checkTarget env cfg t loc = (t, []).
Proof. intros H. unfold checkTarget. rewrite H. reflexivity. Qed.

Lemma checkTarget_up_up env cfg loc t :
  String.eqb (IP t) "" = false -> dialResult env = None -> Down t = false ->
  checkTarget env cfg t loc = (t, [probe cfg t]).
Proof.
  intros Hip Hd Hdown. unfold checkTarget, tcpPing.
  rewrite Hip, Hd, Hdown. reflexivity.
Qed.

Lemma checkTarget_down_down env cfg loc t err :
  String.eqb (IP t) "" = false -> dialResult env = Some err -> Down t = true ->
  checkTarget env cfg t loc = (t, [probe cfg t]).
Proof.
  intros Hip Hd Hdown. unfold checkTarget, tcpPing.
  rewrite Hip, Hd, Hdown. reflexivity.
Qed.

Lemma checkTarget_down_up env cfg loc t :
  String.eqb (IP t) "" = false -> dialResult env = None -> Down t = true ->
  checkTarget env cfg t loc
  = (setDown false t,
     probe cfg t :: EvLog (upLine t (In (clock env) loc))
     :: events (sendUpAlert env cfg t (DownSince t) (In (clock env) loc))).
Proof.
  intros Hip Hd Hdown. unfold checkTarget, tcpPing.
  rewrite Hip, Hd, Hdown. cbn [negb].
  destruct (sendUpAlert env cfg t (DownSince t) (In (clock env) loc)) as [[] ev] eqn:E.
  run_io. cbn. rewrite app_nil_r. reflexivity.
Qed.

Lemma checkTarget_up_down_other env cfg loc t err :
  String.eqb (IP t) "" = false -> dialResult env = Some err -> Down t = false ->
  isTimeout err = false ->
  checkTarget env cfg t loc
  = (wentDown env loc t,
     probe cfg t :: EvLog (downLine t err)
     :: events (sendDownAlert env cfg (wentDown env loc t) err noMTR
                              (In (clock env) loc))).
Proof.
  intros Hip Hd Hdown Hto. unfold checkTarget, tcpPing.
  rewrite Hip, Hd, Hdown. cbn [negb]. run_io.
  cbn -[sendDownAlert]. rewrite Hto. fold (wentDown env loc t).
  destruct (sendDownAlert env cfg (wentDown env loc t) err noMTR (In (clock env) loc))
    as [[] ev]. cbn. rewrite app_nil_r. reflexivity.
Qed.

Lemma checkTarget_up_down_timeout env cfg loc t err :
  String.eqb (IP t) "" = false -> dialResult env = Some err -> Down t = false ->
  isTimeout err = true ->
  checkTarget env cfg t loc
  = (wentDown env loc t,
     probe cfg t :: EvLog (downLine t err)
     :: EvExec "mtr" ["-rwbzc"; "10"; IP t]
     :: traceLog env t
     ++ (if String.eqb (traceText env) "" then []
         else events (saveMTRToFile env (traceText env) (In (clock env) loc)
                                    (wentDown env loc t)))
     ++ events (sendDownAlert env cfg (wentDown env loc t) err (traceText env)
                              (In (clock env) loc))).
Proof.
  intros Hip Hd Hdown Hto. unfold checkTarget, tcpPing, runMTR.
  rewrite Hip, Hd, Hdown. cbn [negb]. run_io.
  cbn -[sendDownAlert saveMTRToFile String.eqb]. rewrite Hto.
  fold (wentDown env loc t). unfold traceText, traceLog.
  destruct (mtrResult env) as [mtrText [mtrErr|]];
    cbn -[sendDownAlert saveMTRToFile String.eqb].
  - set (txt := "mtr error: " +:+ Error mtrErr +:+ newline +:+ newline +:+ mtrText).
    destruct (String.eqb txt ""); cbn -[sendDownAlert saveMTRToFile].
    + destruct (sendDownAlert env cfg (wentDown env loc t) err txt (In (clock env) loc))
        as [[] ev]. cbn. rewrite app_nil_r. reflexivity.
    + destruct (saveMTRToFile env txt (In (clock env) loc) (wentDown env loc t))
        as [[] sv].
      destruct (sendDownAlert env cfg (wentDown env loc t) err txt (In (clock env) loc))
        as [[] ev]. cbn. rewrite !app_nil_r. reflexivity.
  - destruct (String.eqb mtrText ""); cbn -[sendDownAlert saveMTRToFile].
    + destruct (sendDownAlert env cfg (wentDown env loc t) err mtrText (In (clock env) loc))
        as [[] ev]. cbn. rewrite app_nil_r. reflexivity.
    + destruct (saveMTRToFile env mtrText (In (clock env) loc) (wentDown env loc t))
        as [[] sv].
      destruct (sendDownAlert env cfg (wentDown env loc t) err mtrText (In (clock env) loc))
        as [[] ev]. cbn. rewrite !app_nil_r. reflexivity.
Qed.

(** ** Counting events *)

Lemma traces_app a b : traces (a ++ b) = (traces a + traces b)%nat.
Proof. unfold traces. rewrite List.filter_app, length_app. reflexivity. Qed.

Lemma notifications_app a b :
  notifications (a ++ b) = (notifications a + notifications b)%nat.
Proof. unfold notifications. rewrite List.filter_app, length_app. reflexivity. Qed.

Lemma traces_cons e l :
  traces (e :: l) = ((if isTrace e then 1 else 0) + traces l)%nat.
Proof. unfold traces. cbn. destruct (isTrace e); reflexivity. Qed.

Lemma notifications_cons e l :
  notifications (e :: l) = ((if isNotification e then 1 else 0) + notifications l)%nat.
Proof. unfold notifications. cbn. destruct (isNotification e); reflexivity. Qed.

Lemma deliveryLog_quiet env direction :
  traces (deliveryLog env direction) = 0%nat
  /\ notifications (deliveryLog env direction) = 0%nat.
Proof. unfold deliveryLog. destruct (deliveryError env); split; reflexivity. Qed.

Lemma traceLog_quiet env t :
  traces (traceLog env t) = 0%nat /\ notifications (traceLog env t) = 0%nat.
Proof.
  unfold traceLog. destruct (mtrResult env) as [? [?|]]; split; reflexivity.
Qed.

Lemma saveMTRToFile_quiet env mtrOut ts t :
  traces (events (saveMTRToFile env mtrOut ts t)) = 0%nat
  /\ notifications (events (saveMTRToFile env mtrOut ts t)) = 0%nat.
Proof.
  unfold saveMTRToFile. run_io.
  destruct (executableResult env); [|split; reflexivity].
  destruct (mkdirResult env); [split; reflexivity|].
  destruct (writeFileResult env); split; reflexivity.
Qed.

Lemma sendUpAlert_counts env cfg t downSince ts :
  traces (events (sendUpAlert env cfg t downSince ts)) = 0%nat
  /\ notifications (events (sendUpAlert env cfg t downSince ts)) = 1%nat.
Proof.
  destruct (sendUpAlert_events env cfg t downSince ts) as (p & e & -> & _).
  destruct (deliveryLog_quiet env "UP") as [Ht Hn].
  split.
  - change (traces (deliveryLog env "UP") = 0%nat). exact Ht.
  - change (S (notifications (deliveryLog env "UP")) = 1%nat). now rewrite Hn.
Qed.

Lemma sendDownAlert_counts env cfg t err mtrOut ts :
  traces (events (sendDownAlert env cfg t err mtrOut ts)) = 0%nat
  /\ notifications (events (sendDownAlert env cfg t err mtrOut ts)) = 1%nat.
Proof.
  destruct (sendDownAlert_events env cfg t err mtrOut ts) as (p & e & -> & _).
  destruct (deliveryLog_quiet env "DOWN") as [Ht Hn].
  split.
  - change (traces (deliveryLog env "DOWN") = 0%nat). exact Ht.
  - change (S (notifications (deliveryLog env "DOWN")) = 1%nat). now rewrite Hn.
Qed.

(** ** The state after a step *)

Lemma checkTarget_value env cfg loc t :
  value (checkTarget env cfg t loc)
  = if String.eqb (IP t) "" then t
    else match dialResult env with
         | None => if Down t then setDown false t else t
         | Some _ => if Down t then t else wentDown env loc t
         end.
Proof.
  destruct (String.eqb (IP t) "") eqn:Hip.
  { now rewrite checkTarget_no_address. }
  destruct (dialResult env) as [err|] eqn:Hd; destruct (Down t) eqn:Hdown.
  - now rewrite (checkTarget_down_down _ _ _ _ err).
  - destruct (isTimeout err) eqn:Hto.
    + now rewrite (checkTarget_up_down_timeout _ _ _ _ err).
    + now rewrite (checkTarget_up_down_other _ _ _ _ err).
  - now rewrite checkTarget_down_up.
  - now rewrite checkTarget_up_up.
Qed.

Lemma checkTarget_status env cfg loc t :
  String.eqb (IP t) "" = false ->
  Down (value (checkTarget env cfg t loc)) = failed env.
Proof.
  intros Hip. rewrite checkTarget_value, Hip. unfold failed.
  destruct (dialResult env), (Down t) eqn:E; cbn; auto.
Qed.

Lemma checkTarget_address env cfg loc t :
  IP (value (checkTarget env cfg t loc)) = IP t.
Proof.
  rewrite checkTarget_value.
  destruct (String.eqb (IP t) ""), (dialResult env), (Down t); reflexivity.
Qed.

Lemma monitorTarget_cons env rest cfg loc t :
  value (monitorTarget (env :: rest) cfg t loc)
  = value (monitorTarget rest cfg (value (checkTarget env cfg t loc)) loc).
Proof.
  cbn [monitorTarget]. run_io.
  destruct (checkTarget env cfg t loc) as [t' ev]. cbn.
  destruct (monitorTarget rest cfg t' loc) as [t'' ev']. reflexivity.
Qed.

Ltac count_events :=
  change (events (?a, ?b)) with b;
  rewrite ?notifications_cons, ?traces_cons, ?notifications_app, ?traces_app;
  cbn [isNotification isTrace probe].

Lemma step_notifies_at_most_once env cfg loc t :
  (notifications (events (checkTarget env cfg t loc)) <= 1)%nat.
Proof.
  destruct (String.eqb (IP t) "") eqn:Hip.
  { rewrite checkTarget_no_address by done. cbn. lia. }
  destruct (dialResult env) as [err|] eqn:Hd; destruct (Down t) eqn:Hdown.
  - rewrite (checkTarget_down_down _ _ _ _ err) by done. cbn. lia.
  - destruct (isTimeout err) eqn:Hto.
    + rewrite (checkTarget_up_down_timeout _ _ _ _ err) by done.
      count_events.
      destruct (traceLog_quiet env t) as [_ ->].
      destruct (sendDownAlert_counts env cfg (wentDown env loc t) err (traceText env)
                  (In (clock env) loc)) as [_ ->].
      destruct (String.eqb (traceText env) "").
      * cbn. lia.
      * destruct (saveMTRToFile_quiet env (traceText env) (In (clock env) loc)
                    (wentDown env loc t)) as [_ ->]. lia.
    + rewrite (checkTarget_up_down_other _ _ _ _ err) by done.
      count_events.
      destruct (sendDownAlert_counts env cfg (wentDown env loc t) err noMTR
                  (In (clock env) loc)) as [_ ->]. lia.
  - rewrite checkTarget_down_up by done.
    count_events.
    destruct (sendUpAlert_counts env cfg t (DownSince t) (In (clock env) loc))
      as [_ ->]. lia.
  - rewrite checkTarget_up_up by done. cbn. lia.
Qed.

(** ** The monitor's transitions *)

(** C10: a Down-to-Up transition modifies only the [Down] flag of the state
    record; every other field, [DownSince] included, keeps its value, so
    after recovery [DownSince] still holds the start of the episode that
    just ended. *)
Theorem recovery_changes_only_down env cfg loc t :
  String.eqb (IP t) "" = false -> Down t = true -> dialResult env = None ->
  let t' := value (checkTarget env cfg t loc) in
  Down t' = false
  /\ Name t' = Name t /\ IP t' = IP t /\ IPVersion t' = IPVersion t
  /\ Network t' = Network t /\ Port t' = Port t
  /\ DownSince t' = DownSince t.
Proof.
  intros Hip Hdown Hd. rewrite checkTarget_down_up by assumption.
  cbn. repeat split; reflexivity.
Qed.

Lemma recovery_changes_only_down_witness :
  let t := wentDown (cycle 100 (Some errTimeout)) berlin sampleTarget in
  let t' := value (checkTarget (cycle 160 None) sampleConfig t berlin) in
  Down t = true /\ Down t' = false /\ DownSince t' = DownSince t.
Proof.
  pose proof (recovery_changes_only_down (cycle 160 None) sampleConfig berlin
                (wentDown (cycle 100 (Some errTimeout)) berlin sampleTarget)
                eq_refl eq_refl eq_refl) as H.
  cbv zeta in *. destruct H as (H1 & _ & _ & _ & _ & _ & H7).
  split; [reflexivity | split; assumption].
Defined.

(** C8: on a successful probe while the status is Down the step probes,
    logs the recovery with the downtime [now - DownSince] rounded to the
    second, sends an up alert whose Downtime field is that same rounded
    duration, captures no trace, and leaves the status Up. *)
Theorem recovery_effects env cfg loc t :
  String.eqb (IP t) "" = false -> Down t = true -> dialResult env = None ->
  let now := In (clock env) loc in
  let dur := Round (Sub now (DownSince t)) Second in
  exists payload embed,
    checkTarget env cfg t loc
    = (setDown false t,
       [probe cfg t;
        EvLog ("UP " +:+ IPVersion t +:+ " " +:+ Name t +:+ " " +:+ IP t +:+ ":"
               +:+ Itoa (Port t) +:+ " after " +:+ DurationString dur);
        EvSendToDiscord (Webhook cfg) payload] ++ deliveryLog env "UP")
    /\ Embeds payload = [embed]
    /\ Title embed = "Port monitor recovery (UP)"
    /\ last (Fields embed) = Some (mkField "Downtime" (DurationString dur) false)
    /\ traces (events (checkTarget env cfg t loc)) = 0%nat
    /\ Down (value (checkTarget env cfg t loc)) = false
    /\ ((dur mod Second = 0 /\ 2 * Z.abs (dur - Sub now (DownSince t)) <= Second)
        \/ dur = minDuration \/ dur = maxDuration).
Proof.
  intros Hip Hdown Hd now dur.
  destruct (sendUpAlert_events env cfg t (DownSince t) now)
    as (payload & embed & Hev & Hemb & Htitle & Hlast).
  exists payload, embed.
  rewrite checkTarget_down_up by assumption. fold now. rewrite Hev.
  repeat split; try assumption.
  - count_events. cbn [Nat.add].
    destruct (deliveryLog_quiet env "UP") as [-> _]. reflexivity.
  - apply Round_Second_whole, Sub_range.
Qed.

Lemma recovery_effects_witness :
  let t := wentDown (cycle 100 (Some errTimeout)) berlin sampleTarget in
  exists payload,
    events (checkTarget (cycle 160 None) sampleConfig t berlin)
    = [EvDial "tcp4" "1.1.1.1:443" (5 * Second);
       EvLog "UP IPv4 Cloudflare-v4 1.1.1.1:443 after 1m0s";
       EvSendToDiscord "https://discord.com/api/webhooks/1" payload].
Proof.
  destruct (recovery_effects (cycle 160 None) sampleConfig berlin
              (wentDown (cycle 100 (Some errTimeout)) berlin sampleTarget)
              eq_refl eq_refl eq_refl) as (payload & embed & H & _).
  exists payload. cbv zeta. rewrite H. vm_compute. reflexivity.
Defined.

(** C4: when a failed probe takes the target from Up to Down, the route
    tracer is run exactly when the failure is a timeout; for any other
    failure no command is run and the alert carries the placeholder text
    saying that no trace was attempted. *)
Theorem trace_iff_timeout env cfg loc t err :
  String.eqb (IP t) "" = false -> Down t = false -> dialResult env = Some err ->
  let ev := events (checkTarget env cfg t loc) in
  Down (value (checkTarget env cfg t loc)) = true
  /\ (EvExec "mtr" ["-rwbzc"; "10"; IP t] ∈ ev <-> isTimeout err = true)
  /\ traces ev = (if isTimeout err then 1 else 0)%nat
  /\ (isTimeout err = false ->
      exists payload embed,
        ev = [probe cfg t; EvLog (downLine t err);
              EvSendToDiscord (Webhook cfg) payload] ++ deliveryLog env "DOWN"
        /\ Embeds payload = [embed]
        /\ Description embed
           = "```text" +:+ newline +:+ "no mtr (non-timeout error)" +:+ newline
             +:+ "```").
Proof.
  intros Hip Hdown Hd ev. subst ev.
  split; [rewrite checkTarget_status by assumption; unfold failed; now rewrite Hd|].
  destruct (isTimeout err) eqn:Hto.
  - rewrite (checkTarget_up_down_timeout _ _ _ _ err) by assumption.
    change (events (?a, ?b)) with b.
    split; [|split; [|discriminate]].
    + split; [reflexivity|]. intros _.
      apply elem_of_cons. right. apply elem_of_cons. right.
      apply elem_of_cons. left. reflexivity.
    + count_events.
      destruct (traceLog_quiet env t) as [-> _].
      destruct (sendDownAlert_counts env cfg (wentDown env loc t) err (traceText env)
                  (In (clock env) loc)) as [-> _].
      destruct (String.eqb (traceText env) ""); [reflexivity|].
      destruct (saveMTRToFile_quiet env (traceText env) (In (clock env) loc)
                  (wentDown env loc t)) as [-> _]. reflexivity.
  - rewrite (checkTarget_up_down_other _ _ _ _ err) by assumption.
    change (events (?a, ?b)) with b.
    destruct (sendDownAlert_events env cfg (wentDown env loc t) err noMTR
                (In (clock env) loc))
      as (payload & embed & Hev & Hemb & _ & Hdesc & _).
    rewrite Hev.
    split; [|split].
    + split; [|discriminate]. intros Hin.
      apply elem_of_cons in Hin as [Hin|Hin]; [discriminate|].
      apply elem_of_cons in Hin as [Hin|Hin]; [discriminate|].
      apply elem_of_cons in Hin as [Hin|Hin]; [discriminate|].
      unfold deliveryLog in Hin. destruct (deliveryError env).
      * apply list_elem_of_singleton in Hin. discriminate.
      * apply elem_of_nil in Hin. contradiction.
    + count_events. destruct (deliveryLog_quiet env "DOWN") as [-> _]. reflexivity.
    + intros _. exists payload, embed. repeat split; assumption.
Qed.

Lemma trace_iff_timeout_witness :
  traces (events (checkTarget (cycle 100 (Some errTimeout)) sampleConfig
                              sampleTarget berlin)) = 1%nat
  /\ traces (events (checkTarget (cycle 100 (Some errRefused)) sampleConfig
                                 sampleTarget berlin)) = 0%nat.
Proof.
  split.
  - exact (proj1 (proj2 (proj2 (trace_iff_timeout (cycle 100 (Some errTimeout))
             sampleConfig berlin sampleTarget errTimeout eq_refl eq_refl eq_refl)))).
  - exact (proj1 (proj2 (proj2 (trace_iff_timeout (cycle 100 (Some errRefused))
             sampleConfig berlin sampleTarget errRefused eq_refl eq_refl eq_refl)))).
Defined.

(** C5: a self-transition (success while Up, failure while Down) sends no
    notification, captures no trace and changes no field of the state; its
    only event is the probe.  Hence of two consecutive probes with the same
    outcome the second is silent, and the two together notify at most once. *)
Theorem self_transition_silent cfg loc :
  (forall env t,
      Down t = failed env ->
      checkTarget env cfg t loc
      = (t, if String.eqb (IP t) "" then [] else [probe cfg t]))
  /\ (forall env1 env2 t,
         failed env1 = failed env2 ->
         let s1 := checkTarget env1 cfg t loc in
         let s2 := checkTarget env2 cfg (value s1) loc in
         value s2 = value s1
         /\ notifications (events s2) = 0%nat
         /\ traces (events s2) = 0%nat
         /\ (notifications (events s1 ++ events s2) <= 1)%nat).
Proof.
  assert (Hself : forall env t,
      Down t = failed env ->
      checkTarget env cfg t loc
      = (t, if String.eqb (IP t) "" then [] else [probe cfg t])).
  { intros env t Hs. destruct (String.eqb (IP t) "") eqn:Hip.
    - now apply checkTarget_no_address.
    - unfold failed in Hs. destruct (dialResult env) as [err|] eqn:Hd.
      + now apply (checkTarget_down_down _ _ _ _ err).
      + now apply checkTarget_up_up. }
  split; [exact Hself|].
  intros env1 env2 t Hsame s1 s2.
  assert (Hs2 : s2 = (value s1,
                      if String.eqb (IP (value s1)) "" then [] else [probe cfg (value s1)])).
  { subst s2. destruct (String.eqb (IP t) "") eqn:Hip.
    - subst s1. rewrite (checkTarget_no_address env1) by assumption.
      cbn [value fst]. rewrite (checkTarget_no_address env2) by assumption.
      now rewrite Hip.
    - apply Hself. subst s1. rewrite checkTarget_status by assumption.
      assumption. }
  assert (Hq : notifications (events s2) = 0%nat /\ traces (events s2) = 0%nat).
  { rewrite Hs2. destruct (String.eqb (IP (value s1)) ""); split; reflexivity. }
  destruct Hq as [Hn Ht].
  repeat split; try assumption.
  - now rewrite Hs2.
  - rewrite notifications_app, Hn.
    pose proof (step_notifies_at_most_once env1 cfg loc t). subst s1. lia.
Qed.

Example outage_notifies_once :
  map notifications
      (map (fun envs => events (monitorTarget envs sampleConfig sampleTarget berlin))
           [[cycle 100 (Some errTimeout)];
            [cycle 100 (Some errTimeout); cycle 101 (Some errTimeout);
             cycle 102 (Some errRefused)];
            [cycle 100 (Some errTimeout); cycle 101 (Some errTimeout);
             cycle 102 None; cycle 103 None]])
  = [1; 1; 2]%nat.
Proof. vm_compute. reflexivity. Qed.

(** ** The [DownSince] timestamp *)

Lemma IsZero_In ts loc : IsZero (In ts loc) = IsZero ts.
Proof. reflexivity. Qed.

Lemma down_implies_set_step env cfg loc t :
  IsZero (clock env) = false ->
  (Down t = true -> IsZero (DownSince t) = false) ->
  let t' := value (checkTarget env cfg t loc) in
  Down t' = true -> IsZero (DownSince t') = false.
Proof.
  intros Hclock Hinv t'. subst t'. rewrite checkTarget_value.
  destruct (String.eqb (IP t) ""); [exact Hinv|].
  destruct (dialResult env), (Down t) eqn:Hdown; cbn; intros;
    try discriminate; try exact Hclock; try congruence; auto.
Qed.

Lemma down_implies_set_run cfg loc envs : forall t,
  Forall (fun env => IsZero (clock env) = false) envs ->
  (Down t = true -> IsZero (DownSince t) = false) ->
  let t' := value (monitorTarget envs cfg t loc) in
  Down t' = true -> IsZero (DownSince t') = false.
Proof.
  induction envs as [|env rest IH]; intros t Hclocks Hinv.
  - exact Hinv.
  - cbv zeta. rewrite monitorTarget_cons.
    apply Forall_cons in Hclocks as [Hc Hrest].
    apply IH; [exact Hrest|].
    apply down_implies_set_step; assumption.
Qed.

(** C1, as amended: along every run of the monitor from an Up state, with a
    clock that never reads Go's zero time, status Down implies that
    [DownSince] is set (the converse fails: the stamp survives recovery);
    [DownSince] is assigned by exactly the steps that go from Up to Down,
    to the time of that probe, and by no other step; and only a recovery
    step (Down, probe succeeded) reads it: the events of every other step
    are the same whatever [DownSince] holds. *)
Theorem down_since_discipline cfg loc envs t0 :
  Down t0 = false ->
  Forall (fun env => IsZero (clock env) = false) envs ->
  (let t := value (monitorTarget envs cfg t0 loc) in
   Down t = true -> IsZero (DownSince t) = false)
  /\ (forall env t,
         let t' := value (checkTarget env cfg t loc) in
         if negb (Down t) && Down t'
         then DownSince t' = In (clock env) loc
         else DownSince t' = DownSince t)
  /\ (forall env t d,
         Down t && negb (failed env) = false ->
         events (checkTarget env cfg (setDownSince d t) loc)
         = events (checkTarget env cfg t loc)).
Proof.
  intros Hup Hclocks. split; [|split].
  - apply down_implies_set_run; [exact Hclocks|].
    rewrite Hup. discriminate.
  - intros env t. cbv zeta. rewrite checkTarget_value.
    destruct (String.eqb (IP t) "").
    { destruct (Down t); reflexivity. }
    destruct (dialResult env), (Down t) eqn:Hdown; cbn; rewrite ?Hdown; reflexivity.
  - intros env t d Hnr. unfold failed in Hnr.
    destruct (String.eqb (IP t) "") eqn:Hip.
    { rewrite !checkTarget_no_address by assumption. reflexivity. }
    destruct (dialResult env) as [err|] eqn:Hd; destruct (Down t) eqn:Hdown;
      try discriminate.
    + rewrite !(checkTarget_down_down _ _ _ _ err) by assumption. reflexivity.
    + destruct (isTimeout err) eqn:Hto.
      * rewrite !(checkTarget_up_down_timeout _ _ _ _ err) by assumption.
        reflexivity.
      * rewrite !(checkTarget_up_down_other _ _ _ _ err) by assumption.
        reflexivity.
    + rewrite !checkTarget_up_up by assumption. reflexivity.
Qed.

Lemma down_since_discipline_witness :
  let t := value (monitorTarget [cycle 100 (Some errTimeout); cycle 130 (Some errTimeout)]
                                sampleConfig sampleTarget berlin) in
  Down t = true /\ IsZero (DownSince t) = false.
Proof.
  split; [reflexivity|].
  refine (proj1 (down_since_discipline sampleConfig berlin
            [cycle 100 (Some errTimeout); cycle 130 (Some errTimeout)]
            sampleTarget eq_refl _) eq_refl).
  repeat constructor.
Defined.

(** C1 as stated fails: after an outage and its recovery the status is Up
    and [DownSince] still holds the start of the outage. *)
Lemma down_since_survives_recovery :
  let t := value (monitorTarget [cycle 100 (Some errTimeout); cycle 160 None]
                                sampleConfig sampleTarget berlin) in
  IsZero (clock (cycle 100 (Some errTimeout))) = false
  /\ IsZero (clock (cycle 160 None)) = false
  /\ ~ (IsZero (DownSince t) = false <-> Down t = true).
Proof.
  cbv zeta. split; [reflexivity|split; [reflexivity|]].
  intros [H _]. specialize (H ltac:(vm_compute; reflexivity)).
  vm_compute in H. discriminate.
Qed.

(** ** The rotating writer *)

Lemma backup_ne_active w : path w <> path w +:+ ".1".
Proof. apply append_ne_self. discriminate. Qed.

(** Whatever the operating system answers, a [Write] leaves every name of
    the directory alone except the active file and the one backup. *)
Lemma Write_frame flt w d p :
  handleOk w ->
  handleOk (Write flt w d p).1.1
  /\ path (Write flt w d p).1.1 = path w
  /\ maxSize (Write flt w d p).1.1 = maxSize w
  /\ forall name, name <> path w -> name <> path w +:+ ".1" ->
       files (Write flt w d p).1.2 !! name = files d !! name.
Proof.
  intros Hok. unfold handleOk in *.
  destruct w as [pa ms fi]. cbn [path file maxSize] in *.
  unfold Write, open, rotate, closeCurrent, Stat, FileWrite, OpenFile, Rename, Close.
  cbn [path file maxSize setFile called files setFiles calls fileName fileClosed].
  repeat (case_match; simplify_eq/=);
    (split_and!;
     [intros ? [= <-]; try reflexivity; eauto | reflexivity | reflexivity
     |intros name ? ?;
      rewrite ?lookup_insert_ne, ?lookup_delete_ne by congruence;
      try reflexivity]).
  all: try (erewrite Hok in * by reflexivity).
  all: try (rewrite ?lookup_insert_ne, ?lookup_delete_ne by congruence; reflexivity).
  all: try (cbn; apply Hok; reflexivity).
Qed.

Lemma Writes_frame ps : forall w d,
  handleOk w ->
  handleOk (Writes w d ps).1
  /\ path (Writes w d ps).1 = path w
  /\ maxSize (Writes w d ps).1 = maxSize w
  /\ forall name, name <> path w -> name <> path w +:+ ".1" ->
       files (Writes w d ps).2 !! name = files d !! name.
Proof.
  induction ps as [|[flt p] ps IH]; intros w d Hok.
  - cbn. auto.
  - cbn [Writes].
    destruct (Write_frame flt w d p Hok) as (Hok1 & Hp1 & Hm1 & Hf1).
    destruct (Write flt w d p) as [[w1 d1] r1]. cbn [fst snd] in *.
    destruct (IH w1 d1 Hok1) as (Hok2 & Hp2 & Hm2 & Hf2).
    split_and!; [assumption|congruence|congruence|].
    intros name H1 H2. rewrite Hf2 by congruence. apply Hf1; assumption.
Qed.

(** The writer [main] logs through. *)
Lemma newRotatingWriter_ready flt name threshold d d' w :
  newRotatingWriter flt name threshold d = (d', Ok w) ->
  w = mkWriter name threshold (Some (mkFile name false))
  /\ files d' !! name = Some (default [] (files d !! name))
  /\ forall other, other <> name -> files d' !! other = files d !! other.
Proof.
  unfold newRotatingWriter, open, closeCurrent, OpenFile.
  cbn [path file maxSize setFile called files setFiles calls].
  destruct (openFault flt); [discriminate|].
  intros [= <- <-]. cbn [files setFiles]. split_and!.
  - reflexivity.
  - apply lookup_insert_eq.
  - intros other Hne. apply lookup_insert_ne. congruence.
Qed.

Lemma main_writer b cfg loc states rw ev :
  main b = (Monitoring cfg loc states rw, ev) ->
  rw = mkWriter "portwatch.log" (50 * 1024 * 1024)
                (Some (mkFile "portwatch.log" false)).
Proof.
  unfold main. cbv zeta.
  destruct (newRotatingWriter _ _ _ _) as [d' [rw0|e]] eqn:Hnew; [|discriminate].
  apply newRotatingWriter_ready in Hnew as [-> _].
  repeat (case_match; try discriminate).
  run_io. cbn [fst snd]. intros [= _ _ _ <-]. reflexivity.
Qed.

(** The nominal case: with the log open and the operating system
    answering without error, [Write] rotates before appending exactly when
    the size of the active file plus [len(p)] exceeds the threshold. *)
Lemma write_rotates_over_threshold flt w d p f old :
  file w = Some f -> fileClosed f = false -> fileName f = path w ->
  files d !! path w = Some old ->
  statFault flt = None -> renameFault flt = None -> truncFault flt = None ->
  writeFault flt = None ->
  Z.of_nat (length old) + Z.of_nat (length p) <= maxInt64 ->
  let rotates := maxSize w <? Z.of_nat (length old) + Z.of_nat (length p) in
  exists w' d',
    Write flt w d p = (w', d', (Z.of_nat (length p), None))
    /\ calls d'
       = calls d
         ++ (if rotates
             then [SysStat (path w); SysClose (path w);
                   SysRename (path w) (path w +:+ ".1");
                   SysOpenTrunc (path w); SysWrite (path w) p]
             else [SysStat (path w); SysWrite (path w) p])
    /\ files d' !! path w = Some (if rotates then p else old ++ p)
    /\ files d' !! (path w +:+ ".1")
       = (if rotates then Some old else files d !! (path w +:+ ".1"))
    /\ (forall name, name <> path w -> name <> path w +:+ ".1" ->
        files d' !! name = files d !! name)
    /\ path w' = path w /\ maxSize w' = maxSize w
    /\ file w' = Some (mkFile (path w) false)
    /\ (maxSize w = maxLogSize ->
        (rotates = true
         <-> 50 * 1024 * 1024 < Z.of_nat (length old) + Z.of_nat (length p)))
    /\ (forall ps name, name <> path w -> name <> path w +:+ ".1" ->
        files (Writes w' d' ps).2 !! name = files d !! name).
Proof.
  intros Hfile Hclosed Hname Hold Hst Hrn Htr Hwr Hsz rotates.
  pose proof (backup_ne_active w) as Hne.
  assert (Hlast : maxSize w = maxLogSize ->
            (rotates = true
             <-> 50 * 1024 * 1024 < Z.of_nat (length old) + Z.of_nat (length p))).
  { intros Hmax. subst rotates. rewrite Hmax. unfold maxLogSize.
    apply Z.ltb_lt. }
  assert (Hok : handleOk w) by (intros f0 Hf0; congruence).
  destruct (Write_frame flt w d p Hok) as (Hok' & Hp' & _ & Hf').
  assert (Hrun : forall w' d' r ps name,
             Write flt w d p = (w', d', r) ->
             name <> path w -> name <> path w +:+ ".1" ->
             files (Writes w' d' ps).2 !! name = files d !! name).
  { intros w' d' r ps name HW H1 H2. rewrite HW in Hok', Hp', Hf'.
    cbn [fst snd] in *.
    destruct (Writes_frame ps w' d' Hok') as (_ & _ & _ & Hfs).
    rewrite Hfs by congruence. apply Hf'; assumption. }
  clear Hok' Hp' Hf'. revert Hrun.
  unfold Write. rewrite Hfile. cbv beta iota. rewrite Hfile.
  unfold Stat. rewrite Hclosed, Hst. cbn [called files]. rewrite Hname, Hold.
  cbn [default from_option id]. rewrite wrap64_small.
  2:{ assert (minInt64 < 0) by reflexivity. lia. }
  fold rotates. destruct rotates.
  - unfold rotate, closeCurrent. rewrite Hfile. unfold Close, Rename, OpenFile.
    rewrite Hname, Hrn, Htr.
    cbn [called files setFiles setFile path file calls]. rewrite Hold.
    cbn [called files setFiles setFile path file calls].
    unfold FileWrite.
    cbn [called files setFiles setFile path file calls fileClosed fileName].
    rewrite Hwr, lookup_insert_eq. cbn [default from_option id app].
    intros Hrun.
    eexists _, _. split; [reflexivity|].
    cbn [called files setFiles setFile path file calls maxSize].
    split_and!.
    + rewrite <- !app_assoc. reflexivity.
    + apply lookup_insert_eq.
    + rewrite !lookup_insert_ne by congruence. apply lookup_insert_eq.
    + intros name H1 H2.
      rewrite !lookup_insert_ne by congruence.
      apply lookup_delete_ne. congruence.
    + reflexivity.
    + reflexivity.
    + reflexivity.
    + exact Hlast.
    + intros ps name H1 H2. eapply Hrun; [reflexivity|assumption..].
  - unfold FileWrite. rewrite Hclosed, Hwr, Hname.
    cbn [called files setFiles calls]. rewrite Hold.
    cbn [default from_option id].
    intros Hrun.
    eexists _, _. split; [reflexivity|].
    cbn [called files setFiles calls].
    split_and!.
    + rewrite <- !app_assoc. reflexivity.
    + apply lookup_insert_eq.
    + apply lookup_insert_ne. congruence.
    + intros name H1 H2. apply lookup_insert_ne. congruence.
    + reflexivity.
    + reflexivity.
    + rewrite Hfile. destruct f as [n c]. cbn in *. congruence.
    + exact Hlast.
    + intros ps name H1 H2. eapply Hrun; [reflexivity|assumption..].
Qed.

Lemma write_rotates_over_threshold_witness :
  exists w' d',
    Write noFaults smallWriter smallDisk (bytesOf "abc") = (w', d', (3, None))
    /\ files d' !! logName = Some (bytesOf "abc")
    /\ files d' !! (logName +:+ ".1") = Some (bytesOf "line1;").
Proof.
  destruct (write_rotates_over_threshold noFaults smallWriter smallDisk
              (bytesOf "abc") (mkFile logName false) (bytesOf "line1;")
              eq_refl eq_refl eq_refl eq_refl eq_refl eq_refl eq_refl eq_refl
              ltac:(vm_compute; discriminate))
    as (w' & d' & HW & _ & Hact & Hbak & _).
  exists w', d'. split; [exact HW|]. split; [exact Hact|exact Hbak].
Defined.

(** Every sink that [newRotatingWriter] returns has its log in place, and
    no [Write], failed or not, takes a sink out of that state. *)
Lemma newRotatingWriter_logInPlace flt name threshold d d' w :
  newRotatingWriter flt name threshold d = (d', Ok w) -> logInPlace w d'.
Proof.
  unfold newRotatingWriter, open, closeCurrent, OpenFile.
  cbn [file path setFile called files calls setFiles].
  destruct (openFault flt); [discriminate|]. intros [= <- <-].
  eexists. split_and!; [reflexivity|reflexivity|].
  intros _. cbn [files setFiles path]. rewrite lookup_insert_eq. eauto.
Qed.

Lemma Write_logInPlace flt w d p :
  logInPlace w d -> logInPlace (Write flt w d p).1.1 (Write flt w d p).1.2.
Proof.
  intros ([fn fc] & Hfile & Hname & Hthere). cbn [fileName fileClosed] in *.
  subst fn. unfold Write. rewrite Hfile. cbv beta iota. rewrite Hfile.
  unfold Stat. cbn [fileName fileClosed].
  destruct fc.
  { unfold FileWrite. cbn [fileClosed fst snd].
    eexists. split_and!; [exact Hfile|reflexivity|discriminate]. }
  assert (Hplain : logInPlace
            (let '(d0, r) := FileWrite (writeFault flt) (mkFile (path w) false) p
                               (called (SysStat (path w)) d) in (w, d0, r)).1.1
            (let '(d0, r) := FileWrite (writeFault flt) (mkFile (path w) false) p
                               (called (SysStat (path w)) d) in (w, d0, r)).1.2).
  { unfold FileWrite. cbn [fileClosed fileName called files calls setFiles].
    destruct (writeFault flt) as [[n e]|]; cbn [fst snd];
      (eexists; split_and!; [exact Hfile|reflexivity|]);
      intros _; cbn [files setFiles]; rewrite lookup_insert_eq; eauto. }
  destruct (statFault flt) as [se|]; [exact Hplain|].
  destruct (maxSize w <? _); [|exact Hplain].
  unfold rotate, closeCurrent. rewrite Hfile. unfold Close, Rename, OpenFile.
  cbn [called files setFiles setFile path file calls fileName fileClosed].
  destruct (renameFault flt) as [re|];
    [|destruct (files d !! path w)];
    cbn [called files setFiles setFile path file calls fileName fileClosed];
    (destruct (truncFault flt) as [te|];
     [cbn [fst snd]; eexists; split_and!; [reflexivity|reflexivity|discriminate]
     |unfold FileWrite;
      cbn [called files setFiles setFile path file calls fileName fileClosed];
      destruct (writeFault flt) as [[n e]|]; cbn [fst snd path file setFile];
      (eexists; split_and!; [reflexivity|reflexivity|]);
      intros _; cbn [files setFiles path]; rewrite lookup_insert_eq; eauto]).
Qed.




Ltac reduce_writer :=
  cbn [called files setFiles setFile path file calls maxSize fileClosed fileName
       default from_option id].

(** C3, as amended: a failure to open the log file is never swallowed: at
    startup it is fatal, in [Write] (the lazy open, and the re-creation of
    the active file during a rotation) it is returned to the caller with
    nothing written; a failed append is returned to the caller with the
    count of bytes written, and so is every write through a handle that a
    failed rotation left closed.  A failed rename during a rotation is
    discarded: the write goes on, reports no error, and the old content is
    truncated without reaching the backup.  A failed size query skips the
    rotation, without error. *)
Theorem log_failures_reported flt w d p f old :
  file w = Some f -> fileClosed f = false -> fileName f = path w ->
  files d !! path w = Some old ->
  let size := Z.of_nat (length old) + Z.of_nat (length p) in
  size <= maxInt64 ->
  (forall b e,
      openFault (bootFaults b) = Some e ->
      main b = (Fatal ("cannot set up log file: " +:+ Error e), []))
  /\ (forall w0 e,
         file w0 = None -> openFault flt = Some e ->
         exists d',
           Write flt w0 d p = (w0, d', (0, Some e)) /\ files d' = files d)
  /\ (forall e,
         statFault flt = None -> maxSize w < size -> truncFault flt = Some e ->
         exists w' d', Write flt w d p = (w', d', (0, Some e)))
  /\ (forall n e,
         (statFault flt = None -> maxSize w < size -> truncFault flt = None) ->
         writeFault flt = Some (n, e) ->
         exists w' d',
           Write flt w d p = (w', d', (Z.of_nat (length (take n p)), Some e)))
  /\ (forall e,
         statFault flt = None -> maxSize w < size ->
         renameFault flt = Some e -> truncFault flt = None ->
         writeFault flt = None ->
         exists w' d',
           Write flt w d p = (w', d', (Z.of_nat (length p), None))
           /\ files d' !! path w = Some p
           /\ files d' !! (path w +:+ ".1") = files d !! (path w +:+ ".1"))
  /\ (forall e,
         statFault flt = Some e -> writeFault flt = None ->
         exists w' d',
           Write flt w d p = (w', d', (Z.of_nat (length p), None))
           /\ files d' !! path w = Some (old ++ p))
  /\ (forall w0 f0,
         file w0 = Some f0 -> fileClosed f0 = true ->
         exists d',
           Write flt w0 d p = (w0, d', (0, Some ErrClosed))
           /\ files d' = files d).
Proof.
  intros Hfile Hclosed Hname Hold size Hsz.
  pose proof (backup_ne_active w) as Hne.
  assert (Hwrap : wrap64 size = size).
  { apply wrap64_small. assert (minInt64 < 0) by reflexivity. subst size. lia. }
  split_and!.
  - intros b e He. unfold main, newRotatingWriter, open, closeCurrent, OpenFile.
    reduce_writer. rewrite He. reflexivity.
  - intros [pa ms fi] e Hnil He. cbn in Hnil. subst fi.
    unfold Write, open, closeCurrent, OpenFile. reduce_writer. rewrite He.
    eexists. split; reflexivity.
  - intros e Hst Hover Htr. unfold Write. rewrite Hfile. cbv beta iota.
    rewrite Hfile. unfold Stat. rewrite Hclosed, Hst. reduce_writer.
    rewrite Hname, Hold. reduce_writer. fold size. rewrite Hwrap.
    apply Z.ltb_lt in Hover. rewrite Hover.
    unfold rotate, closeCurrent. rewrite Hfile. unfold Close, Rename, OpenFile.
    rewrite Htr. destruct (renameFault flt); reduce_writer.
    + eexists _, _. reflexivity.
    + rewrite Hname, Hold. eexists _, _. reflexivity.
  - intros n e Hrot Hwr. unfold Write. rewrite Hfile. cbv beta iota.
    rewrite Hfile. unfold Stat. rewrite Hclosed.
    destruct (statFault flt) as [se|] eqn:Hst; reduce_writer.
    + unfold FileWrite. rewrite Hclosed, Hwr. eexists _, _. reflexivity.
    + rewrite Hname, Hold. reduce_writer. fold size. rewrite Hwrap.
      destruct (maxSize w <? size) eqn:Hover.
      * apply Z.ltb_lt in Hover. specialize (Hrot eq_refl Hover).
        unfold rotate, closeCurrent. rewrite Hfile.
        unfold Close, Rename, OpenFile. rewrite Hrot.
        destruct (renameFault flt); reduce_writer.
        -- unfold FileWrite. reduce_writer. rewrite Hwr.
           eexists _, _. reflexivity.
        -- rewrite Hname, Hold. unfold FileWrite. reduce_writer. rewrite Hwr.
           eexists _, _. reflexivity.
      * unfold FileWrite. rewrite Hclosed, Hwr. eexists _, _. reflexivity.
  - intros e Hst Hover Hrn Htr Hwr. unfold Write. rewrite Hfile. cbv beta iota.
    rewrite Hfile. unfold Stat. rewrite Hclosed, Hst. reduce_writer.
    rewrite Hname, Hold. reduce_writer. fold size. rewrite Hwrap.
    apply Z.ltb_lt in Hover. rewrite Hover.
    unfold rotate, closeCurrent. rewrite Hfile. unfold Close, Rename, OpenFile.
    rewrite Hrn, Htr. reduce_writer. unfold FileWrite. reduce_writer.
    rewrite Hwr, lookup_insert_eq. reduce_writer.
    eexists _, _. split; [reflexivity|]. reduce_writer. split.
    + apply lookup_insert_eq.
    + rewrite !lookup_insert_ne by congruence. reflexivity.
  - intros e Hst Hwr. unfold Write. rewrite Hfile. cbv beta iota.
    rewrite Hfile. unfold Stat. rewrite Hclosed, Hst. reduce_writer.
    unfold FileWrite. rewrite Hclosed, Hwr, Hname. reduce_writer.
    rewrite Hold. reduce_writer.
    eexists _, _. split; [reflexivity|]. reduce_writer. apply lookup_insert_eq.
  - intros [pa ms fi] f0 Hf0 Hc0. cbn in Hf0. subst fi.
    unfold Write. reduce_writer. unfold Stat, FileWrite. rewrite Hc0.
    eexists. split; reflexivity.
Qed.

Lemma log_failures_reported_witness :
  exists w' d',
    Write renameFails smallWriter smallDisk (bytesOf "abc") = (w', d', (3, None))
    /\ files d' !! logName = Some (bytesOf "abc")
    /\ files d' !! (logName +:+ ".1") = files smallDisk !! (logName +:+ ".1").
Proof.
  exact (proj1 (proj2 (proj2 (proj2 (proj2
           (log_failures_reported renameFails smallWriter smallDisk
              (bytesOf "abc") (mkFile logName false) (bytesOf "line1;")
              eq_refl eq_refl eq_refl eq_refl ltac:(vm_compute; discriminate))))))
           (errorString "rename: permission denied")
           eq_refl ltac:(vm_compute; reflexivity) eq_refl eq_refl eq_refl).
Defined.

(** C3 as stated fails: the rename of a rotation fails, and [Write] returns
    no error; the six bytes of the active file are lost and the backup
    still holds the older generation. *)
Lemma rename_failure_swallowed :
  renameFault renameFails = Some (errorString "rename: permission denied")
  /\ exists w' d',
       Write renameFails smallWriter smallDisk (bytesOf "abc") = (w', d', (3, None))
       /\ calls d'
          = [SysStat logName; SysClose logName;
             SysRename logName (logName +:+ ".1");
             SysOpenTrunc logName; SysWrite logName (bytesOf "abc")]
       /\ files d' !! logName = Some (bytesOf "abc")
       /\ files d' !! (logName +:+ ".1") = Some (bytesOf "older;").
Proof.
  split; [reflexivity|].
  eexists _, _. split; [vm_compute; reflexivity|].
  split; [reflexivity|]. split; vm_compute; reflexivity.
Qed.

(** ** Startup *)

Lemma Targets_applyDefaults cfg : Targets (applyDefaults cfg) = Targets cfg.
Proof. reflexivity. Qed.

Lemma legacyFallback_nothing cfg :
  Targets cfg = [] -> IPv4 cfg = "" -> IPv6 cfg = "" -> DPort cfg = 0 ->
  legacyFallback cfg = cfg.
Proof.
  intros Ht H4 H6 Hp. unfold legacyFallback. rewrite Ht, H4, H6, Hp. reflexivity.
Qed.

Lemma length_zero_nil {A} (l : list A) : Nat.eqb (length l) 0 = true <-> l = [].
Proof. destruct l; cbn; split; intros; congruence. Qed.

(** C6: when startup gets past validation, a probe interval that is absent
    (zero) or not positive has become 30 seconds, a probe timeout that is
    absent or not positive has become 5 seconds, and an empty timezone name
    has become Europe/Berlin; positive values and given names are kept. *)
Theorem startup_defaults b cfg loc states rw ev :
  main b = (Monitoring cfg loc states rw, ev) ->
  exists cfg0,
    loadConfig b (configPath b) = Ok cfg0
    /\ (Delay cfg0 <= 0 -> Delay cfg = 30)
    /\ (0 < Delay cfg0 -> Delay cfg = Delay cfg0)
    /\ (Timeout cfg0 <= 0 -> Timeout cfg = 5)
    /\ (0 < Timeout cfg0 -> Timeout cfg = Timeout cfg0)
    /\ (Timezone cfg0 = "" -> Timezone cfg = "Europe/Berlin")
    /\ (Timezone cfg0 <> "" -> Timezone cfg = Timezone cfg0)
    /\ LoadLocation b (Timezone cfg) = Ok loc.
Proof.
  unfold main. cbv zeta.
  destruct (newRotatingWriter _ _ _ _) as [d' [rw0|e]]; [|discriminate].
  destruct (loadConfig b (configPath b)) as [cfg0|e]; [|discriminate].
  destruct (String.eqb (Webhook (legacyFallback cfg0)) ""); [discriminate|].
  destruct (LoadLocation b _) as [loc0|e] eqn:Hloc; [|discriminate].
  destruct (Nat.eqb (length (Targets (applyDefaults (legacyFallback cfg0)))) 0);
    [discriminate|].
  destruct (Nat.eqb (length (targetStates _)) 0); [discriminate|].
  run_io. cbn [fst snd]. intros H. injection H as <- <- _ _ _.
  exists cfg0. split; [reflexivity|].
  assert (Hd : Delay (legacyFallback cfg0) = Delay cfg0)
    by (unfold legacyFallback; case_match; reflexivity).
  assert (Ht : Timeout (legacyFallback cfg0) = Timeout cfg0)
    by (unfold legacyFallback; case_match; reflexivity).
  assert (Hz : Timezone (legacyFallback cfg0) = Timezone cfg0)
    by (unfold legacyFallback; case_match; reflexivity).
  unfold applyDefaults in *. cbn [Delay Timeout Timezone] in *.
  rewrite Hd, Ht, Hz in *.
  split_and!.
  - intros H. apply Z.leb_le in H. now rewrite H.
  - intros H. apply Z.leb_gt in H. now rewrite H.
  - intros H. apply Z.leb_le in H. now rewrite H.
  - intros H. apply Z.leb_gt in H. now rewrite H.
  - intros H. rewrite H. reflexivity.
  - intros H. apply String.eqb_neq in H. now rewrite H.
  - exact Hloc.
Qed.

Lemma startup_defaults_witness :
  exists cfg loc states rw ev,
    main (bootWith bareConfig) = (Monitoring cfg loc states rw, ev)
    /\ Delay cfg = 30 /\ Timeout cfg = 5 /\ Timezone cfg = "Europe/Berlin".
Proof.
  eexists _, _, _, _, _. split; [vm_compute; reflexivity|].
  destruct (startup_defaults (bootWith bareConfig) _ _ _ _ _ eq_refl)
    as (cfg0 & Hload & Hd & _ & Ht & _ & Hz & _).
  injection Hload as <-.
  split; [|split]; [apply Hd|apply Ht|apply Hz]; vm_compute; congruence.
Defined.

(** C9: a configuration with no targets list and no legacy address or
    port, and more generally any configuration from which no usable target
    is built, ends startup fatally: a message is printed, the exit status
    is 1, and no monitoring loop has been started. *)
Theorem startup_without_targets_is_fatal b cfg :
  loadConfig b (configPath b) = Ok cfg ->
  (Targets cfg = [] /\ IPv4 cfg = "" /\ IPv6 cfg = "" /\ DPort cfg = 0)
  \/ targetStates (Targets (legacyFallback cfg)) = [] ->
  exists msg,
    main b = (Fatal msg, [])
    /\ msg <> ""
    /\ exitStatus (Fatal msg) = Some 1
    /\ started (Fatal msg) = []
    /\ ((exists e, msg = "cannot set up log file: " +:+ Error e)
        \/ msg = "webhook missing in config"
        \/ (exists zone e,
              msg = "cannot load timezone " +:+ dquote +:+ zone +:+ dquote
                    +:+ ": " +:+ Error e)
        \/ msg = "no targets configured"
        \/ msg = "no valid targets (missing IPs or ports)").
Proof.
  intros Hload Hnone.
  assert (Hstates : targetStates (Targets (legacyFallback cfg)) = []).
  { destruct Hnone as [(Ht & H4 & H6 & Hp)|H]; [|exact H].
    rewrite legacyFallback_nothing by assumption. rewrite Ht. reflexivity. }
  unfold main. cbv zeta. rewrite Hload.
  destruct (newRotatingWriter _ _ _ _) as [d' [rw0|e]].
  2:{ eexists. split; [reflexivity|]. split; [discriminate|].
      split; [reflexivity|]. split; [reflexivity|]. left. eauto. }
  destruct (String.eqb (Webhook (legacyFallback cfg)) "").
  { eexists. split; [reflexivity|]. split; [discriminate|].
    split; [reflexivity|]. split; [reflexivity|]. right. left. reflexivity. }
  destruct (LoadLocation b _) as [loc0|e].
  2:{ eexists. split; [reflexivity|]. split; [discriminate|].
      split; [reflexivity|]. split; [reflexivity|]. right. right. left. eauto. }
  rewrite Targets_applyDefaults.
  destruct (Nat.eqb (length (Targets (legacyFallback cfg))) 0).
  { eexists. split; [reflexivity|]. split; [discriminate|].
    split; [reflexivity|]. split; [reflexivity|]. do 3 right. left. reflexivity. }
  rewrite Hstates. cbn [length Nat.eqb].
  eexists. split; [reflexivity|]. split; [discriminate|].
  split; [reflexivity|]. split; [reflexivity|]. do 4 right. reflexivity.
Qed.

Lemma startup_without_targets_is_fatal_witness :
  main (bootWith emptyConfig) = (Fatal "no targets configured", []).
Proof.
  destruct (startup_without_targets_is_fatal (bootWith emptyConfig) emptyConfig
              eq_refl (or_introl (conj eq_refl (conj eq_refl (conj eq_refl eq_refl)))))
    as (msg & Hmain & _).
  rewrite Hmain. vm_compute in Hmain. congruence.
Defined.

(** ** Trace file names *)

Lemma mtrFilename_shape ts t :
  mtrFilename ts t
  = ((FormatStamp ts +:+ "_" +:+ fileTargetName t) +:+ "_" +:+ IPVersion t)
    +:+ "_" +:+ (Itoa (Port t) +:+ ".txt").
Proof.
  unfold mtrFilename, fileTargetName. now rewrite !append_assoc.
Qed.

(** C7, as amended: the file name of a persisted trace is a function of
    the timestamp printed to the second in the monitor's time zone, the
    target's name (with the empty name replaced by [target]), the family
    tag and the port, and of nothing else.  In the years 0000 to 9999 two
    incidents get the same file name exactly when these four parts
    coincide; the address is not among them, so distinct targets that share
    name, family and port do overwrite each other's trace. *)
Theorem trace_filename_collisions ts1 ts2 t1 t2 :
  IPVersion t1 = "IPv4" \/ IPVersion t1 = "IPv6" ->
  IPVersion t2 = "IPv4" \/ IPVersion t2 = "IPv6" ->
  0 <= stampYear ts1 <= 9999 -> 0 <= stampYear ts2 <= 9999 ->
  mtrFilename ts1 t1 = mtrFilename ts2 t2
  <-> FormatStamp ts1 = FormatStamp ts2
      /\ fileTargetName t1 = fileTargetName t2
      /\ IPVersion t1 = IPVersion t2
      /\ Port t1 = Port t2.
Proof.
  intros Hv1 Hv2 Hy1 Hy2.
  assert (Hlen : String.length (FormatStamp ts1) = String.length (FormatStamp ts2))
    by (rewrite !FormatStamp_length by assumption; reflexivity).
  split.
  - rewrite !mtrFilename_shape. intros Heq.
    assert (Hn1 : noUnderscore (IPVersion t1) = true)
      by (destruct Hv1 as [-> | ->]; reflexivity).
    assert (Hn2 : noUnderscore (IPVersion t2) = true)
      by (destruct Hv2 as [-> | ->]; reflexivity).
    apply append_inj_last_underscore in Heq as [Hhead Hport].
    2,3: rewrite noUnderscore_append, noUnderscore_Itoa; reflexivity.
    apply append_inj_tail in Hport as [Hport _]; [|reflexivity].
    apply Itoa_inj in Hport.
    apply append_inj_last_underscore in Hhead as [Hhead Hver]; [|assumption..].
    apply append_inj_length in Hhead as [Hstamp Hname]; [|exact Hlen].
    change (String "_" (fileTargetName t1) = String "_" (fileTargetName t2))
      in Hname.
    injection Hname as Hname. auto.
  - intros (Hs & Hn & Hv & Hp). rewrite !mtrFilename_shape.
    now rewrite Hs, Hn, Hv, Hp.
Qed.

Lemma trace_filename_collisions_witness :
  mtrFilename incidentTime twinA = mtrFilename incidentTime twinB.
Proof.
  apply (trace_filename_collisions incidentTime incidentTime twinA twinB
           (or_introl eq_refl) (or_introl eq_refl)).
  - vm_compute. split; discriminate.
  - vm_compute. split; discriminate.
  - repeat split; reflexivity.
Defined.

(** C7 as stated fails: two distinct targets of one configuration, timing
    out in the same second, persist their traces under the same file name,
    the second write replacing the first. *)
Lemma distinct_targets_same_filename :
  targetStates twinTargets = [twinA; twinB]
  /\ twinA <> twinB
  /\ IP twinA <> IP twinB
  /\ mtrFilename incidentTime twinA = "2006-01-02_16-04-05_web_IPv4_443.txt"
  /\ mtrFilename incidentTime twinB = "2006-01-02_16-04-05_web_IPv4_443.txt"
  /\ events (checkTarget (cycle 1136214245 (Some errTimeout)) sampleConfig
                          twinA berlin) !! 4%nat
     = Some (EvWriteFile
               "/opt/portwatch/mtr/2006-01-02_16-04-05_web_IPv4_443.txt"
               "HOST: probe Loss%")
  /\ events (checkTarget (cycle 1136214245 (Some errTimeout)) sampleConfig
                          twinB berlin) !! 4%nat
     = Some (EvWriteFile
               "/opt/portwatch/mtr/2006-01-02_16-04-05_web_IPv4_443.txt"
               "HOST: probe Loss%").
Proof.
  split; [reflexivity|]. split; [discriminate|]. split; [discriminate|].
  split_and!; vm_compute; reflexivity.
Qed.

(** ** Runs of the monitor *)

Lemma monitorTarget_cons_events env rest cfg loc t :
  events (monitorTarget (env :: rest) cfg t loc)
  = events (checkTarget env cfg t loc)
    ++ EvSleep (wrap64 (Delay cfg * Second))
    :: events (monitorTarget rest cfg (value (checkTarget env cfg t loc)) loc).
Proof.
  cbn [monitorTarget]. run_io.
  destruct (checkTarget env cfg t loc) as [t' ev]. cbn.
  destruct (monitorTarget rest cfg t' loc) as [t'' ev']. reflexivity.
Qed.

Lemma step_counts env cfg loc t :
  String.eqb (IP t) "" = false ->
  notifications (events (checkTarget env cfg t loc))
  = (if xorb (Down t) (failed env) then 1 else 0)%nat
  /\ (traces (events (checkTarget env cfg t loc))
      <= notifications (events (checkTarget env cfg t loc)))%nat.
Proof.
  intros Hip. unfold failed.
  destruct (dialResult env) as [err|] eqn:Hd; destruct (Down t) eqn:Hdown.
  - rewrite (checkTarget_down_down _ _ _ _ err) by done. cbn. lia.
  - destruct (isTimeout err) eqn:Hto.
    + rewrite (checkTarget_up_down_timeout _ _ _ _ err) by done.
      count_events.
      destruct (traceLog_quiet env t) as [-> ->].
      destruct (sendDownAlert_counts env cfg (wentDown env loc t) err (traceText env)
                  (In (clock env) loc)) as [-> ->].
      destruct (String.eqb (traceText env) "").
      * cbn. lia.
      * destruct (saveMTRToFile_quiet env (traceText env) (In (clock env) loc)
                    (wentDown env loc t)) as [-> ->]. cbn. lia.
    + rewrite (checkTarget_up_down_other _ _ _ _ err) by done.
      count_events.
      destruct (sendDownAlert_counts env cfg (wentDown env loc t) err noMTR
                  (In (clock env) loc)) as [-> ->]. cbn. lia.
  - rewrite checkTarget_down_up by done.
    count_events.
    destruct (sendUpAlert_counts env cfg t (DownSince t) (In (clock env) loc))
      as [-> ->]. cbn. lia.
  - rewrite checkTarget_up_up by done. cbn. lia.
Qed.

Lemma last_cons_default {A} (x : A) l d d' :
  List.last (x :: l) d = List.last (x :: l) d'.
Proof.
  revert x. induction l as [|y l IH]; intros x; [reflexivity|].
  change (List.last (y :: l) d = List.last (y :: l) d'). apply IH.
Qed.

(** X1: along any run of the monitor over a target with an address, one
    notification is sent per change of status and none otherwise; a trace
    is never captured without a notification; and the status at the end is
    the outcome of the last probe. *)
Theorem one_notification_per_transition cfg loc envs : forall t,
  String.eqb (IP t) "" = false ->
  notifications (events (monitorTarget envs cfg t loc))
  = flips (Down t) (map failed envs)
  /\ (traces (events (monitorTarget envs cfg t loc))
      <= notifications (events (monitorTarget envs cfg t loc)))%nat
  /\ Down (value (monitorTarget envs cfg t loc))
     = List.last (map failed envs) (Down t).
Proof.
  induction envs as [|env rest IH]; intros t Hip.
  - cbn. auto.
  - rewrite monitorTarget_cons_events, monitorTarget_cons.
    pose proof (checkTarget_address env cfg loc t) as Haddr.
    pose proof (checkTarget_status env cfg loc t Hip) as Hst.
    destruct (step_counts env cfg loc t Hip) as [Hn Ht].
    destruct (IH (value (checkTarget env cfg t loc))) as (IHn & IHt & IHd).
    { now rewrite Haddr. }
    rewrite notifications_app, traces_app, notifications_cons, traces_cons.
    cbn [isNotification isTrace map flips].
    rewrite Hn, IHn, IHd, Hst. split_and!.
    + reflexivity.
    + rewrite Hn in Ht. rewrite IHn, Hst in IHt.
      destruct (xorb (Down t) (failed env)); lia.
    + destruct rest as [|e rest]; [reflexivity|].
      exact (last_cons_default (failed e) (map failed rest) (failed env) (Down t)).
Qed.

Lemma one_notification_per_transition_witness :
  notifications
    (events (monitorTarget
               [cycle 1 None; cycle 2 (Some errTimeout); cycle 3 (Some errRefused);
                cycle 4 None; cycle 5 None; cycle 6 (Some errRefused)]
               sampleConfig sampleTarget berlin)) = 3%nat.
Proof.
  exact (proj1 (one_notification_per_transition sampleConfig berlin
                  [cycle 1 None; cycle 2 (Some errTimeout); cycle 3 (Some errRefused);
                   cycle 4 None; cycle 5 None; cycle 6 (Some errRefused)]
                  sampleTarget eq_refl)).
Defined.

(** X2: no run of the monitor changes the identity of its target: name,
    address, family tag, network and port stay as [main] set them. *)
Theorem monitor_keeps_identity cfg loc envs : forall t,
  let t' := value (monitorTarget envs cfg t loc) in
  Name t' = Name t /\ IP t' = IP t /\ IPVersion t' = IPVersion t
  /\ Network t' = Network t /\ Port t' = Port t.
Proof.
  induction envs as [|env rest IH]; intros t.
  - cbn. auto.
  - cbv zeta. rewrite monitorTarget_cons.
    destruct (IH (value (checkTarget env cfg t loc))) as (H1 & H2 & H3 & H4 & H5).
    rewrite H1, H2, H3, H4, H5, checkTarget_value.
    destruct (String.eqb (IP t) ""), (dialResult env), (Down t); cbn; auto.
Qed.

(** X3: a state without an address is never probed: its monitor only sleeps,
    and the state stays as it is. *)
Theorem monitor_without_address_sleeps cfg loc envs t :
  IP t = "" ->
  monitorTarget envs cfg t loc
  = (t, repeat (EvSleep (wrap64 (Delay cfg * Second))) (length envs)).
Proof.
  intros Hip. induction envs as [|env rest IH]; [reflexivity|].
  cbn [monitorTarget]. rewrite checkTarget_no_address by now rewrite Hip.
  run_io. cbn. rewrite IH. reflexivity.
Qed.

Lemma monitor_without_address_sleeps_witness :
  events (monitorTarget [cycle 1 None; cycle 2 (Some errTimeout)] sampleConfig
            (mkTargetState "ghost" "" "IPv4" "tcp4" 443 false zeroTime) berlin)
  = [EvSleep Second; EvSleep Second].
Proof.
  rewrite (monitor_without_address_sleeps sampleConfig berlin
             [cycle 1 None; cycle 2 (Some errTimeout)]
             (mkTargetState "ghost" "" "IPv4" "tcp4" 443 false zeroTime) eq_refl).
  reflexivity.
Defined.

(** ** What a cycle depends on *)

(** X4: the state after a cycle depends on the clock and on whether the probe
    failed, and on nothing else the outside world answers: neither the
    tracer, nor the saving of the trace, nor the delivery of the alert can
    change it. *)
Theorem state_ignores_side_effects env env' cfg loc t :
  clock env = clock env' -> failed env = failed env' ->
  value (checkTarget env cfg t loc) = value (checkTarget env' cfg t loc).
Proof.
  intros Hc Hf. rewrite !checkTarget_value. unfold failed, wentDown in *.
  rewrite Hc.
  destruct (dialResult env), (dialResult env'); try discriminate; reflexivity.
Qed.

Lemma state_ignores_side_effects_witness :
  value (checkTarget (cycle 7 (Some errTimeout)) sampleConfig sampleTarget berlin)
  = value (checkTarget
             (withDelivery (DoError (errorString "connection reset"))
                (withFS (Err (errorString "no such file")) None None
                   (cycle 7 (Some errRefused))))
             sampleConfig sampleTarget berlin).
Proof.
  apply (state_ignores_side_effects (cycle 7 (Some errTimeout))
           (withDelivery (DoError (errorString "connection reset"))
              (withFS (Err (errorString "no such file")) None None
                 (cycle 7 (Some errRefused))))
           sampleConfig berlin sampleTarget eq_refl eq_refl).
Defined.

Lemma deliveryLog_delivered env direction :
  deliveryError env = None -> deliveryLog env direction = [].
Proof. unfold deliveryLog. now intros ->. Qed.

Lemma sendDownAlert_withDelivery dl env cfg t err mtrOut ts :
  exists payload,
    events (sendDownAlert env cfg t err mtrOut ts)
    = EvSendToDiscord (Webhook cfg) payload :: deliveryLog env "DOWN"
    /\ events (sendDownAlert (withDelivery dl env) cfg t err mtrOut ts)
       = EvSendToDiscord (Webhook cfg) payload
         :: deliveryLog (withDelivery dl env) "DOWN".
Proof.
  unfold sendDownAlert. rewrite !sendToDiscord_run. eexists. split.
  - unfold deliveryLog. run_io. cbn. destruct (deliveryError env); reflexivity.
  - unfold deliveryLog. run_io. cbn.
    destruct (deliveryError (withDelivery dl env)); reflexivity.
Qed.

Lemma sendUpAlert_withDelivery dl env cfg t downSince ts :
  exists payload,
    events (sendUpAlert env cfg t downSince ts)
    = EvSendToDiscord (Webhook cfg) payload :: deliveryLog env "UP"
    /\ events (sendUpAlert (withDelivery dl env) cfg t downSince ts)
       = EvSendToDiscord (Webhook cfg) payload
         :: deliveryLog (withDelivery dl env) "UP".
Proof.
  unfold sendUpAlert. rewrite !sendToDiscord_run. eexists. split.
  - unfold deliveryLog. run_io. cbn. destruct (deliveryError env); reflexivity.
  - unfold deliveryLog. run_io. cbn.
    destruct (deliveryError (withDelivery dl env)); reflexivity.
Qed.

(** X5: a failed delivery costs one log line and nothing else: the events of a
    cycle are those of the same cycle with a delivered alert, followed,
    when the cycle changed the status, by the line that reports the
    delivery error. *)
Theorem failed_delivery_only_logs env cfg loc t status :
  String.eqb (IP t) "" = false ->
  200 <= status < 300 ->
  events (checkTarget env cfg t loc)
  = events (checkTarget (withDelivery (Response status) env) cfg t loc)
    ++ (if xorb (Down t) (failed env)
        then deliveryLog env (if failed env then "DOWN" else "UP")
        else []).
Proof.
  intros Hip Hst.
  set (env' := withDelivery (Response status) env).
  assert (Hok : deliveryError env' = None).
  { unfold deliveryError, env'. cbn.
    destruct (status <? 200) eqn:E1; [apply Z.ltb_lt in E1; lia|].
    destruct (300 <=? status) eqn:E2; [apply Z.leb_le in E2; lia|]. reflexivity. }
  unfold failed.
  destruct (dialResult env) as [err|] eqn:Hd; destruct (Down t) eqn:Hdown; cbn [xorb].
  - rewrite !(checkTarget_down_down _ _ _ _ err) by done. now rewrite app_nil_r.
  - destruct (isTimeout err) eqn:Hto.
    + rewrite !(checkTarget_up_down_timeout _ _ _ _ err) by done.
      change (events (?a, ?b)) with b.
      destruct (sendDownAlert_withDelivery (Response status) env cfg
                  (wentDown env loc t) err (traceText env) (In (clock env) loc))
        as (payload & -> & H2).
      change (wentDown env' loc t) with (wentDown env loc t).
      change (traceText env') with (traceText env).
      change (traceLog env' t) with (traceLog env t).
      change (clock env') with (clock env).
      change (saveMTRToFile env') with (saveMTRToFile env).
      fold env' in H2. rewrite H2, (deliveryLog_delivered env') by exact Hok.
      cbn [app]. rewrite <- !app_assoc. cbn [app].
      repeat f_equal.
    + rewrite !(checkTarget_up_down_other _ _ _ _ err) by done.
      change (events (?a, ?b)) with b.
      destruct (sendDownAlert_withDelivery (Response status) env cfg
                  (wentDown env loc t) err noMTR (In (clock env) loc))
        as (payload & -> & H2).
      change (wentDown env' loc t) with (wentDown env loc t).
      change (clock env') with (clock env).
      fold env' in H2. rewrite H2, (deliveryLog_delivered env') by exact Hok.
      reflexivity.
  - rewrite !checkTarget_down_up by done.
    change (events (?a, ?b)) with b.
    destruct (sendUpAlert_withDelivery (Response status) env cfg t (DownSince t)
                (In (clock env) loc)) as (payload & -> & H2).
    change (clock env') with (clock env).
    fold env' in H2. rewrite H2, (deliveryLog_delivered env') by exact Hok.
    reflexivity.
  - rewrite !checkTarget_up_up by done. reflexivity.
Qed.

Lemma failed_delivery_only_logs_witness :
  events (checkTarget (withDelivery (Response 429) (cycle 7 (Some errRefused)))
            sampleConfig sampleTarget berlin)
  = events (checkTarget (cycle 7 (Some errRefused)) sampleConfig sampleTarget berlin)
    ++ [EvLog "error sending DOWN alert to discord: discord webhook status 429"].
Proof.
  rewrite (failed_delivery_only_logs
             (withDelivery (Response 429) (cycle 7 (Some errRefused)))
             sampleConfig berlin sampleTarget 204 eq_refl ltac:(lia)).
  reflexivity.
Defined.

(** ** Traces and their files *)

Lemma filter_nil_of_count (f : Event -> bool) (l : list Event) :
  length (List.filter f l) = 0%nat -> List.filter f l = [].
Proof. destruct (List.filter f l); [reflexivity|discriminate]. Qed.

Lemma saveMTRToFile_no_notification env mtrOut ts t :
  List.filter isNotification (events (saveMTRToFile env mtrOut ts t)) = [].
Proof. apply filter_nil_of_count, saveMTRToFile_quiet. Qed.

(** X6: saving the trace can fail in three ways and none of them touches the
    alert: whatever the file system answers, the cycle sends the same
    notifications, with the same content, and ends in the same state. *)
Theorem alert_survives_persistence_failure env cfg loc t exe mkdir write :
  List.filter isNotification
    (events (checkTarget (withFS exe mkdir write env) cfg t loc))
  = List.filter isNotification (events (checkTarget env cfg t loc))
  /\ value (checkTarget (withFS exe mkdir write env) cfg t loc)
     = value (checkTarget env cfg t loc).
Proof.
  set (env' := withFS exe mkdir write env).
  split; [|rewrite !checkTarget_value; reflexivity].
  destruct (String.eqb (IP t) "") eqn:Hip.
  { rewrite !checkTarget_no_address by assumption. reflexivity. }
  destruct (dialResult env) as [err|] eqn:Hd; destruct (Down t) eqn:Hdown.
  - rewrite !(checkTarget_down_down _ _ _ _ err) by done. reflexivity.
  - destruct (isTimeout err) eqn:Hto.
    + rewrite !(checkTarget_up_down_timeout _ _ _ _ err) by done.
      change (events (?a, ?b)) with b.
      change (wentDown env' loc t) with (wentDown env loc t).
      change (traceText env') with (traceText env).
      change (traceLog env' t) with (traceLog env t).
      change (clock env') with (clock env).
      change (sendDownAlert env') with (sendDownAlert env).
      cbn [List.filter isNotification].
      rewrite !List.filter_app.
      destruct (String.eqb (traceText env) ""); [reflexivity|].
      now rewrite !saveMTRToFile_no_notification.
    + rewrite !(checkTarget_up_down_other _ _ _ _ err) by done. reflexivity.
  - rewrite !checkTarget_down_up by done. reflexivity.
  - rewrite !checkTarget_up_up by done. reflexivity.
Qed.

Ltac pick_event H :=
  repeat first
    [ apply elem_of_cons in H as [H|H]; [try discriminate H|]
    | apply elem_of_app in H as [H|H]
    | apply elem_of_nil in H; contradiction ].

Lemma deliveryLog_only_logs env direction e :
  e ∈ deliveryLog env direction -> exists line, e = EvLog line.
Proof.
  unfold deliveryLog. destruct (deliveryError env); intros H.
  - apply list_elem_of_singleton in H. eauto.
  - apply elem_of_nil in H. contradiction.
Qed.

Lemma traceLog_only_logs env t e :
  e ∈ traceLog env t -> exists line, e = EvLog line.
Proof.
  unfold traceLog. destruct (mtrResult env) as [? [?|]]; intros H.
  - apply list_elem_of_singleton in H. eauto.
  - apply elem_of_nil in H. contradiction.
Qed.

Lemma saveMTRToFile_written env mtrOut ts t name data :
  EvWriteFile name data ∈ events (saveMTRToFile env mtrOut ts t) ->
  data = mtrOut
  /\ exists exe,
       executableResult env = Ok exe /\ mkdirResult env = None
       /\ name = Join (Join (Dir exe) "mtr") (mtrFilename ts t).
Proof.
  unfold saveMTRToFile. run_io.
  destruct (executableResult env) as [exe|e]; cbn.
  2:{ intros H. pick_event H. }
  destruct (mkdirResult env) as [e|]; cbn.
  { intros H. pick_event H. }
  destruct (writeFileResult env) as [e|]; cbn; intros H; pick_event H.
  all: injection H as -> ->; eauto.
Qed.

(** X7: what is saved is what is sent: whenever a cycle calls for a trace
    file to be written, the path is the [filepath.Join] of the [mtr]
    directory beside the executable and the name of the incident, the
    text is not empty, and it is the very text the alert of that cycle
    shows in its description. *)
Theorem trace_saved_is_trace_sent env cfg loc t name data :
  EvWriteFile name data ∈ events (checkTarget env cfg t loc) ->
  (exists exe,
      executableResult env = Ok exe
      /\ name = Join (Join (Dir exe) "mtr") (mtrFilename (In (clock env) loc) t))
  /\ data <> ""
  /\ exists payload embed,
       EvSendToDiscord (Webhook cfg) payload ∈ events (checkTarget env cfg t loc)
       /\ Embeds payload = [embed]
       /\ Description embed = fenced data.
Proof.
  destruct (String.eqb (IP t) "") eqn:Hip.
  { rewrite checkTarget_no_address by assumption. intros H. pick_event H. }
  destruct (dialResult env) as [err|] eqn:Hd; destruct (Down t) eqn:Hdown.
  - rewrite (checkTarget_down_down _ _ _ _ err) by done. intros H. pick_event H.
  - destruct (isTimeout err) eqn:Hto.
    + rewrite (checkTarget_up_down_timeout _ _ _ _ err) by done.
      change (events (?a, ?b)) with b.
      destruct (sendDownAlert_events env cfg (wentDown env loc t) err (traceText env)
                  (In (clock env) loc))
        as (payload & embed & Hev & Hemb & _ & Hdesc & _).
      rewrite Hev. intros H. pick_event H.
      * apply traceLog_only_logs in H as [line H]. discriminate.
      * destruct (String.eqb (traceText env) "") eqn:Htxt.
        { apply elem_of_nil in H. contradiction. }
        apply saveMTRToFile_written in H as (-> & exe & Hexe & _ & ->).
        split; [eauto|]. split.
        { intros Heq. rewrite Heq in Htxt. discriminate. }
        exists payload, embed. split; [|split; [exact Hemb|]].
        -- do 3 (apply elem_of_cons; right).
           apply elem_of_app. right. apply elem_of_app. right.
           apply elem_of_cons. left. reflexivity.
        -- exact Hdesc.
      * apply deliveryLog_only_logs in H as [line H]. discriminate.
    + rewrite (checkTarget_up_down_other _ _ _ _ err) by done.
      change (events (?a, ?b)) with b.
      destruct (sendDownAlert_events env cfg (wentDown env loc t) err noMTR
                  (In (clock env) loc)) as (payload & embed & Hev & _).
      rewrite Hev. intros H. pick_event H.
      apply deliveryLog_only_logs in H as [line H]. discriminate.
  - rewrite checkTarget_down_up by done.
    change (events (?a, ?b)) with b.
    destruct (sendUpAlert_events env cfg t (DownSince t) (In (clock env) loc))
      as (payload & embed & Hev & _).
    rewrite Hev. intros H. pick_event H.
    apply deliveryLog_only_logs in H as [line H]. discriminate.
  - rewrite checkTarget_up_up by done. intros H. pick_event H.
Qed.

Lemma trace_saved_is_trace_sent_witness :
  exists payload embed,
    EvSendToDiscord (Webhook sampleConfig) payload
      ∈ events (checkTarget (cycle 7 (Some errTimeout)) sampleConfig
                            sampleTarget berlin)
    /\ Embeds payload = [embed]
    /\ Description embed = fenced "HOST: probe Loss%".
Proof.
  refine (proj2 (proj2 (trace_saved_is_trace_sent (cycle 7 (Some errTimeout))
            sampleConfig berlin sampleTarget
            "/opt/portwatch/mtr/1970-01-01_01-00-07_Cloudflare-v4_IPv4_443.txt"
            "HOST: probe Loss%" _))).
  vm_compute. do 4 (apply list_elem_of_further). apply list_elem_of_here.
Defined.

(** X8: a tracer that succeeds and prints nothing leaves no file behind, not
    even the directory, and the alert goes out without a description. *)
Theorem empty_trace_not_persisted env cfg loc t err :
  String.eqb (IP t) "" = false -> Down t = false ->
  dialResult env = Some err -> isTimeout err = true ->
  mtrResult env = ("", None) ->
  exists payload embed,
    events (checkTarget env cfg t loc)
    = [probe cfg t; EvLog (downLine t err);
       EvExec "mtr" ["-rwbzc"; "10"; IP t];
       EvSendToDiscord (Webhook cfg) payload] ++ deliveryLog env "DOWN"
    /\ Embeds payload = [embed]
    /\ Description embed = "".
Proof.
  intros Hip Hdown Hd Hto Hmtr.
  rewrite (checkTarget_up_down_timeout _ _ _ _ err) by assumption.
  change (events (?a, ?b)) with b.
  unfold traceLog, traceText. rewrite Hmtr. cbn [String.eqb app].
  destruct (sendDownAlert_events env cfg (wentDown env loc t) err ""
              (In (clock env) loc))
    as (payload & embed & Hev & Hemb & _ & Hdesc & _).
  exists payload, embed. rewrite Hev. auto.
Qed.

Lemma empty_trace_not_persisted_witness :
  exists payload,
    events (checkTarget
              (mkEnv (clock (cycle 7 None)) (Some errTimeout) ("", None)
                     (Ok "probe01") (Ok "/opt/portwatch/portwatch") None None
                     (Response 204))
              sampleConfig sampleTarget berlin)
    = [EvDial "tcp4" "1.1.1.1:443" (5 * Second);
       EvLog "DOWN IPv4 Cloudflare-v4 1.1.1.1:443 error=dial tcp4 1.1.1.1:443: i/o timeout";
       EvExec "mtr" ["-rwbzc"; "10"; "1.1.1.1"];
       EvSendToDiscord "https://discord.com/api/webhooks/1" payload].
Proof.
  destruct (empty_trace_not_persisted
              (mkEnv (clock (cycle 7 None)) (Some errTimeout) ("", None)
                     (Ok "probe01") (Ok "/opt/portwatch/portwatch") None None
                     (Response 204))
              sampleConfig berlin sampleTarget errTimeout
              eq_refl eq_refl eq_refl eq_refl eq_refl)
    as (payload & embed & H & _).
  exists payload. rewrite H. vm_compute. reflexivity.
Defined.

(** X9: a tracer that fails is still reported.  When the trace directory
    and the trace file can be written, the events of the cycle are exactly:
    the probe, the DOWN line, the tracer's command, the line logging its
    error, the creation of the directory, the write of the file, and the
    alert.  The text written and the text the alert shows are the same:
    the tracer's error, a blank line, and whatever the tracer printed; it
    is never empty, and no failure to save is logged. *)
Theorem failed_trace_still_reported env cfg loc t err out mtrErr exe :
  String.eqb (IP t) "" = false -> Down t = false ->
  dialResult env = Some err -> isTimeout err = true ->
  mtrResult env = (out, Some mtrErr) ->
  executableResult env = Ok exe -> mkdirResult env = None ->
  writeFileResult env = None ->
  let text := "mtr error: " +:+ Error mtrErr +:+ newline +:+ newline +:+ out in
  exists payload embed,
    events (checkTarget env cfg t loc)
    = [probe cfg t; EvLog (downLine t err);
       EvExec "mtr" ["-rwbzc"; "10"; IP t];
       EvLog ("mtr error for " +:+ IP t +:+ ": " +:+ Error mtrErr);
       EvMkdirAll (Join (Dir exe) "mtr");
       EvWriteFile (Join (Join (Dir exe) "mtr") (mtrFilename (In (clock env) loc) t))
                   text;
       EvSendToDiscord (Webhook cfg) payload] ++ deliveryLog env "DOWN"
    /\ Embeds payload = [embed]
    /\ Description embed = fenced text
    /\ text <> "".
Proof.
  intros Hip Hdown Hd Hto Hmtr Hexe Hmk Hwr text.
  rewrite (checkTarget_up_down_timeout _ _ _ _ err) by assumption.
  change (events (?a, ?b)) with b.
  unfold traceLog, traceText. rewrite Hmtr. fold text.
  assert (Htxt : String.eqb text "" = false) by reflexivity.
  rewrite Htxt.
  destruct (sendDownAlert_events env cfg (wentDown env loc t) err text
              (In (clock env) loc))
    as (payload & embed & Hev & Hemb & _ & Hdesc & _).
  exists payload, embed. rewrite Hev.
  unfold saveMTRToFile. rewrite Hexe, Hmk, Hwr. run_io. cbn [fst snd app].
  split_and!.
  - reflexivity.
  - exact Hemb.
  - rewrite Hdesc, Htxt. reflexivity.
  - discriminate.
Qed.

Lemma failed_trace_still_reported_witness :
  exists payload,
    events (checkTarget
              (mkEnv (clock (cycle 7 None)) (Some errTimeout)
                     ("", Some (errorString "exit status 1"))
                     (Ok "probe01") (Ok "/opt/portwatch/portwatch") None None
                     (Response 204))
              sampleConfig sampleTarget berlin)
    = [EvDial "tcp4" "1.1.1.1:443" (5 * Second);
       EvLog "DOWN IPv4 Cloudflare-v4 1.1.1.1:443 error=dial tcp4 1.1.1.1:443: i/o timeout";
       EvExec "mtr" ["-rwbzc"; "10"; "1.1.1.1"];
       EvLog "mtr error for 1.1.1.1: exit status 1";
       EvMkdirAll "/opt/portwatch/mtr";
       EvWriteFile
         "/opt/portwatch/mtr/1970-01-01_01-00-07_Cloudflare-v4_IPv4_443.txt"
         ("mtr error: exit status 1" +:+ newline +:+ newline);
       EvSendToDiscord "https://discord.com/api/webhooks/1" payload].
Proof.
  destruct (failed_trace_still_reported
              (mkEnv (clock (cycle 7 None)) (Some errTimeout)
                     ("", Some (errorString "exit status 1"))
                     (Ok "probe01") (Ok "/opt/portwatch/portwatch") None None
                     (Response 204))
              sampleConfig berlin sampleTarget errTimeout ""
              (errorString "exit status 1") "/opt/portwatch/portwatch"
              eq_refl eq_refl eq_refl eq_refl eq_refl eq_refl eq_refl eq_refl)
    as (payload & embed & H & _).
  exists payload. rewrite H. vm_compute. reflexivity.
Defined.

(** ** Down episodes and the pace of the loop *)

Lemma stays_down cfg loc fails : forall t,
  String.eqb (IP t) "" = false -> Down t = true ->
  Forall (fun env => failed env = true) fails ->
  value (monitorTarget fails cfg t loc) = t.
Proof.
  induction fails as [|env rest IH]; intros t Hip Hdown Hall; [reflexivity|].
  apply Forall_cons in Hall as [Hf Hrest]. rewrite monitorTarget_cons.
  unfold failed in Hf. destruct (dialResult env) as [err|] eqn:Hd; [|discriminate].
  rewrite (checkTarget_down_down _ _ _ _ err) by assumption.
  now apply IH.
Qed.

(** X10: the downtime an outage is reported with runs from its first failed
    probe: however many failed probes follow, the recovery logs and alerts
    the time from that first probe to the successful one, rounded to the
    second. *)
Theorem downtime_runs_from_first_failure cfg loc envF fails envOk t :
  String.eqb (IP t) "" = false -> Down t = false ->
  failed envF = true ->
  Forall (fun env => failed env = true) fails ->
  dialResult envOk = None ->
  let t1 := value (monitorTarget (envF :: fails) cfg t loc) in
  let dur := Round (Sub (In (clock envOk) loc) (In (clock envF) loc)) Second in
  DownSince t1 = In (clock envF) loc
  /\ exists payload embed,
       events (checkTarget envOk cfg t1 loc)
       = [probe cfg t;
          EvLog ("UP " +:+ IPVersion t +:+ " " +:+ Name t +:+ " " +:+ IP t
                 +:+ ":" +:+ Itoa (Port t) +:+ " after " +:+ DurationString dur);
          EvSendToDiscord (Webhook cfg) payload] ++ deliveryLog envOk "UP"
       /\ Embeds payload = [embed]
       /\ last (Fields embed)
          = Some (mkField "Downtime" (DurationString dur) false).
Proof.
  intros Hip Hdown HF Hfails Hok t1 dur.
  assert (Ht1 : t1 = wentDown envF loc t).
  { subst t1. rewrite monitorTarget_cons.
    assert (Hstep : value (checkTarget envF cfg t loc) = wentDown envF loc t).
    { rewrite checkTarget_value, Hip, Hdown. unfold failed in HF.
      destruct (dialResult envF); [reflexivity|discriminate]. }
    rewrite Hstep. apply stays_down; [exact Hip|reflexivity|exact Hfails]. }
  rewrite Ht1. split; [reflexivity|].
  rewrite checkTarget_down_up by (try assumption; reflexivity).
  change (events (?a, ?b)) with b.
  destruct (sendUpAlert_events envOk cfg (wentDown envF loc t)
              (DownSince (wentDown envF loc t)) (In (clock envOk) loc))
    as (payload & embed & Hev & Hemb & _ & Hlast).
  exists payload, embed. rewrite Hev. split_and!; [reflexivity|exact Hemb|exact Hlast].
Qed.

Lemma downtime_runs_from_first_failure_witness :
  exists payload,
    events (checkTarget (cycle 190 None) sampleConfig
              (value (monitorTarget
                        [cycle 100 (Some errTimeout); cycle 130 (Some errRefused);
                         cycle 160 (Some errTimeout)]
                        sampleConfig sampleTarget berlin))
              berlin)
    = [EvDial "tcp4" "1.1.1.1:443" (5 * Second);
       EvLog "UP IPv4 Cloudflare-v4 1.1.1.1:443 after 1m30s";
       EvSendToDiscord "https://discord.com/api/webhooks/1" payload].
Proof.
  destruct (downtime_runs_from_first_failure sampleConfig berlin
              (cycle 100 (Some errTimeout))
              [cycle 130 (Some errRefused); cycle 160 (Some errTimeout)]
              (cycle 190 None) sampleTarget eq_refl eq_refl eq_refl
              ltac:(repeat constructor) eq_refl)
    as (_ & payload & embed & H & _).
  exists payload. rewrite H. vm_compute. reflexivity.
Defined.

Lemma probes_app a b : probes (a ++ b) = (probes a + probes b)%nat.
Proof. unfold probes. rewrite List.filter_app, length_app. reflexivity. Qed.

Lemma sleeps_app a b : sleeps (a ++ b) = (sleeps a + sleeps b)%nat.
Proof. unfold sleeps. rewrite List.filter_app, length_app. reflexivity. Qed.

Lemma afterProbe_counts l :
  Forall afterProbe l -> probes l = 0%nat /\ sleeps l = 0%nat.
Proof.
  unfold probes, sleeps. induction 1 as [|e l [Hp Hs] _ [IHp IHs]]; [auto|].
  cbn. rewrite Hp, Hs. auto.
Qed.

Lemma afterProbe_paced cfg l : Forall afterProbe l -> Forall (paced cfg) l.
Proof.
  intros H. eapply Forall_impl; [exact H|].
  intros [] [Hp Hs]; cbn in *; try discriminate; exact I.
Qed.

Lemma afterProbe_deliveryLog env direction :
  Forall afterProbe (deliveryLog env direction).
Proof.
  unfold deliveryLog. destruct (deliveryError env); repeat constructor.
Qed.

Lemma afterProbe_saveMTRToFile env mtrOut ts t :
  Forall afterProbe (events (saveMTRToFile env mtrOut ts t)).
Proof.
  unfold saveMTRToFile. run_io.
  destruct (executableResult env); [|repeat constructor].
  destruct (mkdirResult env); [repeat constructor|].
  destruct (writeFileResult env); repeat constructor.
Qed.

Lemma step_is_probe_then_rest env cfg loc t :
  String.eqb (IP t) "" = false ->
  exists rest,
    events (checkTarget env cfg t loc) = probe cfg t :: rest
    /\ Forall afterProbe rest.
Proof.
  intros Hip.
  destruct (dialResult env) as [err|] eqn:Hd; destruct (Down t) eqn:Hdown.
  - rewrite (checkTarget_down_down _ _ _ _ err) by done. eexists. split; [reflexivity|].
    constructor.
  - destruct (isTimeout err) eqn:Hto.
    + rewrite (checkTarget_up_down_timeout _ _ _ _ err) by done.
      eexists. split; [reflexivity|].
      destruct (sendDownAlert_events env cfg (wentDown env loc t) err (traceText env)
                  (In (clock env) loc)) as (payload & embed & -> & _).
      do 2 (constructor; [split; reflexivity|]).
      apply Forall_app. split.
      { unfold traceLog. destruct (mtrResult env) as [? [?|]]; repeat constructor. }
      apply Forall_app. split.
      { destruct (String.eqb (traceText env) ""); [constructor|].
        apply afterProbe_saveMTRToFile. }
      constructor; [split; reflexivity|apply afterProbe_deliveryLog].
    + rewrite (checkTarget_up_down_other _ _ _ _ err) by done.
      eexists. split; [reflexivity|].
      destruct (sendDownAlert_events env cfg (wentDown env loc t) err noMTR
                  (In (clock env) loc)) as (payload & embed & -> & _).
      do 2 (constructor; [split; reflexivity|]). apply afterProbe_deliveryLog.
  - rewrite checkTarget_down_up by done. eexists. split; [reflexivity|].
    destruct (sendUpAlert_events env cfg t (DownSince t) (In (clock env) loc))
      as (payload & embed & -> & _).
    do 2 (constructor; [split; reflexivity|]). apply afterProbe_deliveryLog.
  - rewrite checkTarget_up_up by done. eexists. split; [reflexivity|]. constructor.
Qed.

(** X11: the loop probes once and sleeps once per cycle: over a target with
    an address, a run of [n] cycles makes [n] connection attempts and [n]
    sleeps.  With a positive timeout and a positive interval, as [main]
    leaves them, of at most 9223372036 seconds (beyond which the
    nanosecond count leaves [int64]), the timeout handed to every
    connection attempt is exactly the configured timeout and the duration
    handed to every sleep is exactly the configured interval. *)
Theorem one_probe_one_sleep_per_cycle cfg loc envs : forall t,
  String.eqb (IP t) "" = false ->
  probes (events (monitorTarget envs cfg t loc)) = length envs
  /\ sleeps (events (monitorTarget envs cfg t loc)) = length envs
  /\ (0 < Timeout cfg <= 9223372036 -> 0 < Delay cfg <= 9223372036 ->
      Forall (paced cfg) (events (monitorTarget envs cfg t loc))
      /\ 0 < Timeout cfg * Second /\ 0 < Delay cfg * Second).
Proof.
  induction envs as [|env rest IH]; intros t Hip.
  - cbn. split_and!; auto. intros Hto Hdl. split; [constructor|unfold Second; lia].
  - rewrite monitorTarget_cons_events.
    destruct (step_is_probe_then_rest env cfg loc t Hip) as (tail & -> & Htail).
    destruct (afterProbe_counts tail Htail) as [Hp Hs].
    destruct (IH (value (checkTarget env cfg t loc))) as (IHp & IHs & IHpaced).
    { now rewrite checkTarget_address. }
    rewrite probes_app, sleeps_app.
    change (probes (probe cfg t :: tail)) with (S (probes tail)).
    change (sleeps (probe cfg t :: tail)) with (sleeps tail).
    change (probes (EvSleep ?d :: ?l)) with (probes l).
    change (sleeps (EvSleep ?d :: ?l)) with (S (sleeps l)).
    rewrite Hp, Hs, IHp, IHs. cbn [length]. split_and!; [lia|lia|].
    intros Hto Hdl. split; [|unfold Second; lia].
    apply Forall_app. split.
    + constructor; [|now apply afterProbe_paced].
      cbn. apply wrap64_small. unfold Second, minInt64, maxInt64.
      change (2 ^ 63) with 9223372036854775808. lia.
    + constructor; [|now apply (IHpaced Hto Hdl)].
      cbn. apply wrap64_small. unfold Second, minInt64, maxInt64.
      change (2 ^ 63) with 9223372036854775808. lia.
Qed.

Lemma one_probe_one_sleep_per_cycle_witness :
  probes (events (monitorTarget
                    [cycle 1 None; cycle 2 (Some errTimeout); cycle 3 None]
                    sampleConfig sampleTarget berlin)) = 3%nat.
Proof.
  exact (proj1 (one_probe_one_sleep_per_cycle sampleConfig berlin
                  [cycle 1 None; cycle 2 (Some errTimeout); cycle 3 None]
                  sampleTarget eq_refl)).
Defined.

(** ** Runs of the writer *)

Lemma Write_closed flt w d p f :
  file w = Some f -> fileClosed f = true ->
  Write flt w d p
  = (w, called (SysWrite (fileName f) p) (called (SysStat (fileName f)) d),
     (0, Some ErrClosed)).
Proof.
  intros Hf Hc. unfold Write. rewrite Hf. cbv beta iota. rewrite Hf.
  unfold Stat, FileWrite. rewrite Hc. reflexivity.
Qed.

Lemma Writes_closed ps : forall w d f,
  file w = Some f -> fileClosed f = true ->
  (Writes w d ps).1 = w /\ files (Writes w d ps).2 = files d.
Proof.
  induction ps as [|[flt p] ps IH]; intros w d f Hf Hc; [auto|].
  cbn [Writes]. rewrite (Write_closed flt w d p f Hf Hc).
  destruct (IH w (called (SysWrite (fileName f) p) (called (SysStat (fileName f)) d))
              f Hf Hc) as [H1 H2].
  split; [exact H1|]. rewrite H2. reflexivity.
Qed.

(** X20: [Close] is final: once the writer is closed, [Write] never reopens the
    log.  Every later write returns the error of a closed file with nothing
    written, whatever the operating system would answer, and a second
    [Close] returns that error too. *)
Theorem closed_writer_stays_closed fault w d f :
  file w = Some f -> fileClosed f = false ->
  exists w' d',
    rotatingWriter_Close fault w d = (w', d', fault)
    /\ files d' = files d
    /\ (forall flt p,
           (Write flt w' d' p).1.1 = w'
           /\ (Write flt w' d' p).2 = (0, Some ErrClosed)
           /\ files (Write flt w' d' p).1.2 = files d)
    /\ (forall ps, files (Writes w' d' ps).2 = files d)
    /\ (forall fault', (rotatingWriter_Close fault' w' d').2 = Some ErrClosed).
Proof.
  intros Hf Hopen. unfold rotatingWriter_Close, FileClose, Close.
  rewrite Hf, Hopen. eexists _, _. split; [reflexivity|].
  set (f' := mkFile (fileName f) true).
  set (w' := setFile (Some f') w).
  set (d' := called (SysClose (fileName f)) d).
  split_and!.
  - reflexivity.
  - intros flt p. now rewrite (Write_closed flt w' d' p f').
  - intros ps. now destruct (Writes_closed ps w' d' f' eq_refl eq_refl) as [_ ->].
  - intros fault'. reflexivity.
Qed.

Lemma closed_writer_stays_closed_witness :
  exists w' d',
    rotatingWriter_Close None smallWriter smallDisk = (w', d', None)
    /\ (Write noFaults w' d' (bytesOf "abc")).2 = (0, Some ErrClosed).
Proof.
  destruct (closed_writer_stays_closed None smallWriter smallDisk
              (mkFile logName false) eq_refl eq_refl)
    as (w' & d' & HC & _ & HW & _).
  exists w', d'. split; [exact HC|]. exact (proj1 (proj2 (HW noFaults (bytesOf "abc")))).
Defined.

(** X15: opening the log at startup never truncates it: what an earlier run
    left in the file is kept (an absent file is created empty), no other
    name is touched, and the writer comes back open on that file.  When
    the open fails, no writer is returned and no file is created. *)
Theorem log_open_keeps_history flt name threshold d :
  match newRotatingWriter flt name threshold d with
  | (d', Ok w) =>
      openFault flt = None
      /\ w = mkWriter name threshold (Some (mkFile name false))
      /\ files d' !! name = Some (default [] (files d !! name))
      /\ (forall other, other <> name -> files d' !! other = files d !! other)
      /\ calls d' = calls d ++ [SysOpenAppend name]
  | (d', Err e) =>
      openFault flt = Some e /\ files d' = files d
  end.
Proof.
  unfold newRotatingWriter, open, closeCurrent, OpenFile.
  cbn [path file maxSize setFile called files setFiles calls].
  destruct (openFault flt) as [e|]; [auto|].
  split_and!; try reflexivity.
  - apply lookup_insert_eq.
  - intros other Hne. apply lookup_insert_ne. congruence.
Qed.

(** One write on an open log, the operating system answering without
    error. *)
Lemma Write_nominal w d p old :
  file w = Some (mkFile (path w) false) ->
  files d !! path w = Some old ->
  Z.of_nat (length old) + Z.of_nat (length p) <= maxInt64 ->
  exists d',
    Write noFaults w d p = (w, d', (Z.of_nat (length p), None))
    /\ files d' !! path w
       = Some (if maxSize w <? Z.of_nat (length old) + Z.of_nat (length p)
               then p else old ++ p).
Proof.
  intros Hfile Hold Hsz. destruct w as [pa ms fi]. cbn [path file maxSize] in *.
  subst fi. unfold Write. reduce_writer. unfold Stat. reduce_writer.
  cbn [statFault noFaults]. rewrite Hold. reduce_writer. rewrite wrap64_small.
  2:{ assert (minInt64 < 0) by reflexivity. lia. }
  destruct (ms <? _).
  - unfold rotate, closeCurrent, Close, Rename, OpenFile. reduce_writer.
    cbn [renameFault truncFault noFaults]. rewrite Hold. reduce_writer.
    unfold FileWrite. reduce_writer. cbn [writeFault noFaults].
    rewrite lookup_insert_eq. reduce_writer. cbn [app].
    eexists. split; [reflexivity|]. reduce_writer. apply lookup_insert_eq.
  - unfold FileWrite. reduce_writer. cbn [writeFault noFaults]. rewrite Hold.
    reduce_writer. eexists. split; [reflexivity|]. reduce_writer.
    apply lookup_insert_eq.
Qed.

Lemma length_concat_cons (p : list byte) ps :
  Z.of_nat (length (concat (p :: ps)))
  = Z.of_nat (length p) + Z.of_nat (length (concat ps)).
Proof. cbn [concat]. rewrite length_app. lia. Qed.

Lemma Writes_nominal ps : forall w d old,
  file w = Some (mkFile (path w) false) ->
  files d !! path w = Some old ->
  Z.of_nat (length old) + Z.of_nat (length (concat ps)) <= maxInt64 ->
  exists d' active,
    Writes w d (plain ps) = (w, d')
    /\ files d' !! path w = Some active
    /\ (exists before, old ++ concat ps = before ++ active)
    /\ (Forall (fun p => Z.of_nat (length p) <= maxSize w) ps ->
        ps = [] \/ Z.of_nat (length active) <= maxSize w).
Proof.
  induction ps as [|p ps IH]; intros w d old Hfile Hold Hsz.
  - exists d, old. split_and!; [reflexivity|exact Hold| |auto].
    exists []. now rewrite app_nil_r.
  - rewrite length_concat_cons in Hsz.
    destruct (Write_nominal w d p old Hfile Hold ltac:(lia)) as (d1 & HW & Hact).
    cbn [plain map Writes]. rewrite HW. fold (plain ps).
    set (old1 := if maxSize w <? Z.of_nat (length old) + Z.of_nat (length p)
                 then p else old ++ p) in *.
    assert (Hlen1 : Z.of_nat (length old1) <= Z.of_nat (length old) + Z.of_nat (length p)).
    { subst old1. destruct (maxSize w <? _); rewrite ?length_app; lia. }
    destruct (IH w d1 old1 Hfile Hact ltac:(lia)) as (d' & active & HWs & Hfin & Hsuf & Hbound).
    exists d', active. split_and!; [exact HWs|exact Hfin| |].
    + destruct Hsuf as [before Hb]. cbn [concat].
      subst old1. destruct (maxSize w <? _).
      * exists (old ++ before). rewrite <- !app_assoc. now rewrite <- Hb.
      * exists before. rewrite <- Hb. now rewrite <- !app_assoc.
    + intros Hall. right. apply Forall_cons in Hall as [Hp Hps].
      destruct (Hbound Hps) as [->|Hle]; [|exact Hle].
      cbn in HWs. injection HWs as <-. rewrite Hact in Hfin. injection Hfin as <-.
      subst old1. destruct (maxSize w <? _) eqn:E; [exact Hp|].
      apply Z.ltb_ge in E. rewrite length_app. lia.
Qed.

(** X16: the active file never outgrows the threshold unless a single write
    does: after any run of writes that met no failure, each of them no
    longer than the threshold, the active file is no longer than the
    threshold, whatever its size was before. *)
Theorem active_file_stays_within_threshold w d old ps :
  file w = Some (mkFile (path w) false) ->
  files d !! path w = Some old ->
  Z.of_nat (length old) + Z.of_nat (length (concat ps)) <= maxInt64 ->
  ps <> [] ->
  Forall (fun p => Z.of_nat (length p) <= maxSize w) ps ->
  exists active,
    files (Writes w d (plain ps)).2 !! path w = Some active
    /\ Z.of_nat (length active) <= maxSize w.
Proof.
  intros Hfile Hold Hsz Hne Hall.
  destruct (Writes_nominal ps w d old Hfile Hold Hsz)
    as (d' & active & -> & Hact & _ & Hbound).
  exists active. split; [exact Hact|].
  destruct (Hbound Hall) as [->|H]; [contradiction|exact H].
Qed.

Lemma active_file_stays_within_threshold_witness :
  exists active,
    files (Writes smallWriter smallDisk
             (plain [bytesOf "abc"; bytesOf "defgh"; bytesOf "ij"])).2 !! logName
    = Some active
    /\ Z.of_nat (length active) <= 8.
Proof.
  apply (active_file_stays_within_threshold smallWriter smallDisk (bytesOf "line1;")
           [bytesOf "abc"; bytesOf "defgh"; bytesOf "ij"] eq_refl eq_refl).
  - vm_compute. discriminate.
  - discriminate.
  - repeat constructor; vm_compute; discriminate.
Defined.

Lemma Write_nominal_backup w d p old :
  file w = Some (mkFile (path w) false) ->
  files d !! path w = Some old ->
  Z.of_nat (length old) + Z.of_nat (length p) <= maxInt64 ->
  exists d',
    Write noFaults w d p = (w, d', (Z.of_nat (length p), None))
    /\ files d' !! path w
       = Some (if maxSize w <? Z.of_nat (length old) + Z.of_nat (length p)
               then p else old ++ p)
    /\ files d' !! (path w +:+ ".1")
       = (if maxSize w <? Z.of_nat (length old) + Z.of_nat (length p)
          then Some old else files d !! (path w +:+ ".1")).
Proof.
  intros Hfile Hold Hsz. pose proof (backup_ne_active w) as Hne.
  destruct w as [pa ms fi]. cbn [path file maxSize] in *.
  subst fi. unfold Write. reduce_writer. unfold Stat. reduce_writer.
  cbn [statFault noFaults]. rewrite Hold. reduce_writer. rewrite wrap64_small.
  2:{ assert (minInt64 < 0) by reflexivity. lia. }
  destruct (ms <? _).
  - unfold rotate, closeCurrent, Close, Rename, OpenFile. reduce_writer.
    cbn [renameFault truncFault noFaults]. rewrite Hold. reduce_writer.
    unfold FileWrite. reduce_writer. cbn [writeFault noFaults].
    rewrite lookup_insert_eq. reduce_writer. cbn [app].
    eexists. split; [reflexivity|]. reduce_writer. split.
    + apply lookup_insert_eq.
    + rewrite !lookup_insert_ne by congruence. apply lookup_insert_eq.
  - unfold FileWrite. reduce_writer. cbn [writeFault noFaults]. rewrite Hold.
    reduce_writer. eexists. split; [reflexivity|]. reduce_writer. split.
    + apply lookup_insert_eq.
    + apply lookup_insert_ne. congruence.
Qed.

(** X17: the active file always ends with the latest bytes.  After any run
    of writes that met no failure, either no write rotated, and the active
    file holds what it held before followed by every byte written, in
    order, the backup being untouched; or, for one write of the run that
    went past the threshold, the active file holds exactly the bytes of
    that write and of all the writes after it, and the backup holds
    exactly what the active file held just before that write.  So the
    file starts at the start of a write and ends with the last write. *)
Theorem active_file_is_tail_of_history ps : forall w d old,
  file w = Some (mkFile (path w) false) ->
  files d !! path w = Some old ->
  Z.of_nat (length old) + Z.of_nat (length (concat ps)) <= maxInt64 ->
  exists d' active,
    Writes w d (plain ps) = (w, d')
    /\ files d' !! path w = Some active
    /\ ((active = old ++ concat ps
         /\ files d' !! (path w +:+ ".1") = files d !! (path w +:+ ".1"))
        \/ exists ps1 p ps2 before,
             ps = ps1 ++ p :: ps2
             /\ active = concat (p :: ps2)
             /\ files (Writes w d (plain ps1)).2 !! path w = Some before
             /\ files d' !! (path w +:+ ".1") = Some before
             /\ maxSize w < Z.of_nat (length before) + Z.of_nat (length p)).
Proof.
  induction ps as [|p ps IH]; intros w d old Hfile Hold Hsz.
  - exists d, old. split_and!; [reflexivity|exact Hold|].
    left. cbn [concat]. now rewrite app_nil_r.
  - rewrite length_concat_cons in Hsz.
    destruct (Write_nominal_backup w d p old Hfile Hold ltac:(lia))
      as (d1 & HW & Hact & Hbak).
    set (rot := maxSize w <? Z.of_nat (length old) + Z.of_nat (length p)) in *.
    set (old1 := if rot then p else old ++ p) in *.
    assert (Hlen1 : Z.of_nat (length old1)
                    <= Z.of_nat (length old) + Z.of_nat (length p)).
    { subst old1. destruct rot; rewrite ?length_app; lia. }
    destruct (IH w d1 old1 Hfile Hact ltac:(lia))
      as (d' & active & HWs & Hfin & Hcase).
    assert (Hstep : forall qs,
               Writes w d (plain (p :: qs)) = Writes w d1 (plain qs)).
    { intros qs. cbn [plain map Writes]. now rewrite HW. }
    exists d', active. split_and!; [now rewrite Hstep|exact Hfin|].
    destruct Hcase as [[Hall Hb]|(ps1 & q & ps2 & before & Hps & Hq & Hbef & Hb & Hover)].
    + destruct rot eqn:Hrot.
      * right. exists [], p, ps, old. split_and!.
        -- reflexivity.
        -- exact Hall.
        -- exact Hold.
        -- now rewrite Hb, Hbak.
        -- now apply Z.ltb_lt.
      * left. split.
        -- rewrite Hall. subst old1. cbn [concat]. now rewrite <- app_assoc.
        -- now rewrite Hb, Hbak.
    + right. exists (p :: ps1), q, ps2, before. split_and!.
      * now rewrite Hps.
      * exact Hq.
      * now rewrite Hstep.
      * exact Hb.
      * exact Hover.
Qed.

Lemma active_file_is_tail_of_history_witness :
  exists d',
    Writes smallWriter smallDisk (plain [bytesOf "a"; bytesOf "bcd"; bytesOf "ef"])
    = (smallWriter, d')
    /\ files d' !! logName = Some (bytesOf "bcdef")
    /\ files d' !! (logName +:+ ".1") = Some (bytesOf "line1;a").
Proof.
  destruct (active_file_is_tail_of_history
              [bytesOf "a"; bytesOf "bcd"; bytesOf "ef"]
              smallWriter smallDisk (bytesOf "line1;") eq_refl eq_refl
              ltac:(vm_compute; discriminate))
    as (d' & active & HW & _).
  exists d'. split; [exact HW|].
  apply (f_equal snd) in HW. cbn [snd] in HW. rewrite <- HW.
  split; vm_compute; reflexivity.
Defined.

(** X19: a rotation whose re-creation of the log fails ends logging to the
    file for good: the write returns the error, the old content has already
    moved to the backup, no active file exists, and since the writer keeps
    its closed handle every later write fails without touching the
    directory, whatever the operating system would answer. *)
Theorem failed_rotation_ends_logging flt w d p old e :
  file w = Some (mkFile (path w) false) ->
  files d !! path w = Some old ->
  Z.of_nat (length old) + Z.of_nat (length p) <= maxInt64 ->
  maxSize w < Z.of_nat (length old) + Z.of_nat (length p) ->
  statFault flt = None -> renameFault flt = None -> truncFault flt = Some e ->
  exists w' d',
    Write flt w d p = (w', d', (0, Some e))
    /\ files d' !! path w = None
    /\ files d' !! (path w +:+ ".1") = Some old
    /\ (forall flt' q, (Write flt' w' d' q).2 = (0, Some ErrClosed))
    /\ (forall ps, files (Writes w' d' ps).2 = files d').
Proof.
  intros Hfile Hold Hsz Hover Hst Hrn Htr.
  pose proof (backup_ne_active w) as Hne.
  destruct w as [pa ms fi]. cbn [path file maxSize] in *. subst fi.
  set (w1 := mkWriter pa ms (Some (mkFile pa true))).
  assert (exists d1,
             Write flt (mkWriter pa ms (Some (mkFile pa false))) d p
             = (w1, d1, (0, Some e))
             /\ files d1 !! pa = None
             /\ files d1 !! (pa +:+ ".1") = Some old) as (d1 & HW & H1 & H2).
  { unfold Write. reduce_writer. unfold Stat. reduce_writer.
    rewrite Hst, Hold. reduce_writer. rewrite wrap64_small.
    2:{ assert (minInt64 < 0) by reflexivity. lia. }
    apply Z.ltb_lt in Hover. rewrite Hover.
    unfold rotate, closeCurrent, Close, Rename, OpenFile. reduce_writer.
    rewrite Hrn, Htr, Hold. reduce_writer.
    eexists. split; [reflexivity|]. reduce_writer. split.
    - rewrite lookup_insert_ne by congruence. apply lookup_delete_eq.
    - apply lookup_insert_eq. }
  exists w1, d1. split_and!; [exact HW|exact H1|exact H2| |].
  - intros flt' q. now rewrite (Write_closed flt' w1 d1 q (mkFile pa true)).
  - intros ps.
    now destruct (Writes_closed ps w1 d1 (mkFile pa true) eq_refl eq_refl) as [_ ->].
Qed.

Lemma failed_rotation_ends_logging_witness :
  exists w' d',
    Write (mkFaults None None None (Some (errorString "disk full")) None)
          smallWriter smallDisk (bytesOf "abc")
    = (w', d', (0, Some (errorString "disk full")))
    /\ files d' !! logName = None
    /\ files d' !! (logName +:+ ".1") = Some (bytesOf "line1;").
Proof.
  destruct (failed_rotation_ends_logging
              (mkFaults None None None (Some (errorString "disk full")) None)
              smallWriter smallDisk (bytesOf "abc") (bytesOf "line1;")
              (errorString "disk full") eq_refl eq_refl
              ltac:(vm_compute; discriminate) ltac:(vm_compute; reflexivity)
              eq_refl eq_refl eq_refl)
    as (w' & d' & HW & H1 & H2 & _).
  exists w', d'. auto.
Defined.

(** X18: a short write is counted truthfully: when the append fails after [n]
    bytes, the count returned with the error is the number of bytes that
    reached the file, these bytes are the first of [p], and what the file
    (or, after a rotation, the backup) held before is intact. *)
Theorem short_write_is_counted flt w d p old n e :
  file w = Some (mkFile (path w) false) ->
  files d !! path w = Some old ->
  Z.of_nat (length old) + Z.of_nat (length p) <= maxInt64 ->
  statFault flt = None -> renameFault flt = None -> truncFault flt = None ->
  writeFault flt = Some (n, e) ->
  let rotates := maxSize w <? Z.of_nat (length old) + Z.of_nat (length p) in
  exists d',
    Write flt w d p = (w, d', (Z.of_nat (Nat.min n (length p)), Some e))
    /\ files d' !! path w = Some ((if rotates then [] else old) ++ take n p)
    /\ (rotates = true -> files d' !! (path w +:+ ".1") = Some old).
Proof.
  intros Hfile Hold Hsz Hst Hrn Htr Hwr rotates.
  pose proof (backup_ne_active w) as Hne.
  destruct w as [pa ms fi]. cbn [path file maxSize] in *. subst fi.
  unfold Write. reduce_writer. unfold Stat. reduce_writer.
  rewrite Hst, Hold. reduce_writer. rewrite wrap64_small.
  2:{ assert (minInt64 < 0) by reflexivity. lia. }
  fold rotates. rewrite <- length_take. destruct rotates.
  - unfold rotate, closeCurrent, Close, Rename, OpenFile. reduce_writer.
    rewrite Hrn, Htr, Hold. reduce_writer.
    unfold FileWrite. reduce_writer. rewrite Hwr, lookup_insert_eq. reduce_writer.
    eexists. split; [reflexivity|]. reduce_writer. split_and!.
    + apply lookup_insert_eq.
    + intros _. rewrite !lookup_insert_ne by congruence. apply lookup_insert_eq.
  - unfold FileWrite. reduce_writer. rewrite Hwr, Hold. reduce_writer.
    eexists. split; [reflexivity|]. reduce_writer. split_and!.
    + apply lookup_insert_eq.
    + discriminate.
Qed.

Lemma short_write_is_counted_witness :
  exists d',
    Write (mkFaults None None None None (Some (2%nat, errorString "disk full")))
          (mkWriter logName 50 (Some (mkFile logName false))) smallDisk
          (bytesOf "abc")
    = (mkWriter logName 50 (Some (mkFile logName false)), d',
       (2, Some (errorString "disk full")))
    /\ files d' !! logName = Some (bytesOf "line1;ab").
Proof.
  destruct (short_write_is_counted
              (mkFaults None None None None (Some (2%nat, errorString "disk full")))
              (mkWriter logName 50 (Some (mkFile logName false))) smallDisk
              (bytesOf "abc") (bytesOf "line1;") 2%nat (errorString "disk full")
              eq_refl eq_refl ltac:(vm_compute; discriminate)
              eq_refl eq_refl eq_refl eq_refl)
    as (d' & HW & Hact & _).
  exists d'. split; [exact HW|exact Hact].
Defined.

(** ** The targets [main] builds *)

Lemma targetStates_app a b :
  targetStates (a ++ b) = targetStates a ++ targetStates b.
Proof.
  induction a as [|tc a IH]; [reflexivity|].
  cbn [app targetStates]. rewrite IH.
  destruct (tcDPort tc <=? 0); [reflexivity|]. now rewrite <- !app_assoc.
Qed.

(** Membership in the list of states. *)
Lemma targetStates_elem tcs t :
  t ∈ targetStates tcs
  <-> exists tc,
        tc ∈ tcs /\ 0 < tcDPort tc
        /\ ((tcIPv4 tc <> "" /\ t = stateV4 tc)
            \/ (tcIPv6 tc <> "" /\ t = stateV6 tc)).
Proof.
  induction tcs as [|tc tcs IH].
  - split; [intros H; apply elem_of_nil in H; contradiction|].
    intros (tc & H & _). apply elem_of_nil in H. contradiction.
  - cbn [targetStates]. split.
    + intros H. destruct (tcDPort tc <=? 0) eqn:Hport.
      * apply IH in H as (tc' & Hin & Hrest). exists tc'. split; [|exact Hrest].
        apply elem_of_cons. auto.
      * apply Z.leb_gt in Hport.
        apply elem_of_app in H as [H|H]; [|apply elem_of_app in H as [H|H]].
        -- destruct (String.eqb (tcIPv4 tc) "") eqn:E4; cbn in H;
             [apply elem_of_nil in H; contradiction|].
           apply list_elem_of_singleton in H. apply String.eqb_neq in E4.
           exists tc. split; [apply elem_of_cons; auto|]. split; [lia|]. left. auto.
        -- destruct (String.eqb (tcIPv6 tc) "") eqn:E6; cbn in H;
             [apply elem_of_nil in H; contradiction|].
           apply list_elem_of_singleton in H. apply String.eqb_neq in E6.
           exists tc. split; [apply elem_of_cons; auto|]. split; [lia|]. right. auto.
        -- apply IH in H as (tc' & Hin & Hrest). exists tc'. split; [|exact Hrest].
           apply elem_of_cons. auto.
    + intros (tc' & Hin & Hport & Hcase).
      apply elem_of_cons in Hin as [->|Hin].
      * destruct (tcDPort tc <=? 0) eqn:E; [apply Z.leb_le in E; lia|].
        destruct Hcase as [[Hne ->]|[Hne ->]].
        -- apply elem_of_app. left. apply String.eqb_neq in Hne. rewrite Hne.
           apply list_elem_of_singleton. reflexivity.
        -- apply elem_of_app. right. apply elem_of_app. left.
           apply String.eqb_neq in Hne. rewrite Hne.
           apply list_elem_of_singleton. reflexivity.
      * assert (Hrest : t ∈ targetStates tcs) by (apply IH; eauto).
        destruct (tcDPort tc <=? 0); [exact Hrest|].
        apply elem_of_app. right. apply elem_of_app. right. exact Hrest.
Qed.

(** X21: the list of states built from a list of entries is exactly this,
    in the order of the entries: for every entry with a positive port, its
    IPv4 state if its IPv4 address is given, then its IPv6 state if its
    IPv6 address is given, both with the entry's name and port; entries
    without a positive port and address fields left empty give nothing,
    and no state is built twice for one address field. *)
Theorem targetStates_are_the_configured_addresses tcs :
  targetStates tcs = flat_map entryStates tcs
  /\ (forall tc,
        0 < tcDPort tc -> tcIPv4 tc <> "" -> tcIPv6 tc <> "" ->
        targetStates [tc] = [stateV4 tc; stateV6 tc])
  /\ (length (targetStates tcs) <= 2 * length tcs)%nat
  /\ (forall t,
        t ∈ targetStates tcs
        <-> exists tc,
              tc ∈ tcs /\ 0 < tcDPort tc
              /\ ((tcIPv4 tc <> "" /\ t = stateV4 tc)
                  \/ (tcIPv6 tc <> "" /\ t = stateV6 tc))).
Proof.
  assert (Hflat : forall l, targetStates l = flat_map entryStates l).
  { induction l as [|tc l IH]; [reflexivity|].
    cbn [targetStates flat_map]. rewrite <- IH. unfold entryStates.
    destruct (tcDPort tc <=? 0) eqn:E1; destruct (0 <? tcDPort tc) eqn:E2.
    - apply Z.leb_le in E1. apply Z.ltb_lt in E2. lia.
    - reflexivity.
    - unfold stateV4, stateV6.
      destruct (String.eqb (tcIPv4 tc) ""), (String.eqb (tcIPv6 tc) "");
        reflexivity.
    - apply Z.leb_gt in E1. apply Z.ltb_ge in E2. lia. }
  split_and!.
  - apply Hflat.
  - intros tc Hp H4 H6. cbn [targetStates].
    destruct (tcDPort tc <=? 0) eqn:E; [apply Z.leb_le in E; lia|].
    apply String.eqb_neq in H4, H6. rewrite H4, H6. reflexivity.
  - rewrite Hflat. induction tcs as [|tc tcs IH]; [cbn; lia|].
    cbn [flat_map length]. rewrite length_app.
    assert (length (entryStates tc) <= 2)%nat; [|lia].
    unfold entryStates.
    destruct (0 <? tcDPort tc), (String.eqb (tcIPv4 tc) ""),
      (String.eqb (tcIPv6 tc) ""); cbn; lia.
  - intros t. apply targetStates_elem.
Qed.

Lemma targetStates_monitorable tcs : Forall monitorable (targetStates tcs).
Proof.
  induction tcs as [|tc tcs IH]; [constructor|].
  cbn [targetStates]. destruct (tcDPort tc <=? 0) eqn:Hport; [exact IH|].
  apply Z.leb_gt in Hport. apply Forall_app. split; [|apply Forall_app; split].
  - destruct (String.eqb (tcIPv4 tc) "") eqn:E; cbn; [constructor|].
    apply String.eqb_neq in E. constructor; [|constructor].
    unfold monitorable. cbn. split_and!; auto.
  - destruct (String.eqb (tcIPv6 tc) "") eqn:E; cbn; [constructor|].
    apply String.eqb_neq in E. constructor; [|constructor].
    unfold monitorable. cbn. split_and!; auto.
  - exact IH.
Qed.

Lemma main_monitoring b cfg loc states rw ev :
  main b = (Monitoring cfg loc states rw, ev) ->
  exists cfg0,
    loadConfig b (configPath b) = Ok cfg0
    /\ String.eqb (Webhook (legacyFallback cfg0)) "" = false
    /\ cfg = applyDefaults (legacyFallback cfg0)
    /\ LoadLocation b (Timezone cfg) = Ok loc
    /\ states = targetStates (Targets cfg)
    /\ states <> [].
Proof.
  unfold main. cbv zeta.
  destruct (newRotatingWriter _ _ _ _) as [d' [rw0|e]]; [|discriminate].
  destruct (loadConfig b (configPath b)) as [cfg0|e]; [|discriminate].
  destruct (String.eqb (Webhook (legacyFallback cfg0)) "") eqn:Hw; [discriminate|].
  destruct (LoadLocation b _) as [loc0|e] eqn:Hloc; [|discriminate].
  destruct (Nat.eqb (length (Targets (applyDefaults (legacyFallback cfg0)))) 0);
    [discriminate|].
  destruct (Nat.eqb (length (targetStates _)) 0) eqn:Hs; [discriminate|].
  run_io. cbn [fst snd]. intros H. injection H as <- <- <- _ _.
  exists cfg0. split_and!; auto.
  intros Hnil.
  change (targetStates (Targets (legacyFallback cfg0)) = []) in Hnil.
  change (Nat.eqb (length (targetStates (Targets (legacyFallback cfg0)))) 0 = false)
    in Hs.
  rewrite Hnil in Hs. discriminate.
Qed.

(** X22: every monitor that startup launches has something to do: the list of
    states is not empty, every state has an address and a positive port
    (so that each cycle does probe), starts Up with no outage recorded and
    pairs its family tag with the matching network; the interval and the
    timeout in force are positive, and webhook and timezone are not
    empty. *)
Theorem started_monitors_are_well_formed b cfg loc states rw ev :
  main b = (Monitoring cfg loc states rw, ev) ->
  states <> []
  /\ Forall monitorable states
  /\ 0 < Delay cfg /\ 0 < Timeout cfg
  /\ Webhook cfg <> "" /\ Timezone cfg <> "".
Proof.
  intros Hmain.
  destruct (main_monitoring _ _ _ _ _ _ Hmain)
    as (cfg0 & _ & Hw & -> & _ & -> & Hne).
  split_and!.
  - exact Hne.
  - apply targetStates_monitorable.
  - cbn. destruct (Delay (legacyFallback cfg0) <=? 0) eqn:E; [lia|].
    now apply Z.leb_gt in E.
  - cbn. destruct (Timeout (legacyFallback cfg0) <=? 0) eqn:E; [lia|].
    now apply Z.leb_gt in E.
  - cbn. now apply String.eqb_neq.
  - cbn. destruct (String.eqb (Timezone (legacyFallback cfg0)) "") eqn:E;
      [discriminate|]. now apply String.eqb_neq.
Qed.

Lemma started_monitors_are_well_formed_witness :
  exists cfg loc states rw ev,
    main (bootWith bareConfig) = (Monitoring cfg loc states rw, ev)
    /\ states <> [] /\ 0 < Delay cfg.
Proof.
  eexists _, _, _, _, _. split; [vm_compute; reflexivity|].
  destruct (started_monitors_are_well_formed (bootWith bareConfig) _ _ _ _ _ eq_refl)
    as (H1 & _ & H2 & _).
  split; [exact H1|exact H2].
Defined.

(** X23: legacy top-level fields count only when the targets list is empty:
    with a list given they are ignored, and without one they stand for a
    single entry named [default].  In both cases the states monitored are
    those built from the resulting entries, in the order of the list, the
    IPv4 state of an entry before its IPv6 state. *)
Theorem legacy_fields_are_a_fallback b cfg loc states rw ev :
  main b = (Monitoring cfg loc states rw, ev) ->
  exists cfg0,
    loadConfig b (configPath b) = Ok cfg0
    /\ states
       = targetStates
           (match Targets cfg0 with
            | [] => [mkTargetConfig "default" (IPv4 cfg0) (IPv6 cfg0) (DPort cfg0)]
            | _ :: _ => Targets cfg0
            end)
    /\ ev = [EvLog ("starting port monitor: targets="
                    +:+ Itoa (Z.of_nat (length states))
                    +:+ " delay=" +:+ Itoa (Delay cfg)
                    +:+ "s timeout=" +:+ Itoa (Timeout cfg)
                    +:+ "s timezone=" +:+ Timezone cfg)].
Proof.
  intros Hmain.
  destruct (main_monitoring _ _ _ _ _ _ Hmain)
    as (cfg0 & Hload & Hw & Hcfg & Hloc & Hst & Hne).
  exists cfg0. split; [exact Hload|]. split.
  - rewrite Hst, Hcfg, Targets_applyDefaults. unfold legacyFallback.
    destruct (Targets cfg0) as [|tc tcs] eqn:Ht; cbn [length Nat.eqb andb].
    + destruct (negb _ || negb _ || negb _) eqn:E; [reflexivity|].
      exfalso. apply Hne. rewrite Hst, Hcfg, Targets_applyDefaults.
      unfold legacyFallback. rewrite Ht. cbn [length Nat.eqb andb]. rewrite E.
      rewrite Ht. reflexivity.
    + rewrite Ht. reflexivity.
  - subst cfg states. revert Hmain. unfold main. cbv zeta.
    destruct (newRotatingWriter _ _ _ _) as [d' [rw0|e]]; [|discriminate].
    rewrite Hload.
    destruct (String.eqb (Webhook (legacyFallback cfg0)) ""); [discriminate|].
    destruct (LoadLocation b _) as [loc0|e]; [|discriminate].
    destruct (Nat.eqb (length (Targets (applyDefaults (legacyFallback cfg0)))) 0);
      [discriminate|].
    destruct (Nat.eqb (length (targetStates _)) 0); [discriminate|].
    run_io. cbn [fst snd]. intros H. injection H as _ _ <-. reflexivity.
Qed.

Lemma legacy_fields_are_a_fallback_witness :
  exists cfg loc rw ev,
    main (bootWith bareConfig)
    = (Monitoring cfg loc
         [mkTargetState "default" "1.1.1.1" "IPv4" "tcp4" 443 false zeroTime] rw, ev).
Proof.
  eexists _, _, _, _.
  destruct (legacy_fields_are_a_fallback (bootWith bareConfig) _ _ _ _ _ eq_refl)
    as (cfg0 & Hload & Hst & _).
  vm_compute. reflexivity.
Defined.

(** ** Alerts *)

Lemma alertTitles_app a b : alertTitles (a ++ b) = alertTitles a ++ alertTitles b.
Proof. unfold alertTitles. apply flat_map_app. Qed.

Lemma alertTitles_quiet l : notifications l = 0%nat -> alertTitles l = [].
Proof.
  unfold notifications. induction l as [|e l IH]; [reflexivity|].
  cbn [List.filter]. destruct (isNotification e) eqn:E; [discriminate|].
  intros H. destruct e; try discriminate E; cbn; auto.
Qed.

Lemma step_titles env cfg loc t :
  String.eqb (IP t) "" = false ->
  alertTitles (events (checkTarget env cfg t loc))
  = if xorb (Down t) (failed env)
    then [if failed env then "Port monitor alert (DOWN)"
          else "Port monitor recovery (UP)"]
    else [].
Proof.
  intros Hip. unfold failed.
  destruct (dialResult env) as [err|] eqn:Hd; destruct (Down t) eqn:Hdown; cbn [xorb].
  - rewrite (checkTarget_down_down _ _ _ _ err) by done. reflexivity.
  - destruct (isTimeout err) eqn:Hto.
    + rewrite (checkTarget_up_down_timeout _ _ _ _ err) by done.
      change (events (?a, ?b)) with b.
      destruct (sendDownAlert_events env cfg (wentDown env loc t) err (traceText env)
                  (In (clock env) loc))
        as (payload & embed & -> & Hemb & Htitle & _).
      change (alertTitles (?a :: ?b :: ?c :: ?l)) with (alertTitles l).
      rewrite !alertTitles_app.
      rewrite (alertTitles_quiet (traceLog env t)) by apply traceLog_quiet.
      replace (alertTitles (if String.eqb (traceText env) "" then [] else _))
        with (@nil string).
      2:{ destruct (String.eqb (traceText env) ""); [reflexivity|].
          symmetry. apply alertTitles_quiet, saveMTRToFile_quiet. }
      cbn [app alertTitles flat_map]. rewrite Hemb. cbn [map app]. rewrite Htitle.
      fold (alertTitles (deliveryLog env "DOWN")).
      now rewrite alertTitles_quiet by apply deliveryLog_quiet.
    + rewrite (checkTarget_up_down_other _ _ _ _ err) by done.
      change (events (?a, ?b)) with b.
      destruct (sendDownAlert_events env cfg (wentDown env loc t) err noMTR
                  (In (clock env) loc))
        as (payload & embed & -> & Hemb & Htitle & _).
      change (alertTitles (?a :: ?b :: ?l)) with (alertTitles l).
      cbn [app alertTitles flat_map]. rewrite Hemb. cbn [map app]. rewrite Htitle.
      fold (alertTitles (deliveryLog env "DOWN")).
      now rewrite alertTitles_quiet by apply deliveryLog_quiet.
  - rewrite checkTarget_down_up by done.
    change (events (?a, ?b)) with b.
    destruct (sendUpAlert_events env cfg t (DownSince t) (In (clock env) loc))
      as (payload & embed & -> & Hemb & Htitle & _).
    change (alertTitles (?a :: ?b :: ?l)) with (alertTitles l).
    cbn [app alertTitles flat_map]. rewrite Hemb. cbn [map app]. rewrite Htitle.
    fold (alertTitles (deliveryLog env "UP")).
    now rewrite alertTitles_quiet by apply deliveryLog_quiet.
  - rewrite checkTarget_up_up by done. reflexivity.
Qed.

(** X12: the alerts of a run are decided by the probe outcomes alone: a down
    alert at every probe that fails while the target is Up, a recovery
    alert at every probe that succeeds while it is Down, in that order and
    nothing else.  Down and recovery alerts therefore alternate, and from
    an Up state the first alert is a down alert. *)
Theorem alerts_follow_the_outcomes cfg loc envs : forall t,
  String.eqb (IP t) "" = false ->
  alertTitles (events (monitorTarget envs cfg t loc))
  = expectedTitles (Down t) (map failed envs).
Proof.
  induction envs as [|env rest IH]; intros t Hip; [reflexivity|].
  rewrite monitorTarget_cons_events, alertTitles_app.
  change (alertTitles (EvSleep ?d :: ?l)) with (alertTitles l).
  rewrite step_titles by assumption.
  rewrite IH by now rewrite checkTarget_address.
  rewrite checkTarget_status by assumption. reflexivity.
Qed.

Lemma alerts_follow_the_outcomes_witness :
  alertTitles
    (events (monitorTarget
               [cycle 1 None; cycle 2 (Some errTimeout); cycle 3 (Some errRefused);
                cycle 4 None; cycle 5 (Some errRefused)]
               sampleConfig sampleTarget berlin))
  = ["Port monitor alert (DOWN)"; "Port monitor recovery (UP)";
     "Port monitor alert (DOWN)"].
Proof.
  rewrite (alerts_follow_the_outcomes sampleConfig berlin
             [cycle 1 None; cycle 2 (Some errTimeout); cycle 3 (Some errRefused);
              cycle 4 None; cycle 5 (Some errRefused)] sampleTarget eq_refl).
  reflexivity.
Defined.

(** X13: [sendToDiscord] returns no error exactly when [client.Do] handed
    back a response with a status from 200 to 299.  Any other status is returned as
    the error [discord webhook status <code>], and a request that could
    not be built or carried out returns the error it met. *)
Theorem delivery_succeeds_on_2xx_only env webhook payload :
  (value (sendToDiscord env webhook payload) = None
   <-> exists status, delivery env = Response status /\ 200 <= status < 300)
  /\ (forall status,
         delivery env = Response status -> ~ 200 <= status < 300 ->
         value (sendToDiscord env webhook payload)
         = Some (errorString ("discord webhook status " +:+ Itoa status)))
  /\ (forall e,
         delivery env = NewRequestError e \/ delivery env = DoError e ->
         value (sendToDiscord env webhook payload) = Some e).
Proof.
  rewrite sendToDiscord_run. unfold deliveryError. cbn [value fst].
  split_and!.
  - destruct (delivery env) as [e|e|status].
    + split; [discriminate|]. intros (s & H & _). discriminate.
    + split; [discriminate|]. intros (s & H & _). discriminate.
    + split.
      * intros H. destruct (status <? 200) eqn:E1; [discriminate|].
        destruct (300 <=? status) eqn:E2; [discriminate|].
        exists status. split; [reflexivity|].
        apply Z.ltb_ge in E1. apply Z.leb_gt in E2. lia.
      * intros (s & [= <-] & Hs).
        destruct (status <? 200) eqn:E1; [apply Z.ltb_lt in E1; lia|].
        destruct (300 <=? status) eqn:E2; [apply Z.leb_le in E2; lia|].
        reflexivity.
  - intros status -> Hout.
    destruct (status <? 200) eqn:E1; destruct (300 <=? status) eqn:E2; cbn [orb];
      try reflexivity.
    apply Z.ltb_ge in E1. apply Z.leb_gt in E2. lia.
  - intros e [-> | ->]; reflexivity.
Qed.

(** ** Where a trace file lands *)

Lemma hasSlash_append s t : hasSlash (s +:+ t) = hasSlash s || hasSlash t.
Proof.
  induction s as [|c s IH]; [reflexivity|].
  rewrite append_cons. cbn [hasSlash]. rewrite IH.
  destruct (Ascii.eqb c "/"); reflexivity.
Qed.

Lemma hasSlash_pretty_N_go x : forall s,
  hasSlash s = false -> hasSlash (pretty_N_go x s) = false.
Proof.
  induction (N.lt_wf_0 x) as [x _ IH]. intros s Hs.
  destruct (decide (x = 0)%N) as [->|Hx].
  - now rewrite pretty_N_go_0.
  - rewrite pretty_N_go_step by lia. apply IH.
    + apply N.div_lt; lia.
    + cbn [hasSlash]. rewrite Hs.
      unfold pretty_N_char. repeat case_match; try reflexivity;
        match goal with
        | H : Ascii.eqb _ _ = true |- _ => cbv in H; discriminate H
        end.
Qed.

Lemma hasSlash_Itoa z : hasSlash (Itoa z) = false.
Proof.
  unfold Itoa, pretty, pretty_Z.
  destruct z as [|q|q]; [reflexivity| |].
  - unfold pretty, pretty_positive, pretty, pretty_N. case_decide; [reflexivity|].
    now apply hasSlash_pretty_N_go.
  - rewrite hasSlash_append.
    unfold pretty, pretty_positive, pretty, pretty_N. case_decide; [reflexivity|].
    now rewrite hasSlash_pretty_N_go.
Qed.

Lemma hasSlash_zeros n : hasSlash (zeros n) = false.
Proof. induction n as [|n IH]; [reflexivity|exact IH]. Qed.

Lemma hasSlash_appendInt x w : hasSlash (appendInt x w) = false.
Proof.
  unfold appendInt.
  assert (H : hasSlash (zeros (w - String.length (pretty (Z.abs x)))
                        +:+ pretty (Z.abs x)) = false).
  { rewrite hasSlash_append, hasSlash_zeros. apply (hasSlash_Itoa (Z.abs x)). }
  destruct (x <? 0); [exact H|exact H].
Qed.

Lemma hasSlash_FormatStamp ts : hasSlash (FormatStamp ts) = false.
Proof.
  unfold FormatStamp, dateTime.
  destruct (civil (localSec ts / 86400)) as [[y m] d].
  rewrite !hasSlash_append, !hasSlash_appendInt. reflexivity.
Qed.

(** X14: the name of a trace file holds a path separator exactly when the
    target's name or its family tag does.  For the states [main] builds
    the tag is IPv4 or IPv6, so a trace lands directly in the [mtr]
    directory unless the configured name itself contains a slash. *)
Theorem trace_filename_separator ts t :
  hasSlash (mtrFilename ts t) = hasSlash (Name t) || hasSlash (IPVersion t).
Proof.
  unfold mtrFilename.
  rewrite !hasSlash_append, hasSlash_FormatStamp, hasSlash_Itoa.
  cbn [hasSlash Ascii.eqb orb].
  destruct (String.eqb (Name t) "") eqn:E.
  - apply String.eqb_eq in E. rewrite E. cbn. now rewrite orb_false_r.
  - rewrite !orb_false_r. reflexivity.
Qed.
